(** * Whisper push-to-toggle dictation: recorder and session controller

    A shallow embedding of [whisper_gui.py], [whisper_cli.py] and
    [create_icons.py], the properties of the recording / transcription
    session that the specification states about them, and further
    properties that the code shows.

    Conventions of the embedding.
    - Numbers are what the program computes with: Python integers, Python
      floats (IEEE binary64) and [numpy.float32] (IEEE binary32), with the
      rounding, the infinities and [nan] of the formats.  The operations
      are those of [SpecFloat], round to nearest even; a NumPy scalar
      meets a Python scalar by the rules of NumPy 2, where the Python
      scalar takes the type of the NumPy one.
    - A Python exception is the text [str(e)] of the exception.
    - Every call into a collaborator that can fail (the audio device, the
      speech engine, the clipboard, the array operations of the callback)
      takes its outcome from an environment argument: [None] when the call
      returns, [Some e] when it raises [e].
    - The process state is threaded explicitly through a state and exception
      monad [Py]; a method of the program is a [Py] computation.
    - Threads are entries of a pool; running one is an event. *)

From Stdlib Require Import String List Bool Arith ZArith Lia SpecFloat.
Import ListNotations.

Set Implicit Arguments.

#[local] Open Scope string_scope.
#[local] Open Scope list_scope.

(** ** Numbers *)

(** A [numpy.float32]: IEEE binary32. *)
Definition float32 : Type := spec_float.

(** A Python [float]: IEEE binary64. *)
Definition float64 : Type := spec_float.

Module F32.

Definition prec : Z := 24.
Definition emax : Z := 128.

(** The number of the format nearest to an integer. *)
Definition of_Z (n : Z) : float32 := binary_normalize prec emax n 0 false.

(** The number of the format nearest to a number of a wider format. *)
Definition round (x : spec_float) : float32 :=
  match x with
  | S754_finite s m e => binary_normalize prec emax (cond_Zopp s (Zpos m)) e s
  | _ => x
  end.

Definition add : float32 -> float32 -> float32 := SFadd prec emax.
Definition sub : float32 -> float32 -> float32 := SFsub prec emax.
Definition mul : float32 -> float32 -> float32 := SFmul prec emax.
Definition div : float32 -> float32 -> float32 := SFdiv prec emax.
Definition sqrt : float32 -> float32 := SFsqrt prec emax.
Definition ltb : float32 -> float32 -> bool := SFltb.

End F32.

Module F64.

Definition prec : Z := 53.
Definition emax : Z := 1024.

Definition of_Z (n : Z) : float64 := binary_normalize prec emax n 0 false.

(** A number of a narrower format, as it is, in the form of this one. *)
Definition round (x : spec_float) : float64 :=
  match x with
  | S754_finite s m e => binary_normalize prec emax (cond_Zopp s (Zpos m)) e s
  | _ => x
  end.

Definition add : float64 -> float64 -> float64 := SFadd prec emax.
Definition sub : float64 -> float64 -> float64 := SFsub prec emax.
Definition mul : float64 -> float64 -> float64 := SFmul prec emax.
Definition div : float64 -> float64 -> float64 := SFdiv prec emax.
Definition ltb : float64 -> float64 -> bool := SFltb.

End F64.

(** A number of the program: a Python [int], a Python [float] or a
    [numpy.float32] scalar. *)
Inductive pynum : Type :=
| PyInt (n : Z)
| PyFloat (x : float64)
| NpFloat32 (x : float32).

(** ** numpy arrays as the recorder uses them *)

(** A two-dimensional array of shape [(length rows, ncols)]: the audio block
    handed to the stream callback has one row per frame and one column per
    channel. *)
Record ndarray : Type := mk_ndarray {
  ncols : nat;
  rows : list (list float32)
}.

(** The one-dimensional array of samples handed to the speech engine. *)
Definition Waveform : Type := list float32.

(** [a.flatten()], row-major. *)
Definition flatten (a : ndarray) : Waveform := concat (rows a).

(** Number of samples of a block. *)
Definition size (a : ndarray) : nat := length (flatten a).

(** A Python exception, as the text [str(e)]. *)
Definition exn : Type := string.

Inductive result (A : Type) : Type :=
| Ok (a : A)
| Raise (e : exn).
Arguments Ok {A} a.
Arguments Raise {A} e.

(** [np.concatenate(arrays, axis=0)]: the arrays must agree on every
    dimension but the first, and there must be one array at least. *)
Definition np_concatenate (arrays : list ndarray) : result ndarray :=
  match arrays with
  | [] => Raise "need at least one array to concatenate"
  | a :: rest =>
      if forallb (fun b => Nat.eqb (ncols b) (ncols a)) rest
      then Ok {| ncols := ncols a; rows := concat (map rows arrays) |}
      else Raise "all the input array dimensions except for the concatenation axis must match exactly"
  end.

(** [indata**2]: every element times itself, in [float32]. *)
Definition np_square (indata : ndarray) : ndarray :=
  {| ncols := ncols indata;
     rows := map (map (fun x => F32.mul x x)) (rows indata) |}.

(** The sum of a [float32] array as [np.add.reduce] forms it, in [float32]
    throughout: fewer than 8 elements are added one after the other; up to
    128 elements are added in eight lanes, the lanes then added in pairs
    and the elements left over added at the end; a longer array is cut in
    two, the first half a multiple of 8 long. *)
Definition lanes_add (r a : list float32) : list float32 :=
  map (fun ra => F32.add (fst ra) (snd ra)) (combine r a).

Fixpoint unrolled_loop (chunks : nat) (r a : list float32)
    : list float32 * list float32 :=
  match chunks with
  | O => (r, a)
  | S k => unrolled_loop k (lanes_add r (firstn 8 a)) (skipn 8 a)
  end.

Definition add_lanes_in_pairs (r : list float32) : float32 :=
  match r with
  | [r0; r1; r2; r3; r4; r5; r6; r7] =>
      F32.add (F32.add (F32.add r0 r1) (F32.add r2 r3))
              (F32.add (F32.add r4 r5) (F32.add r6 r7))
  | _ => S754_nan
  end.

Definition unrolled_sum (a : list float32) : float32 :=
  let '(r, rest) := unrolled_loop (length a / 8 - 1) (firstn 8 a) (skipn 8 a) in
  fold_left F32.add rest (add_lanes_in_pairs r).

(** [fuel] bounds the depth of the halving; [length a] is enough. *)
Fixpoint pairwise_sum (fuel : nat) (a : list float32) : float32 :=
  let n := length a in
  if (n <? 8)%nat then fold_left F32.add a (S754_zero true)
  else if (n <=? 128)%nat then unrolled_sum a
  else
    match fuel with
    | O => S754_nan
    | S fuel' =>
        let n2 := (n / 2 - (n / 2) mod 8)%nat in
        F32.add (pairwise_sum fuel' (firstn n2 a)) (pairwise_sum fuel' (skipn n2 a))
    end.

(** [np.sum(a)], over all the elements in row-major order. *)
Definition np_sum (a : ndarray) : float32 :=
  F32.add (S754_zero false) (pairwise_sum (length (flatten a)) (flatten a)).

(** [np.mean(a)]: the sum is divided by the number of elements as a
    [float64] and the quotient made a [float32]; [nan] on an array without
    elements. *)
Definition np_mean (a : ndarray) : float32 :=
  F32.round (F64.div (F64.round (np_sum a)) (F64.of_Z (Z.of_nat (size a)))).

Definition np_sqrt (x : float32) : float32 := F32.sqrt x.

(** *** Arithmetic of the scalars *)

(** A scalar as a [float64], and as a [float32]. *)
Definition as_float64 (a : pynum) : float64 :=
  match a with
  | PyInt n => F64.of_Z n
  | PyFloat x => x
  | NpFloat32 x => F64.round x
  end.

Definition as_float32 (a : pynum) : float32 :=
  match a with
  | PyInt n => F32.of_Z n
  | PyFloat x => F32.round x
  | NpFloat32 x => x
  end.

Definition is_numpy (a : pynum) : bool :=
  match a with
  | NpFloat32 _ => true
  | _ => false
  end.

(** [a op b]: among Python integers exact; with a [numpy.float32] on
    either side in [float32]; in [float64] otherwise.  (The integers of
    the program are far from those that Python refuses to make a float.) *)
Definition arith (fz : Z -> Z -> Z)
    (f32 : float32 -> float32 -> float32)
    (f64 : float64 -> float64 -> float64) (a b : pynum) : pynum :=
  match a, b with
  | PyInt m, PyInt n => PyInt (fz m n)
  | _, _ =>
      if is_numpy a || is_numpy b
      then NpFloat32 (f32 (as_float32 a) (as_float32 b))
      else PyFloat (f64 (as_float64 a) (as_float64 b))
  end.

Definition py_mul : pynum -> pynum -> pynum := arith Z.mul F32.mul F64.mul.

Definition py_sub : pynum -> pynum -> pynum := arith Z.sub F32.sub F64.sub.

(** [a < b] *)
Definition py_lt (a b : pynum) : bool :=
  match a, b with
  | PyInt m, PyInt n => Z.ltb m n
  | _, _ =>
      if is_numpy a || is_numpy b
      then F32.ltb (as_float32 a) (as_float32 b)
      else F64.ltb (as_float64 a) (as_float64 b)
  end.

(** [m / n] of two Python integers: a [float]. *)
Definition int_truediv (m n : Z) : result float64 :=
  if Z.eqb n 0 then Raise "division by zero"
  else Ok (F64.div (F64.of_Z m) (F64.of_Z n)).

(** [int(a)]: towards zero; Python refuses [nan] and the infinities. *)
Definition py_int (a : pynum) : result Z :=
  match a with
  | PyInt n => Ok n
  | PyFloat x | NpFloat32 x =>
      match x with
      | S754_zero _ => Ok 0%Z
      | S754_finite s m e => Ok (cond_Zopp s (Z.shiftl (Zpos m) e))
      | S754_infinity _ => Raise "cannot convert float infinity to integer"
      | S754_nan => Raise "cannot convert float NaN to integer"
      end
  end.

(** [min(1.0, x)]: [x] when [x < 1.0], which [nan] is not. *)
Definition py_min_1 (x : pynum) : pynum :=
  if py_lt x (PyFloat (F64.of_Z 1)) then x else PyFloat (F64.of_Z 1).

(** ** The process state *)

(** An [sd.InputStream] object. *)
Record InputStream : Type := mk_stream {
  blocksize : nat;          (* 0: chosen by the host *)
  has_callback : bool;
  active : bool;
  closed : bool
}.

(** The result dictionary of the engine is reduced to its ["text"] entry. *)
Definition Engine : Type := Waveform -> result string.

Record Recorder : Type := mk_recorder {
  SAMPLE_RATE : Z;
  CHANNELS : Z;
  BUFFER : list ndarray;
  model_name : string;
  stream : option nat;      (* reference into the stream objects *)
  is_recording : bool;
  start_time : pynum;
  model : option Engine;
  audio_level : pynum
}.

(** Flags of [sounddevice.CallbackFlags]; the object is true when one is set. *)
Inductive CallbackFlag : Type :=
| input_underflow | input_overflow | output_underflow | output_overflow
| priming_output.

Definition CallbackFlags : Type := list CallbackFlag.

(** One constructor per call of [logger] in the methods embedded below. *)
Inductive LogEvent : Type :=
| Warn_stream_status (status : CallbackFlags)   (* "Audio stream status: ..." *)
| Err_audio_callback (e : exn)                  (* "Error in audio callback: ..." *)
| Info_recording_started                        (* "Recording started..." *)
| Err_start_recording (e : exn)                 (* "Failed to start recording: ..." *)
| Info_recording_stopped (duration : pynum)        (* "Recording stopped. Duration: ..." *)
| Warn_no_audio_data                            (* "No audio data was recorded" *)
| Err_stopping_recording (e : exn)              (* "Error stopping recording: ..." *)
| Info_transcribing                             (* "Transcribing audio..." *)
| Err_transcription_failed (e : exn)            (* "Transcription failed: ..." *)
| Err_clipboard (e : exn)                       (* "Failed to copy to clipboard: ..." *)
| Err_message (msg : string)                    (* logger.error(error_msg) *)
| Info_transcription_completed                  (* "Transcription completed and copied to clipboard" *)
| Warn_no_audio.                                (* "No audio was recorded" *)

(** The Windows clipboard, and the texts handed to [SetClipboardText]. *)
Record Clipboard : Type := mk_clipboard {
  clip_open : bool;
  clip_text : option string;
  set_text_calls : list string
}.

Inductive Photo : Type := PhotoImage (path : string).

Inductive Colour : Type := ff4444 | ff8888.

(** The widgets of [WhisperGUI]. *)
Record Widgets : Type := mk_widgets {
  icons : list (string * option Photo);       (* self.icons *)
  record_button : option Photo;               (* image of the button *)
  status_label : string;
  text_box : string;
  visualizer_packed : bool;
  bars : list (option (Z * Colour));          (* rectangle drawn on each canvas *)
  error_dialogs : list (string * string);     (* root.after(0, showerror(title, msg)) *)
  visualizer_timers : nat                     (* root.after(50, update_visualizer) *)
}.

(** Threads of the pool.  A worker [_stop_and_transcribe] that has called
    the engine and has no answer yet holds the waveform it sent. *)
Inductive Thread : Type :=
| Th_record
| Th_stop_and_transcribe
| Th_transcribing (audio_data : Waveform).

Record Process : Type := mk_process {
  recorder : Recorder;
  streams : list InputStream;
  log : list LogEvent;
  engine_calls : list Waveform;
  clipboard : Clipboard;
  gui : Widgets;
  threads : list Thread
}.

(** ** The state and exception monad *)

Definition Py (A : Type) : Type := Process -> result A * Process.

Definition ret {A} (a : A) : Py A := fun p => (Ok a, p).

Definition raise {A} (e : exn) : Py A := fun p => (Raise e, p).

Definition bind {A B} (c : Py A) (k : A -> Py B) : Py B :=
  fun p =>
    match c p with
    | (Ok a, p') => k a p'
    | (Raise e, p') => (Raise e, p')
    end.

(** [try: body  except Exception as e: handler e] *)
Definition try_except {A} (body : Py A) (handler : exn -> Py A) : Py A :=
  fun p =>
    match body p with
    | (Ok a, p') => (Ok a, p')
    | (Raise e, p') => handler e p'
    end.

Notation "x <- c1 ;; c2" := (bind c1 (fun x => c2))
  (at level 61, c1 at next level, right associativity).
Notation "c1 ;; c2" := (bind c1 (fun _ => c2))
  (at level 61, right associativity).

Definition get : Py Process := fun p => (Ok p, p).

Definition modify (f : Process -> Process) : Py unit := fun p => (Ok tt, f p).

(** A call into a collaborator whose outcome the environment decides. *)
Definition call (fault : option exn) : Py unit :=
  match fault with
  | None => ret tt
  | Some e => raise e
  end.

Definition when (b : bool) (c : Py unit) : Py unit :=
  if b then c else ret tt.

(** *** Field updates *)

Definition with_recorder (f : Recorder -> Recorder) (p : Process) : Process :=
  {| recorder := f (recorder p); streams := streams p; log := log p;
     engine_calls := engine_calls p; clipboard := clipboard p; gui := gui p;
     threads := threads p |}.

Definition with_streams (f : list InputStream -> list InputStream) (p : Process) : Process :=
  {| recorder := recorder p; streams := f (streams p); log := log p;
     engine_calls := engine_calls p; clipboard := clipboard p; gui := gui p;
     threads := threads p |}.

Definition with_log (f : list LogEvent -> list LogEvent) (p : Process) : Process :=
  {| recorder := recorder p; streams := streams p; log := f (log p);
     engine_calls := engine_calls p; clipboard := clipboard p; gui := gui p;
     threads := threads p |}.

Definition with_engine_calls (f : list Waveform -> list Waveform) (p : Process) : Process :=
  {| recorder := recorder p; streams := streams p; log := log p;
     engine_calls := f (engine_calls p); clipboard := clipboard p; gui := gui p;
     threads := threads p |}.

Definition with_clipboard (f : Clipboard -> Clipboard) (p : Process) : Process :=
  {| recorder := recorder p; streams := streams p; log := log p;
     engine_calls := engine_calls p; clipboard := f (clipboard p); gui := gui p;
     threads := threads p |}.

Definition with_gui (f : Widgets -> Widgets) (p : Process) : Process :=
  {| recorder := recorder p; streams := streams p; log := log p;
     engine_calls := engine_calls p; clipboard := clipboard p; gui := f (gui p);
     threads := threads p |}.

Definition with_threads (f : list Thread -> list Thread) (p : Process) : Process :=
  {| recorder := recorder p; streams := streams p; log := log p;
     engine_calls := engine_calls p; clipboard := clipboard p; gui := gui p;
     threads := f (threads p) |}.

Definition set_BUFFER (b : list ndarray) (r : Recorder) : Recorder :=
  {| SAMPLE_RATE := SAMPLE_RATE r; CHANNELS := CHANNELS r; BUFFER := b;
     model_name := model_name r; stream := stream r;
     is_recording := is_recording r; start_time := start_time r;
     model := model r; audio_level := audio_level r |}.

Definition set_stream (s : option nat) (r : Recorder) : Recorder :=
  {| SAMPLE_RATE := SAMPLE_RATE r; CHANNELS := CHANNELS r; BUFFER := BUFFER r;
     model_name := model_name r; stream := s;
     is_recording := is_recording r; start_time := start_time r;
     model := model r; audio_level := audio_level r |}.

Definition set_is_recording (b : bool) (r : Recorder) : Recorder :=
  {| SAMPLE_RATE := SAMPLE_RATE r; CHANNELS := CHANNELS r; BUFFER := BUFFER r;
     model_name := model_name r; stream := stream r;
     is_recording := b; start_time := start_time r;
     model := model r; audio_level := audio_level r |}.

Definition set_start_time (t : pynum) (r : Recorder) : Recorder :=
  {| SAMPLE_RATE := SAMPLE_RATE r; CHANNELS := CHANNELS r; BUFFER := BUFFER r;
     model_name := model_name r; stream := stream r;
     is_recording := is_recording r; start_time := t;
     model := model r; audio_level := audio_level r |}.

Definition set_audio_level (l : pynum) (r : Recorder) : Recorder :=
  {| SAMPLE_RATE := SAMPLE_RATE r; CHANNELS := CHANNELS r; BUFFER := BUFFER r;
     model_name := model_name r; stream := stream r;
     is_recording := is_recording r; start_time := start_time r;
     model := model r; audio_level := l |}.

(** [logger.info / warning / error]: the log grows at its end. *)
Definition logger (ev : LogEvent) : Py unit :=
  modify (with_log (fun l => l ++ [ev])).

(** *** Stream objects *)

Definition update_nth {A} (n : nat) (f : A -> A) (l : list A) : list A :=
  match nth_error l n with
  | Some a => firstn n l ++ f a :: skipn (S n) l
  | None => l
  end.

(** [sd.InputStream(...)]: a new object, or the exception of the host. *)
Definition InputStream_new (fault : option exn) (bs : nat) (cb : bool) : Py nat :=
  call fault ;;
  p <- get ;;
  modify (with_streams (fun ss =>
    ss ++ [{| blocksize := bs; has_callback := cb; active := false; closed := false |}])) ;;
  ret (length (streams p)).

Definition stream_start (fault : option exn) (id : nat) : Py unit :=
  call fault ;;
  modify (with_streams (update_nth id (fun s =>
    {| blocksize := blocksize s; has_callback := has_callback s;
       active := true; closed := closed s |}))).

Definition stream_stop (fault : option exn) (id : nat) : Py unit :=
  call fault ;;
  modify (with_streams (update_nth id (fun s =>
    {| blocksize := blocksize s; has_callback := has_callback s;
       active := false; closed := closed s |}))).

Definition stream_close (fault : option exn) (id : nat) : Py unit :=
  call fault ;;
  modify (with_streams (update_nth id (fun s =>
    {| blocksize := blocksize s; has_callback := has_callback s;
       active := false; closed := true |}))).

(** A method called on [self.stream]; on [None] Python raises. *)
Definition on_stream (m : nat -> Py unit) (attr : string) : Py unit :=
  p <- get ;;
  match stream (recorder p) with
  | Some id => m id
  | None => raise ("'NoneType' object has no attribute '" ++ attr ++ "'")%string
  end.

(** ** Outcomes of the collaborators *)

(** Of the audio host during [start_recording], and the clock. *)
Record StartEnv : Type := mk_start_env {
  test_open_fault : option exn;    (* sd.InputStream(...) of the test stream *)
  test_close_fault : option exn;   (* test_stream.close() *)
  open_fault : option exn;         (* sd.InputStream(..., callback=...) *)
  start_fault : option exn;        (* self.stream.start() *)
  start_now : float64              (* time.time() *)
}.

(** Of the audio host during [stop_recording], and the clock. *)
Record StopEnv : Type := mk_stop_env {
  stop_fault : option exn;         (* self.stream.stop() *)
  close_fault : option exn;        (* self.stream.close() *)
  stop_now : float64;              (* time.time() *)
  concatenate_fault : option exn   (* the memory of np.concatenate(...).flatten() *)
}.

(** Of the array operations of one callback. *)
Record CallbackEnv : Type := mk_callback_env {
  copy_fault : option exn;         (* indata.copy() *)
  level_fault : option exn         (* np.sqrt(np.mean(indata**2)) *)
}.

(** Of the four calls of [win32clipboard]. *)
Record ClipEnv : Type := mk_clip_env {
  OpenClipboard_fault : option exn;
  EmptyClipboard_fault : option exn;
  SetClipboardText_fault : option exn;
  CloseClipboard_fault : option exn
}.

Definition lift {A} (r : result A) : Py A := fun p => (r, p).

(** ** whisper_gui.py *)

Module Gui.

Module WhisperRecorder.

(** [WhisperRecorder.__init__], the query of the devices apart. *)
Definition __init__ (name : string) (sample_rate channels : Z) : Recorder :=
  {| SAMPLE_RATE := sample_rate; CHANNELS := channels; BUFFER := [];
     model_name := name; stream := None; is_recording := false;
     start_time := PyInt 0; model := None; audio_level := PyInt 0 |}.

Definition callback (env : CallbackEnv) (indata : ndarray) (frames : nat)
    (time : float64) (status : CallbackFlags) : Py unit :=
  when (negb (Nat.eqb (length status) 0)) (logger (Warn_stream_status status)) ;;
  try_except
    (call (copy_fault env) ;;
     modify (with_recorder (fun r => set_BUFFER (BUFFER r ++ [indata]) r)) ;;
     call (level_fault env) ;;
     modify (with_recorder
       (set_audio_level (NpFloat32 (np_sqrt (np_mean (np_square indata)))))))
    (fun e => logger (Err_audio_callback e)).

Definition start_recording (env : StartEnv) : Py unit :=
  try_except
    (test_stream <- InputStream_new (test_open_fault env) 0 false ;;
     stream_close (test_close_fault env) test_stream ;;
     s <- InputStream_new (open_fault env) 1024 true ;;
     modify (with_recorder (set_stream (Some s))) ;;
     on_stream (stream_start (start_fault env)) "start" ;;
     modify (with_recorder (set_is_recording true)) ;;
     modify (with_recorder (set_start_time (PyFloat (start_now env)))) ;;
     logger Info_recording_started)
    (fun e => logger (Err_start_recording e) ;; raise e).

Definition stop_recording (env : StopEnv) : Py (option Waveform) :=
  p <- get ;;
  if negb (is_recording (recorder p)) then ret None
  else
    try_except
      (on_stream (stream_stop (stop_fault env)) "stop" ;;
       on_stream (stream_close (close_fault env)) "close" ;;
       modify (with_recorder (set_is_recording false)) ;;
       p <- get ;;
       logger (Info_recording_stopped
                 (py_sub (PyFloat (stop_now env)) (start_time (recorder p)))) ;;
       p <- get ;;
       match BUFFER (recorder p) with
       | [] => logger Warn_no_audio_data ;; ret None
       | _ :: _ =>
           audio_data <- lift (np_concatenate (BUFFER (recorder p))) ;;
           call (concatenate_fault env) ;;
           modify (with_recorder (set_BUFFER [])) ;;
           ret (Some (flatten audio_data))
       end)
      (fun e => logger (Err_stopping_recording e) ;; ret None).

(** [self.model.transcribe(audio_data, fp16=False)["text"]] *)
Definition model_transcribe (audio_data : Waveform) : Py string :=
  p <- get ;;
  match model (recorder p) with
  | None => raise "'NoneType' object has no attribute 'transcribe'"
  | Some engine =>
      modify (with_engine_calls (fun c => c ++ [audio_data])) ;;
      lift (engine audio_data)
  end.

Definition transcribe (audio_data : option Waveform) : Py string :=
  match audio_data with
  | None => ret EmptyString
  | Some a =>
      try_except
        (logger Info_transcribing ;;
         model_transcribe a)
        (fun e => logger (Err_transcription_failed e) ;; ret EmptyString)
  end.

End WhisperRecorder.

Definition copy_to_clipboard (env : ClipEnv) (text : string) : Py unit :=
  try_except
    (call (OpenClipboard_fault env) ;;
     modify (with_clipboard (fun c =>
       {| clip_open := true; clip_text := clip_text c;
          set_text_calls := set_text_calls c |})) ;;
     call (EmptyClipboard_fault env) ;;
     modify (with_clipboard (fun c =>
       {| clip_open := clip_open c; clip_text := None;
          set_text_calls := set_text_calls c |})) ;;
     modify (with_clipboard (fun c =>
       {| clip_open := clip_open c; clip_text := clip_text c;
          set_text_calls := set_text_calls c ++ [text] |})) ;;
     call (SetClipboardText_fault env) ;;
     modify (with_clipboard (fun c =>
       {| clip_open := clip_open c; clip_text := Some text;
          set_text_calls := set_text_calls c |})) ;;
     call (CloseClipboard_fault env) ;;
     modify (with_clipboard (fun c =>
       {| clip_open := false; clip_text := clip_text c;
          set_text_calls := set_text_calls c |})))
    (fun e => logger (Err_clipboard e)).

(** *** WhisperGUI *)

(** [d[k]] on a dictionary with string keys: the value, or [KeyError]. *)
Fixpoint dict_get {V} (d : list (string * V)) (k : string) : option V :=
  match d with
  | [] => None
  | (k', v) :: d' => if String.eqb k' k then Some v else dict_get d' k
  end.

Definition set_record_button (v : option Photo) (w : Widgets) : Widgets :=
  {| icons := icons w; record_button := v; status_label := status_label w;
     text_box := text_box w; visualizer_packed := visualizer_packed w;
     bars := bars w; error_dialogs := error_dialogs w;
     visualizer_timers := visualizer_timers w |}.

Definition set_status_label (t : string) (w : Widgets) : Widgets :=
  {| icons := icons w; record_button := record_button w; status_label := t;
     text_box := text_box w; visualizer_packed := visualizer_packed w;
     bars := bars w; error_dialogs := error_dialogs w;
     visualizer_timers := visualizer_timers w |}.

Definition set_text_box (t : string) (w : Widgets) : Widgets :=
  {| icons := icons w; record_button := record_button w;
     status_label := status_label w; text_box := t;
     visualizer_packed := visualizer_packed w; bars := bars w;
     error_dialogs := error_dialogs w;
     visualizer_timers := visualizer_timers w |}.

Definition set_visualizer_packed (b : bool) (w : Widgets) : Widgets :=
  {| icons := icons w; record_button := record_button w;
     status_label := status_label w; text_box := text_box w;
     visualizer_packed := b; bars := bars w;
     error_dialogs := error_dialogs w;
     visualizer_timers := visualizer_timers w |}.

Definition set_bars (b : list (option (Z * Colour))) (w : Widgets) : Widgets :=
  {| icons := icons w; record_button := record_button w;
     status_label := status_label w; text_box := text_box w;
     visualizer_packed := visualizer_packed w; bars := b;
     error_dialogs := error_dialogs w;
     visualizer_timers := visualizer_timers w |}.

Definition set_error_dialogs (d : list (string * string)) (w : Widgets) : Widgets :=
  {| icons := icons w; record_button := record_button w;
     status_label := status_label w; text_box := text_box w;
     visualizer_packed := visualizer_packed w; bars := bars w;
     error_dialogs := d; visualizer_timers := visualizer_timers w |}.

Definition set_visualizer_timers (n : nat) (w : Widgets) : Widgets :=
  {| icons := icons w; record_button := record_button w;
     status_label := status_label w; text_box := text_box w;
     visualizer_packed := visualizer_packed w; bars := bars w;
     error_dialogs := error_dialogs w; visualizer_timers := n |}.

Module WhisperGUI.

(** [self.icons[k]] *)
Definition icons_getitem (k : string) : Py (option Photo) :=
  p <- get ;;
  match dict_get (icons (gui p)) k with
  | Some v => ret v
  | None => raise ("'" ++ k ++ "'")%string
  end.

(** [self.record_button.configure(image=v)]: an option that is [None] is
    left as it is. *)
Definition record_button_configure (v : option Photo) : Py unit :=
  match v with
  | Some ph => modify (with_gui (set_record_button (Some ph)))
  | None => ret tt
  end.

(** [self.text_box.delete(1.0, tk.END); self.text_box.insert(tk.END, t)] *)
Definition text_box_replace (t : string) : Py unit :=
  modify (with_gui (set_text_box t)).

(** [self.root.after(0, lambda: messagebox.showerror(title, msg))] *)
Definition after_showerror (title msg : string) : Py unit :=
  modify (with_gui (fun w => set_error_dialogs (error_dialogs w ++ [(title, msg)]) w)).

(** [max(2, int(20 * level * (1 - abs(i - 20) / 20)))] *)
Definition bar_height (level : pynum) (i : nat) : result Z :=
  match int_truediv (Z.abs (Z.of_nat i - 20)) 20 with
  | Raise e => Raise e
  | Ok q =>
      match py_int (py_mul (py_mul (PyInt 20) level)
                           (py_sub (PyInt 1) (PyFloat q))) with
      | Raise e => Raise e
      | Ok h => Ok (Z.max 2 h)
      end
  end.

(** ['#ff4444' if level > 0.5 else '#ff8888'] *)
Definition bar_colour (level : pynum) : Colour :=
  if py_lt (PyFloat (F64.div (F64.of_Z 1) (F64.of_Z 2))) level then ff4444 else ff8888.

(** The body of the loop over the bars: the height is computed, then the
    canvas is cleared and the rectangle drawn. *)
Definition draw_bar (level : pynum) (i : nat) : Py unit :=
  h <- lift (bar_height level i) ;;
  modify (with_gui (fun w =>
    set_bars (update_nth i (fun _ => Some (h, bar_colour level)) (bars w)) w)).

Fixpoint for_each_bar (level : pynum) (indices : list nat) : Py unit :=
  match indices with
  | [] => ret tt
  | i :: rest => draw_bar level i ;; for_each_bar level rest
  end.

Definition update_visualizer : Py unit :=
  p <- get ;;
  if negb (is_recording (recorder p)) then ret tt
  else
    let level := py_min_1 (py_mul (audio_level (recorder p)) (PyInt 5)) in
    for_each_bar level (seq 0 (length (bars (gui p)))) ;;
    modify (with_gui (fun w => set_visualizer_timers (S (visualizer_timers w)) w)).

(** [threading.Thread(target=..., daemon=True).start()] *)
Definition Thread_start (t : Thread) : Py unit :=
  modify (with_threads (fun ts => ts ++ [t])).

Definition start_recording : Py unit :=
  image <- icons_getitem "mic" ;;
  record_button_configure image ;;
  modify (with_gui (set_status_label "Recording...")) ;;
  modify (with_gui (set_visualizer_packed true)) ;;
  update_visualizer ;;
  Thread_start Th_record.

Definition _record (env : StartEnv) : Py unit :=
  try_except
    (WhisperRecorder.start_recording env)
    (fun e =>
       let error_msg := ("Error starting recording: " ++ e)%string in
       logger (Err_message error_msg) ;;
       after_showerror "Recording Error" error_msg ;;
       image <- icons_getitem "record" ;;
       record_button_configure image ;;
       text_box_replace error_msg).

Definition stop_recording : Py unit :=
  image <- icons_getitem "record" ;;
  record_button_configure image ;;
  modify (with_gui (set_status_label "Generating text...")) ;;
  modify (with_gui (set_visualizer_packed false)) ;;
  Thread_start Th_stop_and_transcribe.

Definition toggle_recording : Py unit :=
  p <- get ;;
  if negb (is_recording (recorder p)) then start_recording
  else stop_recording.

Definition _stop_and_transcribe (senv : StopEnv) (cenv : ClipEnv) : Py unit :=
  try_except
    (audio_data <- WhisperRecorder.stop_recording senv ;;
     match audio_data with
     | Some _ =>
         text <- WhisperRecorder.transcribe audio_data ;;
         text_box_replace text ;;
         copy_to_clipboard cenv text ;;
         modify (with_gui (set_status_label "Ready to record")) ;;
         logger Info_transcription_completed
     | None =>
         text_box_replace "No audio recorded" ;;
         modify (with_gui (set_status_label "Ready to record")) ;;
         logger Warn_no_audio
     end)
    (fun e =>
       let error_msg := ("Error during transcription: " ++ e)%string in
       logger (Err_message error_msg) ;;
       after_showerror "Transcription Error" error_msg ;;
       text_box_replace error_msg ;;
       modify (with_gui (set_status_label "Ready to record"))).

(** The widgets after [load_icons] and [create_widgets]: forty bars, the
    visualizer packed and forgotten, the image of the button set when the
    dictionary has a true entry ["record"]. *)
Definition create_widgets (ic : list (string * option Photo)) : Widgets :=
  {| icons := ic;
     record_button := match dict_get ic "record" with
                      | Some (Some ph) => Some ph
                      | _ => None
                      end;
     status_label := "Ready to record";
     text_box := EmptyString;
     visualizer_packed := false;
     bars := repeat None 40;
     error_dialogs := [];
     visualizer_timers := 0 |}.

(** The process once [WhisperGUI.__init__] has returned: the recorder made
    with its defaults, the model loaded. *)
Definition __init__ (engine : Engine) (ic : list (string * option Photo)) : Process :=
  {| recorder :=
       let r := WhisperRecorder.__init__ "small" 16000 1 in
       {| SAMPLE_RATE := SAMPLE_RATE r; CHANNELS := CHANNELS r;
          BUFFER := BUFFER r; model_name := model_name r; stream := stream r;
          is_recording := is_recording r; start_time := start_time r;
          model := Some engine; audio_level := audio_level r |};
     streams := [];
     log := [];
     engine_calls := [];
     clipboard := {| clip_open := false; clip_text := None; set_text_calls := [] |};
     gui := create_widgets ic;
     threads := [] |}.

End WhisperGUI.

End Gui.

(** ** whisper_cli.py: the recorder *)

Module Cli.

Module WhisperRecorder.

Definition __init__ (name : string) (sample_rate channels : Z) : Recorder :=
  Gui.WhisperRecorder.__init__ name sample_rate channels.

(** No handler here: what the array operations raise leaves the callback. *)
Definition callback (env : CallbackEnv) (indata : ndarray) (frames : nat)
    (time : float64) (status : CallbackFlags) : Py unit :=
  when (negb (Nat.eqb (length status) 0)) (logger (Warn_stream_status status)) ;;
  call (copy_fault env) ;;
  modify (with_recorder (fun r => set_BUFFER (BUFFER r ++ [indata]) r)) ;;
  call (level_fault env) ;;
  modify (with_recorder
    (set_audio_level (NpFloat32 (np_sqrt (np_mean (np_square indata)))))).

(** No test stream and no block size here. *)
Definition start_recording (env : StartEnv) : Py unit :=
  try_except
    (s <- InputStream_new (open_fault env) 0 true ;;
     modify (with_recorder (set_stream (Some s))) ;;
     on_stream (stream_start (start_fault env)) "start" ;;
     modify (with_recorder (set_is_recording true)) ;;
     modify (with_recorder (set_start_time (PyFloat (start_now env)))) ;;
     logger Info_recording_started)
    (fun e => logger (Err_start_recording e) ;; raise e).

(** No handler here either. *)
Definition stop_recording (env : StopEnv) : Py (option Waveform) :=
  p <- get ;;
  if negb (is_recording (recorder p)) then ret None
  else
    on_stream (stream_stop (stop_fault env)) "stop" ;;
    on_stream (stream_close (close_fault env)) "close" ;;
    modify (with_recorder (set_is_recording false)) ;;
    p <- get ;;
    logger (Info_recording_stopped
              (py_sub (PyFloat (stop_now env)) (start_time (recorder p)))) ;;
    p <- get ;;
    match BUFFER (recorder p) with
    | [] => logger Warn_no_audio_data ;; ret None
    | _ :: _ =>
        audio_data <- lift (np_concatenate (BUFFER (recorder p))) ;;
        call (concatenate_fault env) ;;
        modify (with_recorder (set_BUFFER [])) ;;
        ret (Some (flatten audio_data))
    end.

Definition transcribe (audio_data : option Waveform) : Py string :=
  match audio_data with
  | None => ret EmptyString
  | Some a =>
      try_except
        (logger Info_transcribing ;;
         Gui.WhisperRecorder.model_transcribe a)
        (fun e => logger (Err_transcription_failed e) ;; ret EmptyString)
  end.

End WhisperRecorder.

End Cli.

(** ** The session: user intents, threads and the audio host *)

Module Session.

Import Gui.

(** What the specification calls the state of the session controller.  The
    program keeps no such value: it keeps [is_recording], and a worker that
    holds a waveform is a transcription in flight. *)
Inductive SessionState : Type := Idle | Recording | Transcribing.

Definition is_transcribing (t : Thread) : bool :=
  match t with
  | Th_transcribing _ => true
  | _ => false
  end.

Definition transcription_in_flight (p : Process) : bool :=
  existsb is_transcribing (threads p).

Definition session_state (p : Process) : SessionState :=
  if transcription_in_flight p then Transcribing
  else if is_recording (recorder p) then Recording
  else Idle.

(** [WhisperRecorder.transcribe] on a waveform, in two parts: up to the
    point where the engine has been called, and from the point where the
    engine answers. *)
Definition call_engine (a : Waveform) : Py unit :=
  logger Info_transcribing ;;
  p <- get ;;
  match model (recorder p) with
  | Some _ => modify (with_engine_calls (fun c => c ++ [a]))
  | None => ret tt
  end.

Definition engine_answers (a : Waveform) : Py string :=
  try_except
    (p <- get ;;
     match model (recorder p) with
     | None => raise "'NoneType' object has no attribute 'transcribe'"
     | Some engine => lift (engine a)
     end)
    (fun e => logger (Err_transcription_failed e) ;; ret EmptyString).

(** The two parts of [_stop_and_transcribe], before and after the point
    where the worker waits for the engine. *)
Definition transcription_error (e : exn) : Py unit :=
  let error_msg := ("Error during transcription: " ++ e)%string in
  logger (Err_message error_msg) ;;
  WhisperGUI.after_showerror "Transcription Error" error_msg ;;
  WhisperGUI.text_box_replace error_msg ;;
  modify (with_gui (set_status_label "Ready to record")).

Definition stop_phase (senv : StopEnv) : Py (option Waveform) :=
  try_except
    (audio_data <- WhisperRecorder.stop_recording senv ;;
     match audio_data with
     | Some a => call_engine a ;; ret (Some a)
     | None =>
         WhisperGUI.text_box_replace "No audio recorded" ;;
         modify (with_gui (set_status_label "Ready to record")) ;;
         logger Warn_no_audio ;;
         ret None
     end)
    (fun e => transcription_error e ;; ret None).

Definition transcribe_phase (cenv : ClipEnv) (a : Waveform) : Py unit :=
  try_except
    (text <- engine_answers a ;;
     WhisperGUI.text_box_replace text ;;
     copy_to_clipboard cenv text ;;
     modify (with_gui (set_status_label "Ready to record")) ;;
     logger Info_transcription_completed)
    transcription_error.

Definition remove_nth {A} (n : nat) (l : list A) : list A :=
  firstn n l ++ skipn (S n) l.

Inductive Event : Type :=
| Toggle                                   (* button, <space> or <Return> *)
| Toggle_during_record (i : nat) (env : StartEnv)
                                           (* a toggle during which thread i runs _record *)
| Run_record (i : nat) (env : StartEnv)    (* thread i runs _record *)
| Run_stop (i : nat) (env : StopEnv)       (* thread i runs _stop_and_transcribe up to the engine *)
| Engine_done (i : nat) (env : ClipEnv)    (* the engine answers thread i, which runs to its end *)
| Audio_block (id : nat) (env : CallbackEnv) (indata : ndarray) (status : CallbackFlags)
                                           (* stream id delivers a block *)
| Timer.                                   (* a timer of the visualizer fires *)

(** One event.  [None]: the event cannot happen in this state.  An
    exception that leaves a Tk callback or a thread ends that callback or
    thread, and the effects it had stay.

    A toggle, a thread [_record] and each part of a worker run without
    interruption, with one exception: in [Toggle_during_record] the thread
    [_record] runs after [toggle_recording] has read [is_recording] and
    before the method it then calls has done anything, so that
    [update_visualizer] reads [is_recording] anew after the thread. *)
Definition step (ev : Event) (p : Process) : option Process :=
  match ev with
  | Toggle => Some (snd (WhisperGUI.toggle_recording p))
  | Toggle_during_record i env =>
      match nth_error (threads p) i with
      | Some Th_record =>
          let p1 := snd (WhisperGUI._record env (with_threads (remove_nth i) p)) in
          if negb (is_recording (recorder p))
          then Some (snd (WhisperGUI.start_recording p1))
          else Some (snd (WhisperGUI.stop_recording p1))
      | _ => None
      end
  | Run_record i env =>
      match nth_error (threads p) i with
      | Some Th_record =>
          Some (snd (WhisperGUI._record env (with_threads (remove_nth i) p)))
      | _ => None
      end
  | Run_stop i env =>
      match nth_error (threads p) i with
      | Some Th_stop_and_transcribe =>
          match stop_phase env p with
          | (Ok (Some a), p') =>
              Some (with_threads (update_nth i (fun _ => Th_transcribing a)) p')
          | (_, p') => Some (with_threads (remove_nth i) p')
          end
      | _ => None
      end
  | Engine_done i env =>
      match nth_error (threads p) i with
      | Some (Th_transcribing a) =>
          Some (snd (transcribe_phase env a (with_threads (remove_nth i) p)))
      | _ => None
      end
  | Audio_block id env indata status =>
      match nth_error (streams p) id with
      | Some s =>
          if active s && has_callback s
          then Some (snd (WhisperRecorder.callback env indata (length (rows indata))
                            (S754_zero false) status p))
          else None
      | None => None
      end
  | Timer =>
      match visualizer_timers (gui p) with
      | S n =>
          Some (snd (WhisperGUI.update_visualizer
                       (with_gui (set_visualizer_timers n) p)))
      | O => None
      end
  end.

Fixpoint run (evs : list Event) (p : Process) : option Process :=
  match evs with
  | [] => Some p
  | ev :: evs' =>
      match step ev p with
      | Some p' => run evs' p'
      | None => None
      end
  end.

End Session.

(** ** Environments without a fault *)

Definition start_ok (now : float64) : StartEnv :=
  {| test_open_fault := None; test_close_fault := None; open_fault := None;
     start_fault := None; start_now := now |}.

Definition stop_ok (now : float64) : StopEnv :=
  {| stop_fault := None; close_fault := None; stop_now := now;
     concatenate_fault := None |}.

Definition callback_ok : CallbackEnv :=
  {| copy_fault := None; level_fault := None |}.

Definition clip_ok : ClipEnv :=
  {| OpenClipboard_fault := None; EmptyClipboard_fault := None;
     SetClipboardText_fault := None; CloseClipboard_fault := None |}.

(** The callbacks of one session, in the order of arrival. *)
Fixpoint run_callbacks (cb : ndarray -> nat -> float64 -> CallbackFlags -> Py unit)
    (blocks : list (ndarray * CallbackFlags)) (p : Process) : result unit * Process :=
  match blocks with
  | [] => (Ok tt, p)
  | (indata, status) :: rest =>
      match cb indata (length (rows indata)) (S754_zero false) status p with
      | (Ok _, p') => run_callbacks cb rest p'
      | (Raise e, p') => (Raise e, p')
      end
  end.

(** ** The host: files, icons and the model

    [get_resource_path], [get_icon_path], [load_icons] and [load_model] of
    [whisper_gui.py], [load_model] of [whisper_cli.py] and
    [create_mic_icon] of [create_icons.py].  They act on the file system,
    on [os.environ] and on the log; [os.path.join] is a parameter. *)

Module Host.

(** One constructor per call of [logger] in these functions. *)
Inductive HostLog : Type :=
| Info_created_icons_directory (d : string)   (* "Created icons directory: ..." *)
| Warn_icon_not_found (icon_name : string)    (* "Icon not found: ..." *)
| Info_record_button_loaded                   (* "Record button loaded successfully" *)
| Err_record_button_not_found                 (* "Record button not found" *)
| Info_microphone_icon_loaded                 (* "Microphone icon loaded successfully" *)
| Err_microphone_icon_not_found               (* "Microphone icon not found" *)
| Err_failed_to_load_icons (e : exn)          (* "Failed to load icons: ..." *)
| Info_loading_icon_from (p : string)         (* "Loading record button from: ..." and the like *)
| Err_mic_png_not_found (p : string)          (* "mic.png not found at: ..." *)
| Info_created_mic_ico (p : string)           (* "Successfully created mic.ico at: ..." *)
| Err_failed_to_create_mic_ico (e : exn)      (* "Failed to create mic.ico: ..." *)
| Info_loading_model (name : string)          (* "Loading Whisper model: ..." *)
| Info_model_loaded                           (* "Model loaded successfully." *)
| Warn_initial_load_failed (e : exn)          (* "Initial model load failed: ..." *)
| Info_checking_assets (paths : list string)  (* "Checking for Whisper assets in:" and a line per path *)
| Info_found_assets (p : string)              (* "Found Whisper assets at: ..." *)
| Err_assets_not_found                        (* "Whisper assets not found in any location" *)
| Info_model_loaded_after_assets              (* "Model loaded successfully after setting assets path." *)
| Err_failed_to_load_model (e : exn).         (* "Failed to load model: ..." *)

(** A [PIL] image, as far as the program looks at it. *)
Record Image : Type := mk_image {
  width : nat;
  height : nat
}.

(** What [Image.save(..., format='ICO', sizes=..., append_images=...)] is
    asked to write. *)
Record IcoFile : Type := mk_ico {
  ico_path : string;
  ico_first : Image;
  ico_sizes : list (nat * nat);
  ico_append_images : list Image
}.

Record Host : Type := mk_host {
  paths : list string;                 (* the paths that exist *)
  WHISPER_ASSETS : option string;      (* os.environ['WHISPER_ASSETS'] *)
  saved : list IcoFile;                (* the calls of Image.save *)
  model_loads : list (string * option string);
                                       (* the calls of whisper.load_model: the
                                          name, and WHISPER_ASSETS at the call *)
  host_log : list HostLog
}.

(** Outcomes of the collaborators. *)
Record HostEnv : Type := mk_host_env {
  _MEIPASS : option string;                  (* sys._MEIPASS, when frozen *)
  script_dir : string;                       (* os.path.dirname(os.path.abspath(__file__)) *)
  makedirs_fault : option exn;               (* os.makedirs *)
  image_fault : string -> option exn;        (* Image.open(path), resize, PhotoImage *)
  png_image : result Image;                  (* Image.open of mic.png *)
  resize_fault : nat * nat -> option exn;    (* img.resize(size, LANCZOS) *)
  save_fault : option exn;                   (* Image.save *)
  direct_load : result Engine;               (* whisper.load_model, first call *)
  retry_load : result Engine;                (* whisper.load_model, assets path set *)
  site_packages : list string                (* site.getsitepackages() *)
}.

Definition IO (A : Type) : Type := Host -> result A * Host.

Definition io_ret {A} (a : A) : IO A := fun h => (Ok a, h).

Definition io_raise {A} (e : exn) : IO A := fun h => (Raise e, h).

Definition io_bind {A B} (c : IO A) (k : A -> IO B) : IO B :=
  fun h =>
    match c h with
    | (Ok a, h') => k a h'
    | (Raise e, h') => (Raise e, h')
    end.

Definition io_try {A} (body : IO A) (handler : exn -> IO A) : IO A :=
  fun h =>
    match body h with
    | (Ok a, h') => (Ok a, h')
    | (Raise e, h') => handler e h'
    end.

Declare Scope io_scope.
Delimit Scope io_scope with io.
Notation "x <- c1 ;; c2" := (io_bind c1 (fun x => c2))
  (at level 61, c1 at next level, right associativity) : io_scope.
Notation "c1 ;; c2" := (io_bind c1 (fun _ => c2))
  (at level 61, right associativity) : io_scope.
#[local] Open Scope io_scope.

Definition io_get : IO Host := fun h => (Ok h, h).

Definition io_call (fault : option exn) : IO unit :=
  match fault with
  | None => io_ret tt
  | Some e => io_raise e
  end.

Definition io_lift {A} (r : result A) : IO A := fun h => (r, h).

Definition io_log (ev : HostLog) : IO unit := fun h =>
  (Ok tt, {| paths := paths h; WHISPER_ASSETS := WHISPER_ASSETS h;
             saved := saved h; model_loads := model_loads h;
             host_log := host_log h ++ [ev] |}).

(** [os.path.exists(p)] *)
Definition path_exists (h : Host) (p : string) : bool :=
  existsb (String.eqb p) (paths h).

(** [os.makedirs(d)]: the directory exists afterwards. *)
Definition makedirs (env : HostEnv) (d : string) : IO unit :=
  io_call (makedirs_fault env) ;;
  (fun h => (Ok tt, {| paths := d :: paths h; WHISPER_ASSETS := WHISPER_ASSETS h;
                       saved := saved h; model_loads := model_loads h;
                       host_log := host_log h |})).

(** The truth of a value that is [None] or a string. *)
Definition truthy (p : option string) : bool :=
  match p with
  | Some s => negb (String.eqb s EmptyString)
  | None => false
  end.

Section Paths.

(** [os.path.join] of two components. *)
Variable join : string -> string -> string.

Definition get_resource_path (env : HostEnv) (relative_path : string) : string :=
  let base_path :=
    match _MEIPASS env with
    | Some d => d
    | None => script_dir env
    end in
  join base_path relative_path.

Definition get_icon_path (env : HostEnv) (icon_name : string) : IO (option string) :=
  let icon_dir := get_resource_path env "icons" in
  h <- io_get ;;
  (if negb (path_exists h icon_dir)
   then makedirs env icon_dir ;; io_log (Info_created_icons_directory icon_dir)
   else io_ret tt) ;;
  let ico_path := join icon_dir (icon_name ++ ".ico")%string in
  h <- io_get ;;
  if path_exists h ico_path then io_ret (Some ico_path)
  else
    let png_path := join icon_dir (icon_name ++ ".png")%string in
    if path_exists h png_path then io_ret (Some png_path)
    else io_log (Warn_icon_not_found icon_name) ;; io_ret None.

(** [Image.open(path)], [resize((32, 32), LANCZOS)], [ImageTk.PhotoImage]. *)
Definition load_photo (env : HostEnv) (path : string) : IO Photo :=
  io_call (image_fault env path) ;; io_ret (PhotoImage path).

(** [d[k] = v] *)
Fixpoint dict_set {V} (d : list (string * V)) (k : string) (v : V) : list (string * V) :=
  match d with
  | [] => [(k, v)]
  | (k', v') :: d' =>
      if String.eqb k' k then (k, v) :: d' else (k', v') :: dict_set d' k v
  end.

(** [WhisperGUI.load_icons] of [whisper_gui.py]; its result is [self.icons]. *)
Definition load_icons (env : HostEnv) : IO (list (string * option Photo)) :=
  io_try
    (let icons : list (string * option Photo) := [] in
     record_path <- get_icon_path env "record" ;;
     icons <-
       (if truthy record_path
        then
          match record_path with
          | Some path =>
              ph <- load_photo env path ;;
              io_log Info_record_button_loaded ;;
              io_ret (dict_set icons "record" (Some ph))
          | None => io_ret icons
          end
        else io_log Err_record_button_not_found ;; io_ret icons) ;;
     mic_path <- get_icon_path env "mic" ;;
     if truthy mic_path
     then
       match mic_path with
       | Some path =>
           ph <- load_photo env path ;;
           io_log Info_microphone_icon_loaded ;;
           io_ret (dict_set icons "mic" (Some ph))
       | None => io_ret icons
       end
     else io_log Err_microphone_icon_not_found ;; io_ret icons)
    (fun e =>
       io_log (Err_failed_to_load_icons e) ;;
       io_ret [("record", None); ("mic", None)]).

(** The sizes of the ICO file. *)
Definition sizes : list (nat * nat) :=
  [(16, 16); (32, 32); (48, 48); (64, 64); (128, 128); (256, 256)].

(** [img.resize(size, Image.Resampling.LANCZOS)] *)
Definition resize (env : HostEnv) (img : Image) (size : nat * nat) : IO Image :=
  io_call (resize_fault env size) ;;
  io_ret {| width := fst size; height := snd size |}.

(** [for size in sizes: resized_images.append(img.resize(size, ...))] *)
Fixpoint resize_all (env : HostEnv) (img : Image) (ss : list (nat * nat))
    (resized_images : list Image) : IO (list Image) :=
  match ss with
  | [] => io_ret resized_images
  | size :: ss' =>
      resized <- resize env img size ;;
      resize_all env img ss' (resized_images ++ [resized])
  end.

(** [first.save(ico_path, format='ICO', sizes=..., append_images=...)] *)
Definition save (env : HostEnv) (f : IcoFile) : IO unit :=
  io_call (save_fault env) ;;
  (fun h => (Ok tt, {| paths := ico_path f :: paths h;
                       WHISPER_ASSETS := WHISPER_ASSETS h;
                       saved := saved h ++ [f]; model_loads := model_loads h;
                       host_log := host_log h |})).

(** [create_mic_icon] of [create_icons.py]. *)
Definition create_mic_icon (env : HostEnv) : IO bool :=
  io_try
    (let icons_dir := "icons" in
     h <- io_get ;;
     (if negb (path_exists h icons_dir)
      then makedirs env icons_dir ;; io_log (Info_created_icons_directory icons_dir)
      else io_ret tt) ;;
     let png_path := join icons_dir "mic.png" in
     h <- io_get ;;
     if negb (path_exists h png_path)
     then io_log (Err_mic_png_not_found png_path) ;; io_ret false
     else
       img <- io_lift (png_image env) ;;
       resized_images <- resize_all env img sizes [] ;;
       let ico_path := join icons_dir "mic.ico" in
       match resized_images with
       | [] => io_raise "list index out of range"
       | first :: rest =>
           save env {| ico_path := ico_path; ico_first := first;
                       ico_sizes := map (fun img => (width img, height img)) resized_images;
                       ico_append_images := rest |} ;;
           io_log (Info_created_mic_ico ico_path) ;;
           io_ret true
       end)
    (fun e => io_log (Err_failed_to_create_mic_ico e) ;; io_ret false).

(** [recorder.model = engine] *)
Definition set_model (engine : Engine) (r : Recorder) : Recorder :=
  {| SAMPLE_RATE := SAMPLE_RATE r; CHANNELS := CHANNELS r; BUFFER := BUFFER r;
     model_name := model_name r; stream := stream r;
     is_recording := is_recording r; start_time := start_time r;
     model := Some engine; audio_level := audio_level r |}.

(** [os.environ['WHISPER_ASSETS'] = p] *)
Definition set_WHISPER_ASSETS (p : string) : IO unit := fun h =>
  (Ok tt, {| paths := paths h; WHISPER_ASSETS := Some p;
             saved := saved h; model_loads := model_loads h;
             host_log := host_log h |}).

(** [whisper.load_model(name)]: the engine, or what the call raises. *)
Definition whisper_load_model (outcome : result Engine) (name : string) : IO Engine :=
  fun h =>
    (outcome, {| paths := paths h; WHISPER_ASSETS := WHISPER_ASSETS h;
                 saved := saved h;
                 model_loads := model_loads h ++ [(name, WHISPER_ASSETS h)];
                 host_log := host_log h |}).

(** The places where [load_model] looks for the assets, in its order. *)
Definition possible_paths (env : HostEnv) : list string :=
  (match _MEIPASS env with
   | Some base_path => [join (join base_path "whisper") "assets"]
   | None => []
   end)
  ++ [join (join (script_dir env) "whisper") "assets"]
  ++ map (fun site_dir => join (join site_dir "whisper") "assets") (site_packages env).

(** The loop that stops at the first path that exists. *)
Fixpoint find_assets (ps : list string) : IO bool :=
  match ps with
  | [] => io_ret false
  | assets_path :: ps' =>
      h <- io_get ;;
      if path_exists h assets_path
      then io_log (Info_found_assets assets_path) ;;
           set_WHISPER_ASSETS assets_path ;;
           io_ret true
      else find_assets ps'
  end.

(** [WhisperRecorder.load_model] of [whisper_gui.py]: the recorder with its
    model, or the exception. *)
Definition load_model (env : HostEnv) (r : Recorder) : IO Recorder :=
  io_try
    (io_log (Info_loading_model (model_name r)) ;;
     first <- io_try
       (engine <- whisper_load_model (direct_load env) (model_name r) ;;
        io_log Info_model_loaded ;;
        io_ret (Some engine))
       (fun e => io_log (Warn_initial_load_failed e) ;; io_ret None) ;;
     match first with
     | Some engine => io_ret (set_model engine r)
     | None =>
         io_log (Info_checking_assets (possible_paths env)) ;;
         assets_found <- find_assets (possible_paths env) ;;
         (if negb assets_found
          then io_log Err_assets_not_found ;; io_raise "Whisper assets not found"
          else io_ret tt) ;;
         engine <- whisper_load_model (retry_load env) (model_name r) ;;
         io_log Info_model_loaded_after_assets ;;
         io_ret (set_model engine r)
     end)
    (fun e => io_log (Err_failed_to_load_model e) ;; io_raise e).

End Paths.

(** [WhisperRecorder.load_model] of [whisper_cli.py]. *)
Definition cli_load_model (env : HostEnv) (r : Recorder) : IO Recorder :=
  io_try
    (io_log (Info_loading_model (model_name r)) ;;
     engine <- whisper_load_model (direct_load env) (model_name r) ;;
     io_log Info_model_loaded ;;
     io_ret (set_model engine r))
    (fun e => io_log (Err_failed_to_load_model e) ;; io_raise e).

(** The window of [WhisperGUI.__init__]: width, height, x and y of
    [root.geometry]; [//] rounds down. *)
Definition window_geometry (screen_width screen_height : Z) : Z * Z * Z * Z :=
  let window_width := 1200%Z in
  let window_height := 150%Z in
  let x_position := ((screen_width - window_width) / 2)%Z in
  let y_position := (screen_height / 5)%Z in
  (window_width, window_height, x_position, y_position).

(** The same in [whisper_cli.py], a third of the way down. *)
Definition cli_window_geometry (screen_width screen_height : Z) : Z * Z * Z * Z :=
  let window_width := 1200%Z in
  let window_height := 150%Z in
  let x_position := ((screen_width - window_width) / 2)%Z in
  let y_position := (screen_height / 3)%Z in
  (window_width, window_height, x_position, y_position).

End Host.

(** ** whisper_cli.py: the window *)

Module CliWindow.

Import Gui.

Module WhisperGUI.

Definition start_recording : Py unit :=
  image <- WhisperGUI.icons_getitem "mic" ;;
  WhisperGUI.record_button_configure image ;;
  modify (with_gui (set_status_label "Recording...")) ;;
  WhisperGUI.Thread_start Th_record.

Definition _record (env : StartEnv) : Py unit :=
  try_except
    (Cli.WhisperRecorder.start_recording env)
    (fun e =>
       image <- WhisperGUI.icons_getitem "record" ;;
       WhisperGUI.record_button_configure image ;;
       WhisperGUI.text_box_replace ("Error: " ++ e)%string).

Definition stop_recording : Py unit :=
  image <- WhisperGUI.icons_getitem "record" ;;
  WhisperGUI.record_button_configure image ;;
  modify (with_gui (set_status_label "Generating text...")) ;;
  WhisperGUI.Thread_start Th_stop_and_transcribe.

Definition toggle_recording : Py unit :=
  p <- get ;;
  if negb (is_recording (recorder p)) then start_recording
  else stop_recording.

Definition _stop_and_transcribe (senv : StopEnv) (cenv : ClipEnv) : Py unit :=
  try_except
    (audio_data <- Cli.WhisperRecorder.stop_recording senv ;;
     match audio_data with
     | Some _ =>
         text <- Cli.WhisperRecorder.transcribe audio_data ;;
         WhisperGUI.text_box_replace text ;;
         copy_to_clipboard cenv text ;;
         modify (with_gui (set_status_label "Ready to record")) ;;
         logger Info_transcription_completed
     | None =>
         WhisperGUI.text_box_replace "No audio recorded" ;;
         modify (with_gui (set_status_label "Ready to record")) ;;
         logger Warn_no_audio
     end)
    (fun e =>
       WhisperGUI.text_box_replace ("Error: " ++ e)%string ;;
       modify (with_gui (set_status_label "Ready to record")) ;;
       logger (Err_transcription_failed e)).

(** The widgets after [create_widgets]: there is no visualizer. *)
Definition create_widgets (ic : list (string * option Photo)) : Widgets :=
  {| icons := ic;
     record_button := match dict_get ic "record" with
                      | Some (Some ph) => Some ph
                      | _ => None
                      end;
     status_label := "Ready to record";
     text_box := EmptyString;
     visualizer_packed := false;
     bars := [];
     error_dialogs := [];
     visualizer_timers := 0 |}.

(** The process once [WhisperGUI.__init__] has returned. *)
Definition __init__ (engine : Engine) (ic : list (string * option Photo)) : Process :=
  {| recorder := Host.set_model engine (Cli.WhisperRecorder.__init__ "small" 16000 1);
     streams := [];
     log := [];
     engine_calls := [];
     clipboard := {| clip_open := false; clip_text := None; set_text_calls := [] |};
     gui := create_widgets ic;
     threads := [] |}.

End WhisperGUI.

Section Icons.

Import Host.
#[local] Open Scope io_scope.

(** [os.path.abspath] *)
Variable abspath : string -> string.

(** [WhisperGUI.load_icons] of [whisper_cli.py]: the icons are looked for
    under the working directory, as PNG only. *)
Definition load_icons (env : HostEnv) : IO (list (string * option Photo)) :=
  io_try
    (h <- io_get ;;
     (if negb (path_exists h "icons")
      then makedirs env "icons" ;; io_log (Info_created_icons_directory "icons")
      else io_ret tt) ;;
     let icons : list (string * option Photo) := [] in
     let record_path := abspath "icons/record.png" in
     io_log (Info_loading_icon_from record_path) ;;
     h <- io_get ;;
     icons <-
       (if path_exists h record_path
        then
          ph <- load_photo env record_path ;;
          io_log Info_record_button_loaded ;;
          io_ret (dict_set icons "record" (Some ph))
        else io_log Err_record_button_not_found ;; io_ret icons) ;;
     let mic_path := abspath "icons/mic.png" in
     io_log (Info_loading_icon_from mic_path) ;;
     h <- io_get ;;
     if path_exists h mic_path
     then
       ph <- load_photo env mic_path ;;
       io_log Info_microphone_icon_loaded ;;
       io_ret (dict_set icons "mic" (Some ph))
     else io_log Err_microphone_icon_not_found ;; io_ret icons)
    (fun e =>
       io_log (Err_failed_to_load_icons e) ;;
       io_ret [("record", None); ("mic", None)]).

End Icons.

End CliWindow.

(** [start_recording] meets a fault of the host. *)
Definition start_fails (env : StartEnv) : Prop :=
  test_open_fault env <> None \/ test_close_fault env <> None \/
  open_fault env <> None \/ start_fault env <> None.

(** A block of one channel. *)
Definition mono (samples : list float32) : ndarray :=
  {| ncols := 1; rows := map (fun x => [x]) samples |}.

(** An engine that returns a fixed text. *)
Definition engine_hello : Engine := fun _ => Ok "hello".

(** An engine that raises on every waveform. *)
Definition engine_broken : Engine := fun _ => Raise "engine failure".

(** The dictionary of icons when both files were found. *)
Definition icons_loaded : list (string * option Photo) :=
  [("record", Some (PhotoImage "icons/record.ico"));
   ("mic", Some (PhotoImage "icons/mic.ico"))].

(** The loudness that the callback stores for a block. *)
Definition block_level (b : ndarray * CallbackFlags) : pynum :=
  NpFloat32 (np_sqrt (np_mean (np_square (fst b)))).

(** One session: [start_recording], the callbacks of the blocks that arrive,
    [stop_recording]. *)
Definition record_session (start : Py unit)
    (cb : ndarray -> nat -> float64 -> CallbackFlags -> Py unit)
    (stop : Py (option Waveform))
    (blocks : list (ndarray * CallbackFlags)) : Py (option Waveform) :=
  start ;; run_callbacks cb blocks ;; stop.

(** The samples of the blocks, in the order of arrival. *)
Definition samples_in_order (blocks : list (ndarray * CallbackFlags)) : Waveform :=
  concat (map (fun b => flatten (fst b)) blocks).

(** The events in which the callback runs. *)
Definition is_audio_block (ev : Session.Event) : bool :=
  match ev with
  | Session.Audio_block _ _ _ _ => true
  | _ => false
  end.

(** A computation that leaves [audio_level] as it finds it, whatever its
    outcome. *)
Definition keeps_level {A} (c : Py A) : Prop :=
  forall p, audio_level (recorder (snd (c p))) = audio_level (recorder p).

(** A session up to the point where the worker has stopped the recorder and
    holds the waveform of one block. *)
Definition until_transcribing : list Session.Event :=
  [Session.Toggle;
   Session.Run_record 0 (start_ok (F64.of_Z 10));
   Session.Audio_block 1 callback_ok (mono [F32.of_Z 1]) [];
   Session.Toggle;
   Session.Run_stop 0 (stop_ok (F64.of_Z 12))].

(** The process at that point. *)
Definition process_while_transcribing : Process :=
  match Session.run until_transcribing
          (Gui.WhisperGUI.__init__ engine_hello icons_loaded) with
  | Some p => p
  | None => Gui.WhisperGUI.__init__ engine_hello icons_loaded
  end.

(** The process after the events [evs], or [p] itself when they can not
    happen. *)
Definition run_or (evs : list Session.Event) (p : Process) : Process :=
  match Session.run evs p with
  | Some q => q
  | None => p
  end.

(** The process while the recorder records, one block in [BUFFER], the
    engine one that answers. *)
Definition process_recording_hello : Process :=
  run_or [Session.Toggle;
          Session.Run_record 0 (start_ok (F64.of_Z 10));
          Session.Audio_block 1 callback_ok (mono [F32.of_Z 1]) []]
    (Gui.WhisperGUI.__init__ engine_hello icons_loaded).

(** The process while the recorder records and no block has arrived. *)
Definition process_recording_no_block : Process :=
  run_or [Session.Toggle; Session.Run_record 0 (start_ok (F64.of_Z 10))]
    (Gui.WhisperGUI.__init__ engine_hello icons_loaded).

(** The process after one whole session. *)
Definition process_after_transcription : Process :=
  run_or (until_transcribing ++ [Session.Engine_done 0 clip_ok])
    (Gui.WhisperGUI.__init__ engine_hello icons_loaded).

(** A computation that leaves the part [f] of the process as it finds it,
    whatever its outcome. *)
Definition preserves {X A} (f : Process -> X) (c : Py A) : Prop :=
  forall p, f (snd (c p)) = f p.

(** The visualizer as [create_widgets] leaves it. *)
Definition visualizer_of (p : Process) : list (option (Z * Colour)) * nat :=
  (bars (gui p), visualizer_timers (gui p)).

(** [self.stream] refers to a stream object whenever the recorder is
    recording. *)
Definition stream_is_set (p : Process) : Prop :=
  is_recording (recorder p) = true ->
  exists id, stream (recorder p) = Some id /\ id < length (streams p).

(** A computation that keeps the property [I] of the process, whatever its
    outcome. *)
Definition maintains {A} (I : Process -> Prop) (c : Py A) : Prop :=
  forall p, I p -> I (snd (c p)).

(** What [stream_is_set] depends on. *)
Definition stream_state (p : Process) : bool * option nat * nat :=
  (is_recording (recorder p), stream (recorder p), length (streams p)).

(** [os.path.join] with a slash. *)
Definition join_slash (a b : string) : string := (a ++ "/" ++ b)%string.

(** A host on which no collaborator fails: the program runs from
    [/app], the engine loads at once. *)
Definition host_env_ok : Host.HostEnv :=
  {| Host._MEIPASS := None;
     Host.script_dir := "/app";
     Host.makedirs_fault := None;
     Host.image_fault := fun _ => None;
     Host.png_image := Ok {| Host.width := 512; Host.height := 512 |};
     Host.resize_fault := fun _ => None;
     Host.save_fault := None;
     Host.direct_load := Ok engine_hello;
     Host.retry_load := Ok engine_hello;
     Host.site_packages := ["/usr/lib/python3/site-packages"] |}.

(** A disk with the given paths and nothing else. *)
Definition disk (ps : list string) : Host.Host :=
  {| Host.paths := ps; Host.WHISPER_ASSETS := None; Host.saved := [];
     Host.model_loads := []; Host.host_log := [] |}.

(** The dictionary that [load_icons] falls back on. *)
Definition icons_fallback : list (string * option Photo) :=
  [("record", None); ("mic", None)].

(** The entry of [self.icons] for an icon whose file was found. *)
Definition icon_entry (k : string) (found : option string) : list (string * option Photo) :=
  match found with
  | Some q => [(k, Some (PhotoImage q))]
  | None => []
  end.

(** What holds when a computation on the host ends: [Q] of its value and
    the host when it returns, [E] of its exception and the host when it
    raises. *)
Definition io_post {A} (c : Host.IO A) (h : Host.Host)
    (Q : A -> Host.Host -> Prop) (E : exn -> Host.Host -> Prop) : Prop :=
  match c h with
  | (Ok a, h') => Q a h'
  | (Raise e, h') => E e h'
  end.

(** No path that exists on [h] is missing on [h']. *)
Definition keeps_paths (h h' : Host.Host) : Prop :=
  forall q, Host.path_exists h q = true -> Host.path_exists h' q = true.

(** The file that [get_icon_path] looks for on a host: the [.ico] of the
    icon under the directory of the icons, else its [.png]. *)
Definition icon_on_disk (join : string -> string -> string) (env : Host.HostEnv)
    (h : Host.Host) (icon_name : string) : option string :=
  let icon_dir := Host.get_resource_path join env "icons" in
  if Host.path_exists h (join icon_dir (icon_name ++ ".ico")%string)
  then Some (join icon_dir (icon_name ++ ".ico")%string)
  else if Host.path_exists h (join icon_dir (icon_name ++ ".png")%string)
       then Some (join icon_dir (icon_name ++ ".png")%string)
       else None.

(** The file of an icon that [load_icons] reads: the one on the disk,
    unless its path is the empty string. *)
Definition icon_used (join : string -> string -> string) (env : Host.HostEnv)
    (h : Host.Host) (icon_name : string) : option string :=
  if Host.truthy (icon_on_disk join env h icon_name)
  then icon_on_disk join env h icon_name
  else None.

(** The first exception in a row of calls, in their order. *)
Fixpoint first_raised {A} (fault : A -> option exn) (l : list A) : option exn :=
  match l with
  | [] => None
  | a :: l' =>
      match fault a with
      | Some e => Some e
      | None => first_raised fault l'
      end
  end.

(** The events in which a worker gets the answer of the engine. *)
Definition is_engine_done (ev : Session.Event) : bool :=
  match ev with
  | Session.Engine_done _ _ => true
  | _ => false
  end.

(** The engine and the calls made to it. *)
Definition engine_state (p : Process) : list Waveform * option Engine :=
  (engine_calls p, model (recorder p)).

(** Two toggles before the first thread runs, both threads, a toggle and
    the worker that stops the recorder; then the stream that nobody stopped
    delivers a block. *)
Definition between_sessions : list Session.Event :=
  [Session.Toggle;
   Session.Toggle;
   Session.Run_record 0 (start_ok (F64.of_Z 10));
   Session.Run_record 0 (start_ok (F64.of_Z 11));
   Session.Toggle;
   Session.Run_stop 0 (stop_ok (F64.of_Z 12));
   Session.Audio_block 1 callback_ok (mono [F32.of_Z 7]) []].








(** The heights of the forty bars when the level is the float 1.0. *)
Definition full_scale_heights : list Z :=
  [2; 2; 2; 3; 3; 5; 6; 7; 8; 9; 10; 11; 12; 13; 14; 15; 16; 17; 18; 19;
   20; 19; 18; 17; 16; 15; 14; 13; 12; 11; 10; 9; 8; 7; 6; 5; 3; 3; 2; 2]%Z.

(** The window after an update of the meter at that level. *)
Definition full_scale (w : Widgets) : Widgets :=
  Gui.set_visualizer_timers (S (visualizer_timers w))
    (Gui.set_bars (map (fun h => Some (h, ff4444)) full_scale_heights) w).

(** The process while the recorder records and the stream has delivered
    a block without a frame. *)
Definition process_recording_empty_block : Process :=
  run_or [Session.Toggle;
          Session.Run_record 0 (start_ok (F64.of_Z 10));
          Session.Audio_block 1 callback_ok (mono []) []]
    (Gui.WhisperGUI.__init__ engine_hello icons_loaded).

(** [numpy.float32(0.1)], and the next [float32] above it. *)
Definition tenth : float32 := F32.div (F32.of_Z 1) (F32.of_Z 10).

Definition above_tenth : float32 := S754_finite false 13421774 (-27).

(** The process while the recorder records and the stream has delivered
    one block, of one sample of a tenth. *)
Definition process_recording_tenth : Process :=
  run_or [Session.Toggle;
          Session.Run_record 0 (start_ok (F64.of_Z 10));
          Session.Audio_block 1 callback_ok (mono [tenth]) []]
    (Gui.WhisperGUI.__init__ engine_hello icons_loaded).

(** The toggles in the middle of which a thread [_record] runs. *)
Definition is_toggle_during_record (ev : Session.Event) : bool :=
  match ev with
  | Session.Toggle_during_record _ _ => true
  | _ => false
  end.

(** The workers that have called the engine and wait for its answer. *)
Definition waiting (ts : list Thread) : nat :=
  length (filter Session.is_transcribing ts).

Definition workers_waiting (p : Process) : nat := waiting (threads p).

(** The [float32] that is [2^-j]. *)
Definition pow2_neg (j : Z) : float32 := S754_finite false 8388608 (-23 - j).









(** * Properties *)

(** Unfolds the methods of the recorder and the monad under them. *)
Ltac py_recorder :=
  unfold Gui.WhisperRecorder.stop_recording, Cli.WhisperRecorder.stop_recording,
    Gui.WhisperRecorder.start_recording, Cli.WhisperRecorder.start_recording,
    Gui.WhisperRecorder.callback, Cli.WhisperRecorder.callback,
    Gui.WhisperRecorder.transcribe, Cli.WhisperRecorder.transcribe,
    Gui.WhisperRecorder.model_transcribe, Gui.copy_to_clipboard,
    on_stream, stream_stop, stream_close, stream_start, InputStream_new,
    logger, when, call, lift, try_except, bind, ret, raise, get, modify.

(** Unfolds the methods of the window as well. *)
Ltac py_gui :=
  unfold Gui.WhisperGUI.toggle_recording, Gui.WhisperGUI.start_recording,
    Gui.WhisperGUI.stop_recording, Gui.WhisperGUI._record,
    Gui.WhisperGUI._stop_and_transcribe, Gui.WhisperGUI.update_visualizer,
    Gui.WhisperGUI.Thread_start, Gui.WhisperGUI.icons_getitem,
    Gui.WhisperGUI.record_button_configure, Gui.WhisperGUI.text_box_replace,
    Gui.WhisperGUI.after_showerror, Session.stop_phase,
    Session.transcribe_phase, Session.transcription_error,
    Session.call_engine, Session.engine_answers;
  py_recorder.

(** ** Arrays *)

Lemma concat_concat_map {A} (l : list (list (list A))) :
  concat (concat l) = concat (map (@concat A) l).
Proof.
  induction l as [|x l IH]; cbn.
  - reflexivity.
  - rewrite concat_app, IH. reflexivity.
Qed.

Lemma flatten_np_concatenate (arrays : list ndarray) (a : ndarray) :
  np_concatenate arrays = Ok a ->
  flatten a = concat (map flatten arrays).
Proof.
  unfold np_concatenate. destruct arrays as [|b rest]; [discriminate|].
  destruct (forallb _ rest); [|discriminate].
  intros E. injection E as <-.
  change (concat (concat (map rows (b :: rest))) = concat (map flatten (b :: rest))).
  rewrite concat_concat_map, map_map. reflexivity.
Qed.

Lemma np_concatenate_same_ncols (c : nat) (b : ndarray) (rest : list ndarray) :
  Forall (fun x => ncols x = c) (b :: rest) ->
  np_concatenate (b :: rest) =
  Ok {| ncols := ncols b; rows := concat (map rows (b :: rest)) |}.
Proof.
  intros H. inversion H as [|? ? Hb Hrest]; subst.
  unfold np_concatenate.
  replace (forallb (fun x => Nat.eqb (ncols x) (ncols b)) rest) with true; [reflexivity|].
  symmetry. apply forallb_forall. intros x Hx.
  rewrite Forall_forall in Hrest. apply Nat.eqb_eq. auto.
Qed.

Lemma length_concat_flatten (B : nat) (arrays : list ndarray) :
  Forall (fun x => size x = B) arrays ->
  length (concat (map flatten arrays)) = length arrays * B.
Proof.
  induction 1 as [|x l Hx _ IH]; cbn.
  - reflexivity.
  - rewrite length_app, IH. unfold size in Hx. rewrite Hx. reflexivity.
Qed.

(** ** Arithmetic of the formats *)






(** *** Sums of equal numbers *)



















(** ** One session of the recorder *)

Lemma length_update_nth {A} (n : nat) (f : A -> A) (l : list A) :
  length (update_nth n f l) = length l.
Proof.
  unfold update_nth. destruct (nth_error l n) as [a|] eqn:E; [|reflexivity].
  assert (Hn : n < length l) by (apply nth_error_Some; congruence).
  rewrite length_app. cbn [length]. rewrite length_firstn, length_skipn. lia.
Qed.

Lemma gui_start_recording_ok (now : float64) (p : Process) :
  exists p',
    Gui.WhisperRecorder.start_recording (start_ok now) p = (Ok tt, p') /\
    BUFFER (recorder p') = BUFFER (recorder p) /\
    is_recording (recorder p') = true /\
    stream (recorder p') = Some (S (length (streams p))) /\
    audio_level (recorder p') = audio_level (recorder p).
Proof.
  py_recorder. cbn. eexists. split; [reflexivity|].
  cbn. rewrite length_update_nth, length_app, Nat.add_comm. auto.
Qed.

Lemma cli_start_recording_ok (now : float64) (p : Process) :
  exists p',
    Cli.WhisperRecorder.start_recording (start_ok now) p = (Ok tt, p') /\
    BUFFER (recorder p') = BUFFER (recorder p) /\
    is_recording (recorder p') = true /\
    stream (recorder p') = Some (length (streams p)) /\
    audio_level (recorder p') = audio_level (recorder p).
Proof.
  py_recorder. cbn. eexists. split; [reflexivity|]. cbn. auto.
Qed.

Lemma gui_callback_ok (indata : ndarray) (frames : nat) (time : float64)
    (status : CallbackFlags) (p : Process) :
  exists p',
    Gui.WhisperRecorder.callback callback_ok indata frames time status p = (Ok tt, p') /\
    BUFFER (recorder p') = BUFFER (recorder p) ++ [indata] /\
    is_recording (recorder p') = is_recording (recorder p) /\
    stream (recorder p') = stream (recorder p) /\
    audio_level (recorder p') = NpFloat32 (np_sqrt (np_mean (np_square indata))).
Proof.
  py_recorder. destruct status; cbn; eexists; (split; [reflexivity|]); cbn; auto.
Qed.

Lemma cli_callback_ok (indata : ndarray) (frames : nat) (time : float64)
    (status : CallbackFlags) (p : Process) :
  exists p',
    Cli.WhisperRecorder.callback callback_ok indata frames time status p = (Ok tt, p') /\
    BUFFER (recorder p') = BUFFER (recorder p) ++ [indata] /\
    is_recording (recorder p') = is_recording (recorder p) /\
    stream (recorder p') = stream (recorder p) /\
    audio_level (recorder p') = NpFloat32 (np_sqrt (np_mean (np_square indata))).
Proof.
  py_recorder. destruct status; cbn; eexists; (split; [reflexivity|]); cbn; auto.
Qed.

Lemma last_default_irrelevant {A} (l : list A) (d d' : A) :
  l <> [] -> last l d = last l d'.
Proof.
  induction l as [|x [|y l] IH]; intros H.
  - contradiction.
  - reflexivity.
  - change (last (y :: l) d = last (y :: l) d'). apply IH. discriminate.
Qed.

Section Callbacks.

Variable cb : ndarray -> nat -> float64 -> CallbackFlags -> Py unit.

Hypothesis cb_ok : forall indata frames time status p,
  exists p',
    cb indata frames time status p = (Ok tt, p') /\
    BUFFER (recorder p') = BUFFER (recorder p) ++ [indata] /\
    is_recording (recorder p') = is_recording (recorder p) /\
    stream (recorder p') = stream (recorder p) /\
    audio_level (recorder p') = NpFloat32 (np_sqrt (np_mean (np_square indata))).

Lemma run_callbacks_ok (blocks : list (ndarray * CallbackFlags)) (p : Process) :
  exists p',
    run_callbacks cb blocks p = (Ok tt, p') /\
    BUFFER (recorder p') = BUFFER (recorder p) ++ map fst blocks /\
    is_recording (recorder p') = is_recording (recorder p) /\
    stream (recorder p') = stream (recorder p) /\
    audio_level (recorder p') = last (map block_level blocks) (audio_level (recorder p)).
Proof.
  revert p. induction blocks as [|[indata status] rest IH]; intros p.
  - exists p. cbn. rewrite app_nil_r. auto.
  - destruct (cb_ok indata (length (rows indata)) (S754_zero false) status p)
      as (p1 & E1 & B1 & R1 & S1 & L1).
    destruct (IH p1) as (p2 & E2 & B2 & R2 & S2 & L2).
    exists p2. cbn [run_callbacks]. rewrite E1. split; [exact E2|].
    rewrite B2, B1, R2, R1, S2, S1, L2, L1, <- app_assoc.
    repeat split.
    change (map block_level ((indata, status) :: rest))
      with (block_level (indata, status) :: map block_level rest).
    destruct (map block_level rest) as [|n l]; [reflexivity|].
    change (last (n :: l) (block_level (indata, status))
            = last (n :: l) (audio_level (recorder p))).
    apply last_default_irrelevant. discriminate.
Qed.

End Callbacks.

Lemma gui_stop_recording_ok (now : float64) (id : nat) (b : ndarray)
    (bs : list ndarray) (a : ndarray) (p : Process) :
  is_recording (recorder p) = true ->
  stream (recorder p) = Some id ->
  BUFFER (recorder p) = b :: bs ->
  np_concatenate (b :: bs) = Ok a ->
  exists p',
    Gui.WhisperRecorder.stop_recording (stop_ok now) p = (Ok (Some (flatten a)), p') /\
    BUFFER (recorder p') = [] /\
    is_recording (recorder p') = false /\
    audio_level (recorder p') = audio_level (recorder p).
Proof.
  intros H1 H2 H3 H4. py_recorder. rewrite H1. cbn. rewrite H2. cbn.
  rewrite H2. cbn. rewrite H3, H4.
  eexists. split; [reflexivity|]. cbn. auto.
Qed.

Lemma cli_stop_recording_ok (now : float64) (id : nat) (b : ndarray)
    (bs : list ndarray) (a : ndarray) (p : Process) :
  is_recording (recorder p) = true ->
  stream (recorder p) = Some id ->
  BUFFER (recorder p) = b :: bs ->
  np_concatenate (b :: bs) = Ok a ->
  exists p',
    Cli.WhisperRecorder.stop_recording (stop_ok now) p = (Ok (Some (flatten a)), p') /\
    BUFFER (recorder p') = [] /\
    is_recording (recorder p') = false /\
    audio_level (recorder p') = audio_level (recorder p).
Proof.
  intros H1 H2 H3 H4. py_recorder. rewrite H1. cbn. rewrite H2. cbn.
  rewrite H2. cbn. rewrite H3, H4.
  eexists. split; [reflexivity|]. cbn. auto.
Qed.

Section Session_of_the_recorder.

Variables (start : Py unit)
          (cb : ndarray -> nat -> float64 -> CallbackFlags -> Py unit)
          (stop : Py (option Waveform)).

Hypothesis start_ok' : forall p, exists id p',
  start p = (Ok tt, p') /\
  BUFFER (recorder p') = BUFFER (recorder p) /\
  is_recording (recorder p') = true /\
  stream (recorder p') = Some id /\
  audio_level (recorder p') = audio_level (recorder p).

Hypothesis cb_ok : forall indata frames time status p,
  exists p',
    cb indata frames time status p = (Ok tt, p') /\
    BUFFER (recorder p') = BUFFER (recorder p) ++ [indata] /\
    is_recording (recorder p') = is_recording (recorder p) /\
    stream (recorder p') = stream (recorder p) /\
    audio_level (recorder p') = NpFloat32 (np_sqrt (np_mean (np_square indata))).

Hypothesis stop_ok' : forall id b bs a p,
  is_recording (recorder p) = true ->
  stream (recorder p) = Some id ->
  BUFFER (recorder p) = b :: bs ->
  np_concatenate (b :: bs) = Ok a ->
  exists p',
    stop p = (Ok (Some (flatten a)), p') /\
    BUFFER (recorder p') = [] /\
    is_recording (recorder p') = false /\
    audio_level (recorder p') = audio_level (recorder p).

(** [start_recording] leaves [BUFFER] as it finds it, so what
    [stop_recording] returns begins with the blocks that were there. *)
Lemma record_session_waveform (c : nat) (blocks : list (ndarray * CallbackFlags))
    (p0 : Process) :
  BUFFER (recorder p0) ++ map fst blocks <> [] ->
  Forall (fun a => ncols a = c) (BUFFER (recorder p0) ++ map fst blocks) ->
  exists p3,
    record_session start cb stop blocks p0
    = (Ok (Some (concat (map flatten (BUFFER (recorder p0))) ++ samples_in_order blocks)),
       p3) /\
    BUFFER (recorder p3) = [] /\
    is_recording (recorder p3) = false /\
    audio_level (recorder p3) = last (map block_level blocks) (audio_level (recorder p0)).
Proof.
  intros Hne Hcols.
  destruct (start_ok' p0) as (id & p1 & E1 & B1 & R1 & S1 & L1).
  destruct (@run_callbacks_ok cb cb_ok blocks p1) as (p2 & E2 & B2 & R2 & S2 & L2).
  rewrite B1 in B2. rewrite L1 in L2.
  destruct (BUFFER (recorder p0) ++ map fst blocks) as [|b0 rest] eqn:Eall;
    [contradiction|].
  pose proof (np_concatenate_same_ncols Hcols) as Hcat.
  destruct (@stop_ok' id _ _ _ p2 (eq_trans R2 R1) (eq_trans S2 S1) B2 Hcat)
    as (p3 & E3 & B3 & R3 & L3).
  exists p3. unfold record_session, bind. rewrite E1, E2, E3.
  split; [|rewrite L3; auto].
  do 3 f_equal. unfold samples_in_order.
  rewrite (flatten_np_concatenate _ Hcat), <- Eall, map_app, concat_app.
  rewrite (map_map fst flatten). reflexivity.
Qed.

End Session_of_the_recorder.

Lemma gui_session_waveform (now1 now2 : float64) (c : nat)
    (blocks : list (ndarray * CallbackFlags)) (p0 : Process) :
  BUFFER (recorder p0) ++ map fst blocks <> [] ->
  Forall (fun a => ncols a = c) (BUFFER (recorder p0) ++ map fst blocks) ->
  exists p3,
    record_session (Gui.WhisperRecorder.start_recording (start_ok now1))
      (Gui.WhisperRecorder.callback callback_ok)
      (Gui.WhisperRecorder.stop_recording (stop_ok now2)) blocks p0
    = (Ok (Some (concat (map flatten (BUFFER (recorder p0))) ++ samples_in_order blocks)),
       p3) /\
    BUFFER (recorder p3) = [] /\
    is_recording (recorder p3) = false /\
    audio_level (recorder p3) = last (map block_level blocks) (audio_level (recorder p0)).
Proof.
  apply record_session_waveform.
  - intros p. destruct (gui_start_recording_ok now1 p) as (p' & H).
    exists (S (length (streams p))), p'. exact H.
  - apply gui_callback_ok.
  - intros. eapply gui_stop_recording_ok; eauto.
Qed.

Lemma cli_session_waveform (now1 now2 : float64) (c : nat)
    (blocks : list (ndarray * CallbackFlags)) (p0 : Process) :
  BUFFER (recorder p0) ++ map fst blocks <> [] ->
  Forall (fun a => ncols a = c) (BUFFER (recorder p0) ++ map fst blocks) ->
  exists p3,
    record_session (Cli.WhisperRecorder.start_recording (start_ok now1))
      (Cli.WhisperRecorder.callback callback_ok)
      (Cli.WhisperRecorder.stop_recording (stop_ok now2)) blocks p0
    = (Ok (Some (concat (map flatten (BUFFER (recorder p0))) ++ samples_in_order blocks)),
       p3) /\
    BUFFER (recorder p3) = [] /\
    is_recording (recorder p3) = false /\
    audio_level (recorder p3) = last (map block_level blocks) (audio_level (recorder p0)).
Proof.
  apply record_session_waveform.
  - intros p. destruct (cli_start_recording_ok now1 p) as (p' & H).
    exists (length (streams p)), p'. exact H.
  - apply cli_callback_ok.
  - intros. eapply cli_stop_recording_ok; eauto.
Qed.

(** X27.  What a session returns.  [start_recording] does not empty
    [BUFFER]; only [stop_recording] does.  So in a session in which the
    callback appended the blocks [blocks], [stop_recording] returns every
    block that [BUFFER] holds, in the order of arrival: those that were
    there when the session started, then those of the session.  With [M]
    blocks there before and each block of [B] samples that is
    [(M + length blocks) * B] samples; when [BUFFER] was empty at the start
    it is the samples of the blocks of the session, [length blocks * B] of
    them.  [BUFFER] is empty afterwards.  In [whisper_gui.py] and in
    [whisper_cli.py]. *)
Theorem stop_returns_buffer_in_arrival_order
    (now1 now2 : float64) (B c : nat) (blocks : list (ndarray * CallbackFlags))
    (p0 : Process) :
  let before := BUFFER (recorder p0) in
  let w := concat (map flatten before) ++ samples_in_order blocks in
  before ++ map fst blocks <> [] ->
  Forall (fun a => ncols a = c) (before ++ map fst blocks) ->
  Forall (fun a => size a = B) (before ++ map fst blocks) ->
  length w = (length before + length blocks) * B /\
  (before = [] -> w = samples_in_order blocks /\ length w = length blocks * B) /\
  (exists p3,
     record_session (Gui.WhisperRecorder.start_recording (start_ok now1))
       (Gui.WhisperRecorder.callback callback_ok)
       (Gui.WhisperRecorder.stop_recording (stop_ok now2)) blocks p0
     = (Ok (Some w), p3) /\
     BUFFER (recorder p3) = [] /\ is_recording (recorder p3) = false) /\
  (exists p3,
     record_session (Cli.WhisperRecorder.start_recording (start_ok now1))
       (Cli.WhisperRecorder.callback callback_ok)
       (Cli.WhisperRecorder.stop_recording (stop_ok now2)) blocks p0
     = (Ok (Some w), p3) /\
     BUFFER (recorder p3) = [] /\ is_recording (recorder p3) = false).
Proof.
  intros before w Hne Hcols Hsize.
  assert (Hlen : length w = (length before + length blocks) * B).
  { unfold w, samples_in_order. rewrite <- (map_map fst flatten), <- concat_app, <- map_app.
    rewrite (@length_concat_flatten B), length_app, length_map; [reflexivity|exact Hsize]. }
  split; [exact Hlen|]. split; [|split].
  - intros E. unfold w in *. rewrite E in *. cbn in *. auto.
  - destruct (gui_session_waveform now1 now2 blocks p0 Hne Hcols) as (p3 & H).
    exists p3. tauto.
  - destruct (cli_session_waveform now1 now2 blocks p0 Hne Hcols) as (p3 & H).
    exists p3. tauto.
Qed.

Lemma stop_returns_buffer_in_arrival_order_witness :
  let blocks := [(mono [F32.of_Z 1; F32.of_Z 2], []);
                 (mono [F32.of_Z 3; F32.of_Z 4], [input_overflow]);
                 (mono [F32.of_Z 5; F32.of_Z 6], [])] in
  let p0 := Gui.WhisperGUI.__init__ engine_hello icons_loaded in
  let w := [F32.of_Z 1; F32.of_Z 2; F32.of_Z 3; F32.of_Z 4; F32.of_Z 5; F32.of_Z 6] in
  length w = 3 * 2 /\
  (exists p3,
     record_session (Gui.WhisperRecorder.start_recording (start_ok (F64.of_Z 10)))
       (Gui.WhisperRecorder.callback callback_ok)
       (Gui.WhisperRecorder.stop_recording (stop_ok (F64.of_Z 12))) blocks p0
     = (Ok (Some w), p3) /\
     BUFFER (recorder p3) = [] /\ is_recording (recorder p3) = false) /\
  (exists p3,
     record_session (Cli.WhisperRecorder.start_recording (start_ok (F64.of_Z 10)))
       (Cli.WhisperRecorder.callback callback_ok)
       (Cli.WhisperRecorder.stop_recording (stop_ok (F64.of_Z 12))) blocks p0
     = (Ok (Some w), p3) /\
     BUFFER (recorder p3) = [] /\ is_recording (recorder p3) = false).
Proof.
  intros blocks p0 w.
  destruct (@stop_returns_buffer_in_arrival_order (F64.of_Z 10) (F64.of_Z 12) 2 1 blocks p0)
    as (H1 & _ & H3 & H4).
  - discriminate.
  - repeat constructor.
  - repeat constructor.
  - split; [reflexivity|]. split; assumption.
Defined.

(** C3 at the failing input.  [stop_recording] empties [BUFFER] "for next
    recording", and the callback fills it whenever a stream delivers a
    block, recording or not.  Two toggles before the first thread has run
    leave two streams recording, and the stop that follows stops the second
    only.  The recorder is stopped, the session idle, and the first stream
    delivers a block of one sample, 7, which the callback appends.  The
    session that comes next gets one block of one sample, 2, and its
    [stop_recording] returns two samples, 7 and 2: not the blocks of that
    session, and not [1 * 1] samples. *)
Theorem stop_returns_a_block_from_before_the_session :
  exists p0 p3,
    Session.run between_sessions (Gui.WhisperGUI.__init__ engine_hello icons_loaded)
    = Some p0 /\
    Session.session_state p0 = Session.Idle /\
    BUFFER (recorder p0) = [mono [F32.of_Z 7]] /\
    record_session (Gui.WhisperRecorder.start_recording (start_ok (F64.of_Z 20)))
      (Gui.WhisperRecorder.callback callback_ok)
      (Gui.WhisperRecorder.stop_recording (stop_ok (F64.of_Z 22)))
      [(mono [F32.of_Z 2], [])] p0
    = (Ok (Some [F32.of_Z 7; F32.of_Z 2]), p3) /\
    [F32.of_Z 7; F32.of_Z 2] <> samples_in_order [(mono [F32.of_Z 2], [])] /\
    length [F32.of_Z 7; F32.of_Z 2] <> 1 * 1.
Proof.
  eexists. eexists.
  split; [vm_compute; reflexivity|].
  split; [reflexivity|].
  split; [reflexivity|].
  split; [vm_compute; reflexivity|].
  split; [discriminate|discriminate].
Qed.

(** C4.  [stop_recording] on a recorder that is not recording returns
    [None] and leaves the whole process as it was: [is_recording], [BUFFER],
    [audio_level], the stream, and the log as well.  Hence calling it again
    changes nothing either.  In [whisper_gui.py] and in [whisper_cli.py]. *)
Theorem stop_when_not_recording_is_noop (env : StopEnv) (p : Process) :
  is_recording (recorder p) = false ->
  Gui.WhisperRecorder.stop_recording env p = (Ok None, p) /\
  Cli.WhisperRecorder.stop_recording env p = (Ok None, p) /\
  (Gui.WhisperRecorder.stop_recording env ;; Gui.WhisperRecorder.stop_recording env) p
  = (Ok None, p).
Proof.
  intros H. py_recorder. rewrite H. cbn. rewrite H. auto.
Qed.

Lemma stop_when_not_recording_is_noop_witness :
  let p := Gui.WhisperGUI.__init__ engine_hello icons_loaded in
  let env := {| stop_fault := Some "PortAudioError"; close_fault := None; stop_now := F64.of_Z 3;
       concatenate_fault := None |} in
  Gui.WhisperRecorder.stop_recording env p = (Ok None, p) /\
  Cli.WhisperRecorder.stop_recording env p = (Ok None, p) /\
  (Gui.WhisperRecorder.stop_recording env ;; Gui.WhisperRecorder.stop_recording env) p
  = (Ok None, p).
Proof.
  intros p env. apply (@stop_when_not_recording_is_noop env p). reflexivity.
Defined.

(** C10.  [transcribe(None)] returns the empty string and leaves the whole
    process as it was: the engine is not called ([engine_calls] is part of
    the process), whatever the engine is.  In [whisper_gui.py] and in
    [whisper_cli.py]. *)
Theorem transcribe_None_skips_engine (p : Process) :
  Gui.WhisperRecorder.transcribe None p = (Ok EmptyString, p) /\
  Cli.WhisperRecorder.transcribe None p = (Ok EmptyString, p).
Proof.
  split; reflexivity.
Qed.





(** ** What never touches the loudness *)

Lemma keeps_ret {A} (a : A) : keeps_level (ret a).
Proof. intros p. reflexivity. Qed.

Lemma keeps_raise {A} (e : exn) : keeps_level (@raise A e).
Proof. intros p. reflexivity. Qed.

Lemma keeps_get : keeps_level get.
Proof. intros p. reflexivity. Qed.

Lemma keeps_lift {A} (r : result A) : keeps_level (lift r).
Proof. intros p. reflexivity. Qed.

Lemma keeps_call (fault : option exn) : keeps_level (call fault).
Proof. intros p. destruct fault; reflexivity. Qed.

Lemma keeps_bind {A B} (c : Py A) (k : A -> Py B) :
  keeps_level c -> (forall a, keeps_level (k a)) -> keeps_level (bind c k).
Proof.
  intros Hc Hk p. unfold bind. specialize (Hc p).
  destruct (c p) as [[a|e] p']; cbn [snd] in *.
  - rewrite Hk. exact Hc.
  - exact Hc.
Qed.

Lemma keeps_try_except {A} (body : Py A) (handler : exn -> Py A) :
  keeps_level body -> (forall e, keeps_level (handler e)) ->
  keeps_level (try_except body handler).
Proof.
  intros Hb Hh p. unfold try_except. specialize (Hb p).
  destruct (body p) as [[a|e] p']; cbn [snd] in *.
  - exact Hb.
  - rewrite Hh. exact Hb.
Qed.

Lemma keeps_modify (f : Process -> Process) :
  (forall p, audio_level (recorder (f p)) = audio_level (recorder p)) ->
  keeps_level (modify f).
Proof. intros H p. apply H. Qed.

Lemma keeps_logger (ev : LogEvent) : keeps_level (logger ev).
Proof. intros p. reflexivity. Qed.

Lemma keeps_when (b : bool) (c : Py unit) : keeps_level c -> keeps_level (when b c).
Proof. intros H. destruct b; [exact H|apply keeps_ret]. Qed.

Create HintDb keeps discriminated.

#[local] Hint Resolve keeps_ret keeps_raise keeps_get keeps_lift keeps_call
  keeps_logger keeps_when : keeps.

(** Walks through a method: binds and handlers by the lemmas above, tests by
    cases, field updates by computation. *)
Ltac keeps :=
  repeat first
    [ progress auto with keeps
    | apply keeps_bind; [|intro]
    | apply keeps_try_except; [|intro]
    | apply keeps_modify; intro; reflexivity
    | match goal with
      | |- keeps_level (if ?b then _ else _) => destruct b
      | |- keeps_level (match ?x with _ => _ end) => destruct x
      | |- keeps_level (let _ := _ in _) => cbv zeta
      end ].

Lemma keeps_on_stream (m : nat -> Py unit) (attr : string) :
  (forall id, keeps_level (m id)) -> keeps_level (on_stream m attr).
Proof. intros H. unfold on_stream. keeps. Qed.

Lemma keeps_InputStream_new (fault : option exn) (bs : nat) (cb : bool) :
  keeps_level (InputStream_new fault bs cb).
Proof. unfold InputStream_new. keeps. Qed.

Lemma keeps_stream_start (fault : option exn) (id : nat) :
  keeps_level (stream_start fault id).
Proof. unfold stream_start. keeps. Qed.

Lemma keeps_stream_stop (fault : option exn) (id : nat) :
  keeps_level (stream_stop fault id).
Proof. unfold stream_stop. keeps. Qed.

Lemma keeps_stream_close (fault : option exn) (id : nat) :
  keeps_level (stream_close fault id).
Proof. unfold stream_close. keeps. Qed.

#[local] Hint Resolve keeps_on_stream keeps_InputStream_new keeps_stream_start
  keeps_stream_stop keeps_stream_close : keeps.

Lemma keeps_start_recording (env : StartEnv) :
  keeps_level (Gui.WhisperRecorder.start_recording env).
Proof. unfold Gui.WhisperRecorder.start_recording. keeps. Qed.

Lemma keeps_stop_recording (env : StopEnv) :
  keeps_level (Gui.WhisperRecorder.stop_recording env).
Proof. unfold Gui.WhisperRecorder.stop_recording. keeps. Qed.

Lemma keeps_cli_stop_recording (env : StopEnv) :
  keeps_level (Cli.WhisperRecorder.stop_recording env).
Proof. unfold Cli.WhisperRecorder.stop_recording. keeps. Qed.

Lemma keeps_transcribe (audio_data : option Waveform) :
  keeps_level (Gui.WhisperRecorder.transcribe audio_data).
Proof.
  unfold Gui.WhisperRecorder.transcribe, Gui.WhisperRecorder.model_transcribe. keeps.
Qed.

Lemma keeps_copy_to_clipboard (env : ClipEnv) (text : string) :
  keeps_level (Gui.copy_to_clipboard env text).
Proof. unfold Gui.copy_to_clipboard. keeps. Qed.

#[local] Hint Resolve keeps_start_recording keeps_stop_recording
  keeps_transcribe keeps_copy_to_clipboard : keeps.

Lemma keeps_for_each_bar (level : pynum) (indices : list nat) :
  keeps_level (Gui.WhisperGUI.for_each_bar level indices).
Proof.
  induction indices as [|i rest IH]; cbn [Gui.WhisperGUI.for_each_bar].
  - keeps.
  - unfold Gui.WhisperGUI.draw_bar. keeps.
Qed.

#[local] Hint Resolve keeps_for_each_bar : keeps.

Lemma keeps_update_visualizer : keeps_level Gui.WhisperGUI.update_visualizer.
Proof. unfold Gui.WhisperGUI.update_visualizer. keeps. Qed.

#[local] Hint Resolve keeps_update_visualizer : keeps.

Lemma keeps_toggle_recording : keeps_level Gui.WhisperGUI.toggle_recording.
Proof.
  unfold Gui.WhisperGUI.toggle_recording, Gui.WhisperGUI.start_recording,
    Gui.WhisperGUI.stop_recording, Gui.WhisperGUI.icons_getitem,
    Gui.WhisperGUI.record_button_configure, Gui.WhisperGUI.Thread_start.
  keeps.
Qed.

Lemma keeps_window_start_recording : keeps_level Gui.WhisperGUI.start_recording.
Proof.
  unfold Gui.WhisperGUI.start_recording, Gui.WhisperGUI.icons_getitem,
    Gui.WhisperGUI.record_button_configure, Gui.WhisperGUI.Thread_start.
  keeps.
Qed.

Lemma keeps_window_stop_recording : keeps_level Gui.WhisperGUI.stop_recording.
Proof.
  unfold Gui.WhisperGUI.stop_recording, Gui.WhisperGUI.icons_getitem,
    Gui.WhisperGUI.record_button_configure, Gui.WhisperGUI.Thread_start.
  keeps.
Qed.

Lemma keeps__record (env : StartEnv) : keeps_level (Gui.WhisperGUI._record env).
Proof.
  unfold Gui.WhisperGUI._record, Gui.WhisperGUI.icons_getitem,
    Gui.WhisperGUI.record_button_configure, Gui.WhisperGUI.after_showerror,
    Gui.WhisperGUI.text_box_replace.
  keeps.
Qed.

Lemma keeps_stop_phase (env : StopEnv) : keeps_level (Session.stop_phase env).
Proof.
  unfold Session.stop_phase, Session.transcription_error,
    Gui.WhisperGUI.after_showerror, Gui.WhisperGUI.text_box_replace.
  keeps.
Qed.

Lemma keeps_transcribe_phase (env : ClipEnv) (a : Waveform) :
  keeps_level (Session.transcribe_phase env a).
Proof.
  unfold Session.transcribe_phase, Session.transcription_error,
    Gui.WhisperGUI.after_showerror, Gui.WhisperGUI.text_box_replace.
  keeps.
Qed.

Lemma step_keeps_level (ev : Session.Event) (p p' : Process) :
  is_audio_block ev = false ->
  Session.step ev p = Some p' ->
  audio_level (recorder p') = audio_level (recorder p).
Proof.
  destruct ev as [|i env|i env|i env|i env|id env indata status|]; cbn [is_audio_block];
    intros Hev; try discriminate; unfold Session.step.
  - intros E. injection E as <-. apply keeps_toggle_recording.
  - destruct (nth_error (threads p) i) as [[| |a]|]; try discriminate.
    destruct (negb (is_recording (recorder p))); intros E; injection E as <-;
      rewrite ?keeps_window_start_recording, ?keeps_window_stop_recording, keeps__record;
      reflexivity.
  - destruct (nth_error (threads p) i) as [[| |a]|]; try discriminate.
    intros E. injection E as <-. rewrite keeps__record. reflexivity.
  - destruct (nth_error (threads p) i) as [[| |a]|]; try discriminate.
    pose proof (keeps_stop_phase env p) as K.
    destruct (Session.stop_phase env p) as [[[a|]|e] p1]; cbn [snd] in K;
      intros E; injection E as <-; exact K.
  - destruct (nth_error (threads p) i) as [[| |a]|]; try discriminate.
    intros E. injection E as <-. rewrite keeps_transcribe_phase. reflexivity.
  - destruct (visualizer_timers (gui p)) as [|n]; try discriminate.
    intros E. injection E as <-. rewrite keeps_update_visualizer. reflexivity.
Qed.

Lemma run_keeps_level (evs : list Session.Event) (p p' : Process) :
  existsb is_audio_block evs = false ->
  Session.run evs p = Some p' ->
  audio_level (recorder p') = audio_level (recorder p).
Proof.
  revert p. induction evs as [|ev evs IH]; intros p Hevs E.
  - injection E as <-. reflexivity.
  - cbn [existsb] in Hevs. apply orb_false_iff in Hevs as [Hev Hevs].
    cbn [Session.run] in E.
    destruct (Session.step ev p) as [p1|] eqn:E1; [|discriminate].
    rewrite (IH p1 Hevs E). exact (step_keeps_level _ _ Hev E1).
Qed.

(** C7, as the program has it.  The stored loudness is 0 as long as the
    callback has processed no block.  Nothing resets it when the recorder
    stops: [stop_recording] leaves it as it is, at the value of the last
    block.  The window reads it in [update_visualizer] only, which does
    nothing at all while [is_recording] is false. *)
Theorem loudness_zero_before_first_block_and_kept_by_stop :
  (forall engine ic evs p,
     existsb is_audio_block evs = false ->
     Session.run evs (Gui.WhisperGUI.__init__ engine ic) = Some p ->
     audio_level (recorder p) = PyInt 0) /\
  (forall env p,
     audio_level (recorder (snd (Gui.WhisperRecorder.stop_recording env p)))
     = audio_level (recorder p)) /\
  (forall p,
     is_recording (recorder p) = false ->
     Gui.WhisperGUI.update_visualizer p = (Ok tt, p)).
Proof.
  split; [|split].
  - intros engine ic evs p Hevs E.
    rewrite (run_keeps_level _ _ Hevs E). reflexivity.
  - intros env p. apply keeps_stop_recording.
  - intros p H. unfold Gui.WhisperGUI.update_visualizer, bind, get.
    rewrite H. reflexivity.
Qed.

(** C7, as the specification has it, fails: after a session of one block of
    amplitude 1 the recorder is stopped and the stored loudness is 1. *)
Lemma loudness_after_stop_is_not_zero :
  exists p3,
    record_session (Gui.WhisperRecorder.start_recording (start_ok (F64.of_Z 10)))
      (Gui.WhisperRecorder.callback callback_ok)
      (Gui.WhisperRecorder.stop_recording (stop_ok (F64.of_Z 12)))
      [(mono [F32.of_Z 1], [])] (Gui.WhisperGUI.__init__ engine_hello icons_loaded)
    = (Ok (Some [F32.of_Z 1]), p3) /\
    is_recording (recorder p3) = false /\
    audio_level (recorder p3) = NpFloat32 (F32.of_Z 1) /\
    audio_level (recorder p3) <> PyInt 0 /\
    audio_level (recorder p3) <> NpFloat32 (S754_zero false) /\
    py_lt (PyInt 0) (audio_level (recorder p3)) = true.
Proof.
  destruct (@gui_session_waveform (F64.of_Z 10) (F64.of_Z 12) 1 [(mono [F32.of_Z 1], [])]
              (Gui.WhisperGUI.__init__ engine_hello icons_loaded))
    as (p3 & E & _ & R3 & L3).
  - discriminate.
  - repeat constructor.
  - assert (L : audio_level (recorder p3) = NpFloat32 (F32.of_Z 1)).
    { rewrite L3. vm_compute. reflexivity. }
    exists p3. rewrite L. repeat split; try assumption; try discriminate.
Qed.

Lemma loudness_zero_before_first_block_and_kept_by_stop_witness :
  let p0 := Gui.WhisperGUI.__init__ engine_hello icons_loaded in
  let evs := [Session.Toggle; Session.Run_record 0 (start_ok (F64.of_Z 10));
              Session.Toggle; Session.Run_stop 0 (stop_ok (F64.of_Z 12))] in
  (exists p, Session.run evs p0 = Some p /\ audio_level (recorder p) = PyInt 0) /\
  Gui.WhisperGUI.update_visualizer p0 = (Ok tt, p0).
Proof.
  intros p0 evs.
  destruct loudness_zero_before_first_block_and_kept_by_stop as (H1 & _ & H3).
  split.
  - eexists. split; [vm_compute; reflexivity|].
    apply (H1 engine_hello icons_loaded evs); [reflexivity|].
    vm_compute. reflexivity.
  - apply H3. reflexivity.
Defined.

(** ** The callback and what its array operations raise *)

(** In [whisper_gui.py] the callback returns whatever happens inside it: a
    failure is logged, the stream and [is_recording] are as they were, and
    the blocks appended so far stay. *)
Lemma gui_callback_never_raises (env : CallbackEnv) (indata : ndarray)
    (frames : nat) (time : float64) (status : CallbackFlags) (p : Process) :
  exists p',
    Gui.WhisperRecorder.callback env indata frames time status p = (Ok tt, p') /\
    is_recording (recorder p') = is_recording (recorder p) /\
    stream (recorder p') = stream (recorder p) /\
    streams p' = streams p /\
    threads p' = threads p /\
    (exists rest, BUFFER (recorder p') = BUFFER (recorder p) ++ rest) /\
    (forall e,
       copy_fault env = Some e \/ (copy_fault env = None /\ level_fault env = Some e) ->
       In (Err_audio_callback e) (log p')).
Proof.
  py_recorder.
  destruct status, (copy_fault env) as [e1|], (level_fault env) as [e2|];
    cbn; eexists; (split; [reflexivity|]); cbn;
    repeat split;
    try (exists []; rewrite app_nil_r; reflexivity);
    try (eexists; reflexivity);
    intros e [H|[H1 H2]]; try discriminate;
    try (injection H as <-); try (injection H2 as <-);
    apply in_or_app; right; now left.
Qed.

(** C6 at the input where the two files part.  The copy of a block of one
    sample fails.  The callback of [whisper_cli.py] raises, and nothing is
    logged; the callback of [whisper_gui.py] logs the failure and returns. *)
Theorem cli_callback_lets_failure_escape :
  let p := Gui.WhisperGUI.__init__ engine_hello icons_loaded in
  let env := {| copy_fault := Some "MemoryError"; level_fault := None |} in
  Cli.WhisperRecorder.callback env (mono [(pow2_neg 1)]) 1 (S754_zero false) [] p
  = (Raise "MemoryError", p) /\
  Gui.WhisperRecorder.callback env (mono [(pow2_neg 1)]) 1 (S754_zero false) [] p
  = (Ok tt, with_log (fun l => l ++ [Err_audio_callback "MemoryError"]) p).
Proof.
  split; reflexivity.
Qed.

(** ** The window and the worker threads *)

Lemma update_nth_last {A} (f : A -> A) (l : list A) (x : A) :
  update_nth (length l) f (l ++ [x]) = l ++ [f x].
Proof.
  unfold update_nth. rewrite nth_error_app2, Nat.sub_diag by lia. cbn [nth_error].
  rewrite firstn_app, Nat.sub_diag, firstn_all, firstn_0, app_nil_r.
  rewrite skipn_app, skipn_all2 by (cbn; lia).
  replace (S (length l) - length l) with 1 by lia. reflexivity.
Qed.

Lemma existsb_remove_nth {A} (f : A -> bool) (n : nat) (l : list A) :
  existsb f l = false -> existsb f (Session.remove_nth n l) = false.
Proof.
  intros H. unfold Session.remove_nth.
  rewrite <- (firstn_skipn n l) in H.
  rewrite existsb_app in *. apply orb_false_iff in H as [H1 H2].
  rewrite H1. cbn [orb].
  destruct (skipn n l) as [|x rest] eqn:E.
  - rewrite (skipn_all2 l); [reflexivity|].
    apply (f_equal (@length A)) in E. rewrite length_skipn in E. cbn in E. lia.
  - replace (skipn (S n) l) with rest.
    + cbn [existsb] in H2. apply orb_false_iff in H2. tauto.
    + change (S n) with (1 + n). rewrite <- skipn_skipn, E. reflexivity.
Qed.

(** [_stop_and_transcribe] is its two parts, one after the other. *)
Lemma stop_and_transcribe_phases (senv : StopEnv) (cenv : ClipEnv) (p : Process) :
  Gui.WhisperGUI._stop_and_transcribe senv cenv p =
  bind (Session.stop_phase senv)
    (fun a => match a with
              | Some w => Session.transcribe_phase cenv w
              | None => ret tt
              end) p.
Proof.
  unfold Gui.WhisperGUI._stop_and_transcribe, Session.stop_phase,
    Session.transcribe_phase, Session.transcription_error,
    Session.call_engine, Session.engine_answers,
    Gui.WhisperRecorder.transcribe, Gui.WhisperRecorder.model_transcribe,
    try_except, bind.
  destruct (Gui.WhisperRecorder.stop_recording senv p) as [[[a|]|e] p1];
    try reflexivity.
  unfold logger, modify, get, lift, ret, raise. cbn.
  destruct (model (recorder p1)) as [engine|] eqn:E; cbn; rewrite ?E; cbn;
    [|reflexivity].
  destruct (engine a); reflexivity.
Qed.

Lemma gui_stop_not_recording (env : StopEnv) (p : Process) :
  is_recording (recorder p) = false ->
  Gui.WhisperRecorder.stop_recording env p = (Ok None, p).
Proof. intros H. py_recorder. rewrite H. reflexivity. Qed.

Lemma cli_stop_not_recording (env : StopEnv) (p : Process) :
  is_recording (recorder p) = false ->
  Cli.WhisperRecorder.stop_recording env p = (Ok None, p).
Proof. intros H. py_recorder. rewrite H. reflexivity. Qed.

Lemma idle_inv (p : Process) :
  Session.session_state p = Session.Idle ->
  Session.transcription_in_flight p = false /\ is_recording (recorder p) = false.
Proof.
  unfold Session.session_state.
  destruct (Session.transcription_in_flight p), (is_recording (recorder p));
    intros H; try discriminate; auto.
Qed.

Lemma gui_start_recording_fails (env : StartEnv) (p : Process) :
  start_fails env ->
  exists e p' new,
    Gui.WhisperRecorder.start_recording env p = (Raise e, p') /\
    is_recording (recorder p') = is_recording (recorder p) /\
    BUFFER (recorder p') = BUFFER (recorder p) /\
    start_time (recorder p') = start_time (recorder p) /\
    streams p' = streams p ++ new /\
    Forall (fun s => active s = false) new /\
    log p' = log p ++ [Err_start_recording e] /\
    engine_calls p' = engine_calls p /\ gui p' = gui p /\ threads p' = threads p /\
    clipboard p' = clipboard p.
Proof.
  intros H. py_recorder.
  destruct (test_open_fault env) as [e1|] eqn:E1.
  { cbn. exists e1. eexists. exists []. split; [reflexivity|]. cbn.
    rewrite app_nil_r. repeat split; auto. }
  destruct (test_close_fault env) as [e2|] eqn:E2.
  { cbn. exists e2. eexists. eexists. split; [reflexivity|]. cbn.
    repeat split; auto. }
  destruct (open_fault env) as [e3|] eqn:E3.
  { cbn. exists e3. eexists. eexists. split; [reflexivity|]. cbn.
    rewrite update_nth_last. repeat split; auto. }
  destruct (start_fault env) as [e4|] eqn:E4.
  { cbn. exists e4. eexists. eexists. split; [reflexivity|]. cbn.
    rewrite update_nth_last, <- app_assoc. repeat split; auto. repeat constructor. }
  destruct H as [H|[H|[H|H]]]; congruence.
Qed.

(** What a start without a fault leaves: the recorder recording on a new
    stream that is active, the window and the threads as they were. *)
Lemma gui_start_recording_opens_stream (now : float64) (p : Process) :
  exists p',
    Gui.WhisperRecorder.start_recording (start_ok now) p = (Ok tt, p') /\
    is_recording (recorder p') = true /\
    stream (recorder p') = Some (S (length (streams p))) /\
    nth_error (streams p') (S (length (streams p)))
    = Some {| blocksize := 1024; has_callback := true; active := true; closed := false |} /\
    threads p' = threads p /\ gui p' = gui p.
Proof.
  py_recorder. cbn -[nth_error update_nth]. eexists. split; [reflexivity|].
  cbn -[nth_error update_nth].
  rewrite !update_nth_last.
  assert (L : forall x : InputStream, S (length (streams p)) = length (streams p ++ [x]))
    by (intros x; rewrite length_app; cbn; lia).
  rewrite <- L.
  split; [reflexivity|]. split; [reflexivity|]. split; [|auto].
  rewrite (L {| blocksize := 0; has_callback := false; active := false; closed := true |}).
  cbn [blocksize has_callback active closed].
  rewrite nth_error_app2, Nat.sub_diag by lia. reflexivity.
Qed.

(** C5.  The worker [_record] runs and [start_recording] fails, at the test
    stream, at the stream or at its start.  The session, idle before, is
    idle after; the failure is logged and an error dialog is posted; no
    block has been appended, no stream that is left is active, the engine
    has not been called, and [stop_recording] has no waveform to return.
    The text box shows the error when the icon of the button is there. *)
Theorem failed_start_stays_idle (i : nat) (env : StartEnv) (p : Process) :
  nth_error (threads p) i = Some Th_record ->
  Session.session_state p = Session.Idle ->
  start_fails env ->
  exists e p' new,
    Session.step (Session.Run_record i env) p = Some p' /\
    Session.session_state p' = Session.Idle /\
    error_dialogs (gui p')
    = error_dialogs (gui p) ++ [("Recording Error", "Error starting recording: " ++ e)%string] /\
    In (Err_start_recording e) (log p') /\
    BUFFER (recorder p') = BUFFER (recorder p) /\
    streams p' = streams p ++ new /\
    Forall (fun s => active s = false) new /\
    engine_calls p' = engine_calls p /\
    (forall senv, Gui.WhisperRecorder.stop_recording senv p' = (Ok None, p')) /\
    (Gui.dict_get (icons (gui p)) "record" <> None ->
     text_box (gui p') = ("Error starting recording: " ++ e)%string).
Proof.
  intros Hth Hidle Hfail.
  apply idle_inv in Hidle as [Hfl Hrec].
  destruct (@gui_start_recording_fails env (with_threads (Session.remove_nth i) p) Hfail)
    as (e & p1 & new & E & R1 & B1 & _ & S1 & A1 & L1 & C1 & G1 & T1 & _).
  exists e. unfold Session.step. rewrite Hth.
  unfold Gui.WhisperGUI._record, try_except. rewrite E.
  py_gui. cbn. rewrite G1. cbn.
  assert (Hidle' : forall q, threads q = threads p1 ->
            is_recording (recorder q) = is_recording (recorder p1) ->
            Session.session_state q = Session.Idle).
  { intros q Hq1 Hq2. unfold Session.session_state, Session.transcription_in_flight.
    rewrite Hq1, T1, Hq2, R1. cbn.
    rewrite (existsb_remove_nth _ _ _ Hfl), Hrec. reflexivity. }
  destruct (Gui.dict_get (icons (gui p)) "record") as [[ph|]|];
    eexists; exists new; (split; [reflexivity|]);
    (split; [apply Hidle'; reflexivity|]);
    (split; [cbn; rewrite G1; reflexivity|]);
    (split; [cbn; rewrite L1, !in_app_iff; left; right; now left|]);
    (split; [cbn; rewrite B1; reflexivity|]);
    (split; [cbn; rewrite S1; reflexivity|]);
    (split; [exact A1|]);
    (split; [cbn; rewrite C1; reflexivity|]);
    (split; [intros senv; apply gui_stop_not_recording; cbn; rewrite R1; exact Hrec|]);
    intros H; try reflexivity; congruence.
Qed.

Lemma failed_start_stays_idle_witness :
  let p := snd (Gui.WhisperGUI.toggle_recording
                  (Gui.WhisperGUI.__init__ engine_hello icons_loaded)) in
  let env := {| test_open_fault := None; test_close_fault := None;
                open_fault := Some "Error opening InputStream: Device unavailable";
                start_fault := None; start_now := F64.of_Z 10 |} in
  exists e p' new,
    Session.step (Session.Run_record 0 env) p = Some p' /\
    Session.session_state p' = Session.Idle /\
    error_dialogs (gui p')
    = error_dialogs (gui p) ++ [("Recording Error", "Error starting recording: " ++ e)%string] /\
    In (Err_start_recording e) (log p') /\
    BUFFER (recorder p') = BUFFER (recorder p) /\
    streams p' = streams p ++ new /\
    Forall (fun s => active s = false) new /\
    engine_calls p' = engine_calls p /\
    (forall senv, Gui.WhisperRecorder.stop_recording senv p' = (Ok None, p')) /\
    (Gui.dict_get (icons (gui p)) "record" <> None ->
     text_box (gui p') = ("Error starting recording: " ++ e)%string).
Proof.
  intros p env. apply (@failed_start_stays_idle 0 env p).
  - reflexivity.
  - reflexivity.
  - right. right. left. discriminate.
Defined.

(** Evaluates the program on a closed input. *)
Ltac evaluate := vm_compute.

(** C1, as the specification has it, fails.  The worker holds the waveform
    and the engine has not answered.  A toggle is not ignored: it changes
    the process, and once the thread it starts has run the recorder is
    recording on a new active stream, the first worker still in flight. *)
Lemma toggle_while_transcribing_starts_recording :
  exists p p',
    Session.run until_transcribing (Gui.WhisperGUI.__init__ engine_hello icons_loaded)
    = Some p /\
    Session.session_state p = Session.Transcribing /\
    threads p = [Th_transcribing [F32.of_Z 1]] /\
    Session.step Session.Toggle p <> Some p /\
    Session.run [Session.Toggle; Session.Run_record 1 (start_ok (F64.of_Z 20))] p = Some p' /\
    threads p' = [Th_transcribing [F32.of_Z 1]] /\
    is_recording (recorder p') = true /\
    stream (recorder p') = Some 3 /\
    nth_error (streams p') 3
    = Some {| blocksize := 1024; has_callback := true; active := true; closed := false |}.
Proof.
  eexists. eexists.
  split; [evaluate; reflexivity|].
  split; [reflexivity|].
  split; [reflexivity|].
  split.
  { intros H. apply (f_equal (option_map (fun q => length (threads q)))) in H.
    discriminate H. }
  split; [evaluate; reflexivity|].
  repeat split.
Qed.

Lemma remove_nth_last {A} (l : list A) (x : A) :
  Session.remove_nth (length l) (l ++ [x]) = l.
Proof.
  unfold Session.remove_nth.
  rewrite firstn_app, Nat.sub_diag, firstn_all, firstn_0, app_nil_r.
  rewrite skipn_all2 by (rewrite length_app; cbn; lia).
  apply app_nil_r.
Qed.

(** The thread [_record] runs and the host has no fault. *)
Lemma run_record_ok (i : nat) (now : float64) (q : Process) :
  nth_error (threads q) i = Some Th_record ->
  exists p2,
    Session.step (Session.Run_record i (start_ok now)) q = Some p2 /\
    threads p2 = Session.remove_nth i (threads q) /\
    is_recording (recorder p2) = true /\
    stream (recorder p2) = Some (S (length (streams q))) /\
    nth_error (streams p2) (S (length (streams q)))
    = Some {| blocksize := 1024; has_callback := true; active := true; closed := false |} /\
    gui p2 = gui q.
Proof.
  intros H. unfold Session.step. rewrite H.
  destruct (gui_start_recording_opens_stream now (with_threads (Session.remove_nth i) q))
    as (p2 & E & R2 & S2 & N2 & T2 & G2).
  unfold Gui.WhisperGUI._record, try_except. rewrite E.
  exists p2. repeat split; assumption.
Qed.

(** C1, as the program has it.  [toggle_recording] looks at [is_recording]
    and at nothing else.  With a transcription in flight and the recorder
    stopped, a toggle is a request to start: the label shows "Recording...",
    a thread [_record] is started, the worker in flight is left alone; and
    when that thread has run, the host willing, the recorder is recording
    on a new active stream while the transcription is still in flight. *)
Theorem toggle_while_transcribing_is_a_start (v : option Photo) (p : Process) :
  Session.transcription_in_flight p = true ->
  is_recording (recorder p) = false ->
  Gui.dict_get (icons (gui p)) "mic" = Some v ->
  exists p1,
    Session.step Session.Toggle p = Some p1 /\
    threads p1 = threads p ++ [Th_record] /\
    status_label (gui p1) = "Recording..." /\
    Session.transcription_in_flight p1 = true /\
    forall now, exists p2 id,
      Session.step (Session.Run_record (length (threads p)) (start_ok now)) p1 = Some p2 /\
      threads p2 = threads p /\
      is_recording (recorder p2) = true /\
      stream (recorder p2) = Some id /\
      nth_error (streams p2) id
      = Some {| blocksize := 1024; has_callback := true; active := true; closed := false |} /\
      Session.session_state p2 = Session.Transcribing.
Proof.
  intros Hfl Hrec Hmic.
  assert (E : exists p1,
             Session.step Session.Toggle p = Some p1 /\
             threads p1 = threads p ++ [Th_record] /\
             status_label (gui p1) = "Recording...").
  { unfold Session.step. py_gui. rewrite Hrec. cbn. rewrite Hmic.
    destruct v as [ph|]; cbn; rewrite Hrec; cbn; eexists; repeat split. }
  destruct E as (p1 & E1 & T1 & L1).
  exists p1. repeat split; try assumption.
  - unfold Session.transcription_in_flight in *.
    rewrite T1, existsb_app, Hfl. reflexivity.
  - intros now.
    destruct (@run_record_ok (length (threads p)) now p1) as (p2 & E2 & T2 & R2 & S2 & N2 & _).
    { rewrite T1, nth_error_app2, Nat.sub_diag by lia. reflexivity. }
    exists p2, (S (length (streams p1))).
    rewrite T1, remove_nth_last in T2.
    repeat split; try assumption.
    unfold Session.session_state, Session.transcription_in_flight in *.
    rewrite T2, Hfl. reflexivity.
Qed.

Lemma toggle_while_transcribing_is_a_start_witness :
  let p := process_while_transcribing in
  exists p1,
    Session.step Session.Toggle p = Some p1 /\
    threads p1 = threads p ++ [Th_record] /\
    status_label (gui p1) = "Recording..." /\
    Session.transcription_in_flight p1 = true /\
    forall now, exists p2 id,
      Session.step (Session.Run_record (length (threads p)) (start_ok now)) p1 = Some p2 /\
      threads p2 = threads p /\
      is_recording (recorder p2) = true /\
      stream (recorder p2) = Some id /\
      nth_error (streams p2) id
      = Some {| blocksize := 1024; has_callback := true; active := true; closed := false |} /\
      Session.session_state p2 = Session.Transcribing.
Proof.
  intros p.
  apply (@toggle_while_transcribing_is_a_start (Some (PhotoImage "icons/mic.ico")) p).
  - evaluate. reflexivity.
  - evaluate. reflexivity.
  - evaluate. reflexivity.
Defined.

(** ** The engine raises *)

(** What an engine that raises leads to, for any recorder that holds
    blocks and stops without a fault: [transcribe] logs the failure and
    returns the empty string, and the worker goes on as after any
    transcription. *)
Lemma engine_failure_publishes_empty_text (now : float64) (cenv : ClipEnv)
    (id : nat) (b : ndarray) (bs : list ndarray) (a : ndarray)
    (engine : Engine) (e : exn) (p : Process) :
  is_recording (recorder p) = true ->
  stream (recorder p) = Some id ->
  BUFFER (recorder p) = b :: bs ->
  np_concatenate (b :: bs) = Ok a ->
  model (recorder p) = Some engine ->
  engine (flatten a) = Raise e ->
  OpenClipboard_fault cenv = None ->
  EmptyClipboard_fault cenv = None ->
  exists p',
    Gui.WhisperGUI._stop_and_transcribe (stop_ok now) cenv p = (Ok tt, p') /\
    is_recording (recorder p') = false /\
    status_label (gui p') = "Ready to record" /\
    text_box (gui p') = EmptyString /\
    set_text_calls (clipboard p') = set_text_calls (clipboard p) ++ [EmptyString] /\
    error_dialogs (gui p') = error_dialogs (gui p) /\
    engine_calls p' = engine_calls p ++ [flatten a] /\
    In (Err_transcription_failed e) (log p') /\
    In Info_transcription_completed (log p').
Proof.
  intros H1 H2 H3 H4 H5 H6 H7 H8. py_gui.
  rewrite H1. cbn. rewrite H2. cbn. rewrite H2. cbn. rewrite H3, H4. cbn.
  rewrite H5. cbn. rewrite H6. cbn. rewrite H7. cbn. rewrite H8. cbn.
  destruct (SetClipboardText_fault cenv) as [e1|]; cbn;
    [|destruct (CloseClipboard_fault cenv) as [e2|]; cbn];
    (eexists; split; [reflexivity|]); cbn;
    repeat split; rewrite !in_app_iff; cbn; tauto.
Qed.

(** C2 at the failing input.  A session of one block, an engine that
    raises.  The engine has been called on the waveform and its failure is
    in the log; the worker then takes the branch of a transcription that
    succeeded: [SetClipboardText] is called, with the empty string, which
    replaces what the clipboard held; the log goes on to say that the
    transcription was completed and copied; and the handler of
    [_stop_and_transcribe] that posts the dialog "Transcription Error" is
    not reached.  The session is idle. *)
Theorem engine_failure_reaches_clipboard :
  exists p,
    Session.run (until_transcribing ++ [Session.Engine_done 0 clip_ok])
      (Gui.WhisperGUI.__init__ engine_broken icons_loaded) = Some p /\
    engine_calls p = [[F32.of_Z 1]] /\
    log p = [Info_recording_started;
             Info_recording_stopped (PyFloat (F64.of_Z 2));
             Info_transcribing;
             Err_transcription_failed "engine failure";
             Info_transcription_completed] /\
    set_text_calls (clipboard p) = [EmptyString] /\
    clip_text (clipboard p) = Some EmptyString /\
    text_box (gui p) = EmptyString /\
    error_dialogs (gui p) = [] /\
    Session.session_state p = Session.Idle.
Proof.
  eexists. split; [evaluate; reflexivity|].
  repeat split.
Qed.

(** ** Errors and the return to idle *)






(** * Further properties *)

(** ** The recorder and the clipboard *)

(** X1.  [transcribe] on a waveform never raises, in either file.  It calls
    the engine once when a model is loaded and not at all otherwise; it
    returns the text of the engine, or the empty string when the engine
    raises or no model is loaded; the recorder, the window and the clipboard
    are as they were. *)
Theorem transcribe_never_raises (a : Waveform) (p : Process) :
  exists text p',
    Gui.WhisperRecorder.transcribe (Some a) p = (Ok text, p') /\
    Cli.WhisperRecorder.transcribe (Some a) p = (Ok text, p') /\
    recorder p' = recorder p /\ gui p' = gui p /\ clipboard p' = clipboard p /\
    match model (recorder p) with
    | None => text = EmptyString /\ engine_calls p' = engine_calls p
    | Some engine =>
        engine_calls p' = engine_calls p ++ [a] /\
        text = match engine a with
               | Ok t => t
               | Raise _ => EmptyString
               end
    end.
Proof.
  py_recorder. cbn.
  destruct (model (recorder p)) as [engine|]; cbn.
  - destruct (engine a) as [t|e]; cbn; eexists; eexists; repeat split.
  - eexists. eexists. repeat split.
Qed.

(** X2.  [copy_to_clipboard] never raises.  When no call of the clipboard
    fails, the clipboard holds the text and is closed, [SetClipboardText]
    has been called once, with that text, and nothing is logged. *)
Theorem copy_to_clipboard_never_raises (env : ClipEnv) (text : string) (p : Process) :
  exists p',
    Gui.copy_to_clipboard env text p = (Ok tt, p') /\
    recorder p' = recorder p /\ gui p' = gui p /\ threads p' = threads p /\
    (env = clip_ok ->
     clipboard p' = {| clip_open := false; clip_text := Some text;
                       set_text_calls := set_text_calls (clipboard p) ++ [text] |} /\
     log p' = log p).
Proof.
  py_recorder.
  destruct env as [[e1|] [e2|] [e3|] [e4|]]; cbn;
    eexists; (split; [reflexivity|]); cbn; repeat split; try discriminate.
Qed.

Lemma copy_to_clipboard_never_raises_witness :
  let p := Gui.WhisperGUI.__init__ engine_hello icons_loaded in
  exists p',
    Gui.copy_to_clipboard clip_ok "hello" p = (Ok tt, p') /\
    clipboard p' = {| clip_open := false; clip_text := Some "hello";
                      set_text_calls := ["hello"] |} /\
    log p' = log p.
Proof.
  intros p.
  destruct (@copy_to_clipboard_never_raises clip_ok "hello" p) as (p' & E & _ & _ & _ & H).
  exists p'. split; [exact E|]. apply H. reflexivity.
Defined.

(** X3.  There is no [finally] in [copy_to_clipboard]: when the clipboard
    has been opened and [EmptyClipboard] or [SetClipboardText] then raises,
    [CloseClipboard] is not called.  The clipboard stays open, the failure
    is logged, and the clipboard does not hold the text. *)
Theorem copy_to_clipboard_leaves_clipboard_open (env : ClipEnv) (text : string)
    (e : exn) (p : Process) :
  OpenClipboard_fault env = None ->
  EmptyClipboard_fault env = Some e \/
  (EmptyClipboard_fault env = None /\ SetClipboardText_fault env = Some e) ->
  exists p',
    Gui.copy_to_clipboard env text p = (Ok tt, p') /\
    clip_open (clipboard p') = true /\
    In (Err_clipboard e) (log p') /\
    clip_text (clipboard p')
    = match EmptyClipboard_fault env with
      | Some _ => clip_text (clipboard p)
      | None => None
      end.
Proof.
  intros H1 H2. py_recorder. rewrite H1. cbn.
  destruct H2 as [H2|[H2 H3]]; rewrite H2; cbn; [|rewrite H3; cbn];
    eexists; (split; [reflexivity|]); cbn;
    repeat split; apply in_or_app; right; now left.
Qed.

Lemma copy_to_clipboard_leaves_clipboard_open_witness :
  let p := Gui.WhisperGUI.__init__ engine_hello icons_loaded in
  let env := {| OpenClipboard_fault := None; EmptyClipboard_fault := None;
                SetClipboardText_fault := Some "Access is denied";
                CloseClipboard_fault := None |} in
  exists p',
    Gui.copy_to_clipboard env "hello" p = (Ok tt, p') /\
    clip_open (clipboard p') = true /\
    In (Err_clipboard "Access is denied") (log p') /\
    clip_text (clipboard p') = None.
Proof.
  intros p env.
  apply (@copy_to_clipboard_leaves_clipboard_open env "hello" "Access is denied" p).
  - reflexivity.
  - right. split; reflexivity.
Defined.

(** ** The worker [_stop_and_transcribe] *)

(** X4.  The recorder holds blocks and stops without a fault, the engine
    returns a text, the clipboard works.  In both files the worker shows the
    text in the text box and puts it on the clipboard, which it closes; the
    label is back at "Ready to record", the recorder is stopped with an
    empty [BUFFER], the engine has been called once, on the waveform, and
    no error dialog is posted. *)
Theorem transcription_is_shown_and_copied (now : float64) (id : nat) (b : ndarray)
    (bs : list ndarray) (a : ndarray) (engine : Engine) (text : string)
    (p : Process) :
  is_recording (recorder p) = true ->
  stream (recorder p) = Some id ->
  BUFFER (recorder p) = b :: bs ->
  np_concatenate (b :: bs) = Ok a ->
  model (recorder p) = Some engine ->
  engine (flatten a) = Ok text ->
  (exists p',
     Gui.WhisperGUI._stop_and_transcribe (stop_ok now) clip_ok p = (Ok tt, p') /\
     text_box (gui p') = text /\
     clip_text (clipboard p') = Some text /\
     clip_open (clipboard p') = false /\
     status_label (gui p') = "Ready to record" /\
     is_recording (recorder p') = false /\
     BUFFER (recorder p') = [] /\
     engine_calls p' = engine_calls p ++ [flatten a] /\
     error_dialogs (gui p') = error_dialogs (gui p)) /\
  (exists p',
     CliWindow.WhisperGUI._stop_and_transcribe (stop_ok now) clip_ok p = (Ok tt, p') /\
     text_box (gui p') = text /\
     clip_text (clipboard p') = Some text /\
     clip_open (clipboard p') = false /\
     status_label (gui p') = "Ready to record" /\
     is_recording (recorder p') = false /\
     BUFFER (recorder p') = [] /\
     engine_calls p' = engine_calls p ++ [flatten a] /\
     error_dialogs (gui p') = error_dialogs (gui p)).
Proof.
  intros H1 H2 H3 H4 H5 H6.
  split; unfold CliWindow.WhisperGUI._stop_and_transcribe; py_gui;
    rewrite H1; cbn; rewrite H2; cbn; rewrite H2; cbn; rewrite H3, H4; cbn;
    rewrite H5; cbn; rewrite H6; cbn;
    eexists; (split; [reflexivity|]); cbn; repeat split.
Qed.

Lemma transcription_is_shown_and_copied_witness :
  let p := process_recording_hello in
  (exists p',
     Gui.WhisperGUI._stop_and_transcribe (stop_ok (F64.of_Z 12)) clip_ok p = (Ok tt, p') /\
     text_box (gui p') = "hello" /\
     clip_text (clipboard p') = Some "hello" /\
     clip_open (clipboard p') = false /\
     status_label (gui p') = "Ready to record" /\
     is_recording (recorder p') = false /\
     BUFFER (recorder p') = [] /\
     engine_calls p' = engine_calls p ++ [flatten (mono [F32.of_Z 1])] /\
     error_dialogs (gui p') = error_dialogs (gui p)) /\
  (exists p',
     CliWindow.WhisperGUI._stop_and_transcribe (stop_ok (F64.of_Z 12)) clip_ok p = (Ok tt, p') /\
     text_box (gui p') = "hello" /\
     clip_text (clipboard p') = Some "hello" /\
     clip_open (clipboard p') = false /\
     status_label (gui p') = "Ready to record" /\
     is_recording (recorder p') = false /\
     BUFFER (recorder p') = [] /\
     engine_calls p' = engine_calls p ++ [flatten (mono [F32.of_Z 1])] /\
     error_dialogs (gui p') = error_dialogs (gui p)).
Proof.
  intros p.
  apply (@transcription_is_shown_and_copied (F64.of_Z 12) 1 (mono [F32.of_Z 1]) [] (mono [F32.of_Z 1])
           engine_hello "hello" p).
  - evaluate. reflexivity.
  - evaluate. reflexivity.
  - evaluate. reflexivity.
  - reflexivity.
  - evaluate. reflexivity.
  - reflexivity.
Defined.

(** X5.  The recorder is recording, no block has arrived and the stream
    stops without a fault.  In both files the worker shows "No audio
    recorded" and "Ready to record"; the engine is not called, the clipboard
    is not touched, and the recorder is stopped. *)
Theorem empty_recording_skips_engine_and_clipboard (now : float64) (cenv : ClipEnv)
    (id : nat) (p : Process) :
  is_recording (recorder p) = true ->
  stream (recorder p) = Some id ->
  BUFFER (recorder p) = [] ->
  (exists p',
     Gui.WhisperGUI._stop_and_transcribe (stop_ok now) cenv p = (Ok tt, p') /\
     text_box (gui p') = "No audio recorded" /\
     status_label (gui p') = "Ready to record" /\
     is_recording (recorder p') = false /\
     engine_calls p' = engine_calls p /\
     clipboard p' = clipboard p /\
     In Warn_no_audio_data (log p')) /\
  (exists p',
     CliWindow.WhisperGUI._stop_and_transcribe (stop_ok now) cenv p = (Ok tt, p') /\
     text_box (gui p') = "No audio recorded" /\
     status_label (gui p') = "Ready to record" /\
     is_recording (recorder p') = false /\
     engine_calls p' = engine_calls p /\
     clipboard p' = clipboard p /\
     In Warn_no_audio_data (log p')).
Proof.
  intros H1 H2 H3.
  split; unfold CliWindow.WhisperGUI._stop_and_transcribe; py_gui;
    rewrite H1; cbn; rewrite H2; cbn; rewrite H2; cbn; rewrite H3; cbn;
    eexists; (split; [reflexivity|]); cbn; repeat split;
    rewrite !in_app_iff; cbn; tauto.
Qed.

Lemma empty_recording_skips_engine_and_clipboard_witness :
  let p := process_recording_no_block in
  (exists p',
     Gui.WhisperGUI._stop_and_transcribe (stop_ok (F64.of_Z 12)) clip_ok p = (Ok tt, p') /\
     text_box (gui p') = "No audio recorded" /\
     status_label (gui p') = "Ready to record" /\
     is_recording (recorder p') = false /\
     engine_calls p' = engine_calls p /\
     clipboard p' = clipboard p /\
     In Warn_no_audio_data (log p')) /\
  (exists p',
     CliWindow.WhisperGUI._stop_and_transcribe (stop_ok (F64.of_Z 12)) clip_ok p = (Ok tt, p') /\
     text_box (gui p') = "No audio recorded" /\
     status_label (gui p') = "Ready to record" /\
     is_recording (recorder p') = false /\
     engine_calls p' = engine_calls p /\
     clipboard p' = clipboard p /\
     In Warn_no_audio_data (log p')).
Proof.
  intros p.
  apply (@empty_recording_skips_engine_and_clipboard (F64.of_Z 12) clip_ok 1 p).
  - evaluate. reflexivity.
  - evaluate. reflexivity.
  - evaluate. reflexivity.
Defined.

(** X6.  The worker runs on a recorder that is not recording (a second
    worker, after a double toggle).  In both files it overwrites the text
    box with "No audio recorded" and sets the label to "Ready to record";
    the recorder, the clipboard, the engine and the log of the recorder are
    as they were. *)
Theorem worker_on_stopped_recorder_overwrites_text (senv : StopEnv) (cenv : ClipEnv)
    (p : Process) :
  is_recording (recorder p) = false ->
  let p' := with_log (fun l => l ++ [Warn_no_audio])
              (with_gui (Gui.set_status_label "Ready to record")
                 (with_gui (Gui.set_text_box "No audio recorded") p)) in
  Gui.WhisperGUI._stop_and_transcribe senv cenv p = (Ok tt, p') /\
  CliWindow.WhisperGUI._stop_and_transcribe senv cenv p = (Ok tt, p').
Proof.
  intros H p'.
  split; unfold CliWindow.WhisperGUI._stop_and_transcribe; py_gui;
    rewrite H; reflexivity.
Qed.

Lemma worker_on_stopped_recorder_overwrites_text_witness :
  let p := process_after_transcription in
  text_box (gui p) = "hello" /\
  text_box (gui (snd (Gui.WhisperGUI._stop_and_transcribe (stop_ok (F64.of_Z 13)) clip_ok p)))
  = "No audio recorded" /\
  clip_text (clipboard (snd (Gui.WhisperGUI._stop_and_transcribe (stop_ok (F64.of_Z 13)) clip_ok p)))
  = Some "hello".
Proof.
  intros p.
  assert (H : is_recording (recorder p) = false) by (evaluate; reflexivity).
  destruct (@worker_on_stopped_recorder_overwrites_text (stop_ok (F64.of_Z 13)) clip_ok p H) as [E _].
  rewrite E. split; [evaluate; reflexivity|]. split; [reflexivity|].
  evaluate. reflexivity.
Defined.

(** ** The callback under faults *)

(** X7.  What the callback of [whisper_gui.py] has done when it returns: a
    block whose copy failed is not in [BUFFER]; a block whose copy succeeded
    is at the end of [BUFFER], also when the computation of its loudness
    failed, and then the loudness stored is the one of an earlier block. *)
Theorem gui_callback_partial_effects (env : CallbackEnv) (indata : ndarray)
    (frames : nat) (time : float64) (status : CallbackFlags) (p : Process) :
  let p' := snd (Gui.WhisperRecorder.callback env indata frames time status p) in
  BUFFER (recorder p')
  = BUFFER (recorder p) ++ match copy_fault env with
                           | None => [indata]
                           | Some _ => []
                           end /\
  audio_level (recorder p')
  = match copy_fault env, level_fault env with
    | None, None => NpFloat32 (np_sqrt (np_mean (np_square indata)))
    | _, _ => audio_level (recorder p)
    end.
Proof.
  py_recorder.
  destruct status, (copy_fault env) as [e1|], (level_fault env) as [e2|]; cbn;
    rewrite ?app_nil_r; split; reflexivity.
Qed.

(** ** Icons that are missing *)

(** X8.  The dictionary of icons has no entry for the key that a toggle
    needs: ["mic"] to start, ["record"] to stop.  In both files the toggle
    raises [KeyError] before it has changed anything: no thread is started,
    the recorder can not be started, or can not be stopped, from the
    window. *)
Theorem toggle_with_missing_icon_raises (p : Process) :
  (is_recording (recorder p) = false ->
   Gui.dict_get (icons (gui p)) "mic" = None ->
   Gui.WhisperGUI.toggle_recording p = (Raise "'mic'", p) /\
   CliWindow.WhisperGUI.toggle_recording p = (Raise "'mic'", p)) /\
  (is_recording (recorder p) = true ->
   Gui.dict_get (icons (gui p)) "record" = None ->
   Gui.WhisperGUI.toggle_recording p = (Raise "'record'", p) /\
   CliWindow.WhisperGUI.toggle_recording p = (Raise "'record'", p)).
Proof.
  split; intros H1 H2;
    unfold CliWindow.WhisperGUI.toggle_recording, CliWindow.WhisperGUI.start_recording,
      CliWindow.WhisperGUI.stop_recording;
    py_gui; rewrite H1; cbn; rewrite H2; split; reflexivity.
Qed.

Lemma toggle_with_missing_icon_raises_witness :
  let p := Gui.WhisperGUI.__init__ engine_hello
             [("record", Some (PhotoImage "icons/record.png"))] in
  Gui.WhisperGUI.toggle_recording p = (Raise "'mic'", p) /\
  CliWindow.WhisperGUI.toggle_recording p = (Raise "'mic'", p).
Proof.
  intros p.
  apply (proj1 (toggle_with_missing_icon_raises p)); reflexivity.
Defined.

(** ** Streams that nobody stops *)

Lemma nth_error_update_nth_other {A} (n m : nat) (f : A -> A) (l : list A) :
  n <> m -> nth_error (update_nth n f l) m = nth_error l m.
Proof.
  intros Hnm. unfold update_nth.
  destruct (nth_error l n) as [a|] eqn:E; [|reflexivity].
  assert (Hn : n < length l) by (apply nth_error_Some; congruence).
  destruct (Nat.lt_ge_cases m n) as [Hlt|Hge].
  - rewrite nth_error_app1 by (rewrite length_firstn; lia).
    rewrite nth_error_firstn.
    destruct (Nat.ltb_spec m n); [reflexivity|lia].
  - rewrite nth_error_app2 by (rewrite length_firstn; lia).
    rewrite length_firstn, Nat.min_l by lia.
    destruct (m - n) as [|k] eqn:Ek; [lia|]. cbn [nth_error].
    rewrite nth_error_skipn. f_equal. lia.
Qed.

Lemma gui_start_keeps_older_streams (now : float64) (p : Process) :
  exists p',
    Gui.WhisperRecorder.start_recording (start_ok now) p = (Ok tt, p') /\
    is_recording (recorder p') = true /\
    stream (recorder p') = Some (S (length (streams p))) /\
    forall id, id < length (streams p) ->
               nth_error (streams p') id = nth_error (streams p) id.
Proof.
  py_recorder. cbn -[nth_error update_nth]. eexists. split; [reflexivity|].
  cbn -[nth_error update_nth].
  rewrite !update_nth_last.
  assert (L : forall x : InputStream, S (length (streams p)) = length (streams p ++ [x]))
    by (intros x; rewrite length_app; cbn; lia).
  rewrite <- L.
  split; [reflexivity|]. split; [reflexivity|].
  intros id Hid. rewrite <- app_assoc. apply nth_error_app1. exact Hid.
Qed.

Lemma gui_stop_touches_own_stream_only (env : StopEnv) (id m : nat) (q : Process) :
  stream (recorder q) = Some id ->
  m <> id ->
  nth_error (streams (snd (Gui.WhisperRecorder.stop_recording env q))) m
  = nth_error (streams q) m.
Proof.
  intros H Hm. py_recorder.
  destruct (is_recording (recorder q)); cbn -[nth_error update_nth]; [|reflexivity].
  rewrite H. destruct (stop_fault env) as [e1|]; cbn -[nth_error update_nth];
    [reflexivity|].
  rewrite H. destruct (close_fault env) as [e2|]; cbn -[nth_error update_nth];
    [apply nth_error_update_nth_other; auto|].
  destruct (BUFFER (recorder q)) as [|b bs]; cbn -[nth_error update_nth];
    [|destruct (forallb (fun b0 => Nat.eqb (ncols b0) (ncols b)) bs);
      cbn -[nth_error update_nth];
      [destruct (concatenate_fault env); cbn -[nth_error update_nth]|]];
    rewrite !nth_error_update_nth_other by auto; reflexivity.
Qed.

Lemma gui_stop_ok_stops (now : float64) (id : nat) (q : Process) :
  is_recording (recorder q) = true ->
  stream (recorder q) = Some id ->
  exists r q',
    Gui.WhisperRecorder.stop_recording (stop_ok now) q = (Ok r, q') /\
    is_recording (recorder q') = false.
Proof.
  intros H1 H2. py_recorder. rewrite H1. cbn. rewrite H2. cbn. rewrite H2. cbn.
  destruct (BUFFER (recorder q)) as [|b bs]; cbn;
    [|destruct (forallb (fun b0 => Nat.eqb (ncols b0) (ncols b)) bs); cbn];
    eexists; eexists; split; reflexivity.
Qed.

(** X9.  [start_recording] does not stop the stream that [self.stream]
    refers to: it opens new streams behind those that exist and makes
    [self.stream] refer to the last of them.  [stop_recording] then stops
    that one only.  A stream that was active when [start_recording] was
    called (two toggles before the first thread ran) is still active after
    [stop_recording], and nothing refers to it. *)
Theorem start_recording_orphans_active_stream (now1 now2 : float64) (id0 : nat)
    (s0 : InputStream) (p : Process) :
  stream (recorder p) = Some id0 ->
  nth_error (streams p) id0 = Some s0 ->
  exists p1 r p2,
    Gui.WhisperRecorder.start_recording (start_ok now1) p = (Ok tt, p1) /\
    stream (recorder p1) = Some (S (length (streams p))) /\
    id0 < length (streams p) /\
    nth_error (streams p1) id0 = Some s0 /\
    Gui.WhisperRecorder.stop_recording (stop_ok now2) p1 = (Ok r, p2) /\
    is_recording (recorder p2) = false /\
    nth_error (streams p2) id0 = Some s0.
Proof.
  intros H1 H2.
  assert (Hid : id0 < length (streams p)) by (apply nth_error_Some; congruence).
  destruct (gui_start_keeps_older_streams now1 p) as (p1 & E1 & R1 & S1 & N1).
  destruct (@gui_stop_ok_stops now2 _ p1 R1 S1) as (r & p2 & E2 & R2).
  exists p1, r, p2. repeat split; try assumption.
  - rewrite N1 by exact Hid. exact H2.
  - pose proof (@gui_stop_touches_own_stream_only (stop_ok now2) _ id0 p1 S1) as T.
    rewrite E2 in T. cbn [snd] in T. rewrite T by lia.
    rewrite N1 by exact Hid. exact H2.
Qed.

Lemma start_recording_orphans_active_stream_witness :
  let p := process_recording_hello in
  let s0 := {| blocksize := 1024; has_callback := true; active := true; closed := false |} in
  exists p1 r p2,
    Gui.WhisperRecorder.start_recording (start_ok (F64.of_Z 11)) p = (Ok tt, p1) /\
    stream (recorder p1) = Some (S (length (streams p))) /\
    1 < length (streams p) /\
    nth_error (streams p1) 1 = Some s0 /\
    Gui.WhisperRecorder.stop_recording (stop_ok (F64.of_Z 12)) p1 = (Ok r, p2) /\
    is_recording (recorder p2) = false /\
    nth_error (streams p2) 1 = Some s0.
Proof.
  intros p s0.
  apply (@start_recording_orphans_active_stream (F64.of_Z 11) (F64.of_Z 12) 1 s0 p).
  - evaluate. reflexivity.
  - evaluate. reflexivity.
Defined.

(** ** The level meter *)

(** X10.  The meter at full scale.  [update_visualizer] clips the loudness,
    times 5, at 1.0, and what is not below 1.0 there is replaced by the
    Python float 1.0: a loudness of 0.2 or more, an infinite one, and a
    loudness that is no number, as the mean of an empty block is.  While
    the recorder is recording, every such loudness draws the same forty
    bars in the strong red, computed in [float64]: 20 pixels at bar 20,
    one pixel less with every bar to either side down to the least height
    of 2, but for bars 4 and 36, which have 3 pixels and not 4, the share
    [1 - 16 / 20] being a little below one fifth.  One more call of
    [update_visualizer] is asked for, and nothing else changes. *)
Theorem update_visualizer_at_full_scale (p : Process) :
  is_recording (recorder p) = true ->
  length (bars (gui p)) = 40 ->
  py_lt (py_mul (audio_level (recorder p)) (PyInt 5)) (PyFloat (F64.of_Z 1)) = false ->
  Gui.WhisperGUI.update_visualizer p = (Ok tt, with_gui full_scale p).
Proof.
  intros H1 H2 H3.
  unfold Gui.WhisperGUI.update_visualizer, bind, get. rewrite H1. cbn [negb].
  cbv zeta. unfold py_min_1. rewrite H3, H2.
  destruct p as [r ss lg ec cb w th]. destruct w as [ic rb sl tb vp bs ed vt].
  cbn in H2.
  do 40 (destruct bs as [|? bs]; [discriminate|]). destruct bs; [|discriminate].
  vm_compute. reflexivity.
Qed.

Lemma update_visualizer_at_full_scale_witness :
  let p := process_recording_empty_block in
  audio_level (recorder p) = NpFloat32 S754_nan /\
  Gui.WhisperGUI.update_visualizer p = (Ok tt, with_gui full_scale p) /\
  nth_error (bars (gui (with_gui full_scale p))) 4 = Some (Some (3%Z, ff4444)).
Proof.
  intros p. split; [vm_compute; reflexivity|]. split.
  - apply (@update_visualizer_at_full_scale p).
    + vm_compute. reflexivity.
    + vm_compute. reflexivity.
    + vm_compute. reflexivity.
  - reflexivity.
Defined.

Lemma nth_error_update_nth_same {A} (n : nat) (f : A -> A) (l : list A) :
  nth_error (update_nth n f l) n = option_map f (nth_error l n).
Proof.
  unfold update_nth. destruct (nth_error l n) as [a|] eqn:E.
  - assert (Hn : n < length l) by (apply nth_error_Some; congruence).
    rewrite nth_error_app2 by (rewrite length_firstn; lia).
    rewrite length_firstn, Nat.min_l, Nat.sub_diag by lia. reflexivity.
  - rewrite E. reflexivity.
Qed.

(** The loop over the bars, when no height raises: every bar of the list
    that the window has is drawn in the colour of the level, and the other
    bars are left as they are. *)
Lemma for_each_bar_draws (level : pynum) (indices : list nat) (p p' : Process) :
  Gui.WhisperGUI.for_each_bar level indices p = (Ok tt, p') ->
  length (bars (gui p')) = length (bars (gui p)) /\
  (forall i, In i indices -> i < length (bars (gui p)) ->
     exists ht, nth_error (bars (gui p')) i
                = Some (Some (ht, Gui.WhisperGUI.bar_colour level))) /\
  (forall i, ~ In i indices ->
     nth_error (bars (gui p')) i = nth_error (bars (gui p)) i).
Proof.
  revert p. induction indices as [|i rest IH]; intros p E.
  - injection E as <-. split; [reflexivity|]. split; [intros i []|reflexivity].
  - cbn [Gui.WhisperGUI.for_each_bar] in E.
    unfold bind, Gui.WhisperGUI.draw_bar, lift, modify in E.
    destruct (Gui.WhisperGUI.bar_height level i) as [ht|e]; [|discriminate].
    cbv beta iota delta [bind] in E.
    match type of E with
    | Gui.WhisperGUI.for_each_bar _ _ ?q = _ => set (p1 := q) in E
    end.
    assert (B1 : bars (gui p1)
                 = update_nth i (fun _ => Some (ht, Gui.WhisperGUI.bar_colour level))
                     (bars (gui p))) by reflexivity.
    destruct (IH p1 E) as (L & D & O).
    rewrite B1, length_update_nth in L. split; [exact L|]. split.
    + intros j Hj Hlt. destruct (in_dec Nat.eq_dec j rest) as [Hin|Hout].
      * apply D; [exact Hin|]. rewrite B1, length_update_nth. exact Hlt.
      * destruct Hj as [<-|Hj]; [|contradiction].
        rewrite (O i Hout), B1, nth_error_update_nth_same.
        destruct (nth_error (bars (gui p)) i) as [b|] eqn:Eb.
        -- exists ht. reflexivity.
        -- apply nth_error_None in Eb. lia.
    + intros j Hj. rewrite (O j) by (intros H; apply Hj; right; exact H).
      rewrite B1. apply nth_error_update_nth_other.
      intros ->. apply Hj. left. reflexivity.
Qed.

(** X11.  The colour of the meter.  When [update_visualizer] returns while
    the recorder is recording, every bar of the window is drawn in one
    colour, that of the level: the strong red when the loudness, times 5
    and clipped at 1.0, is above 0.5 as the program computes it, the pale
    red otherwise.  The product is a [float32] when the loudness is one
    (NumPy 2).
    So a loudness of [float32(0.1)], a little more than a tenth, gives the
    pale red: its product with 5 is rounded to 0.5 exactly, which is not
    above 0.5.  The next [float32] gives the strong red, and so does the
    loudness of an empty block, which is no number.  Before the first
    block the loudness is the integer 0 and the red is pale. *)
Theorem update_visualizer_colour_threshold (p p' : Process) :
  is_recording (recorder p) = true ->
  Gui.WhisperGUI.update_visualizer p = (Ok tt, p') ->
  let level := py_min_1 (py_mul (audio_level (recorder p)) (PyInt 5)) in
  (forall i, i < length (bars (gui p)) ->
     exists ht, nth_error (bars (gui p')) i
                = Some (Some (ht, Gui.WhisperGUI.bar_colour level))) /\
  (Gui.WhisperGUI.bar_colour level = ff4444 <->
   py_lt (PyFloat (F64.div (F64.of_Z 1) (F64.of_Z 2))) level = true) /\
  (audio_level (recorder p) = NpFloat32 tenth ->
   level = NpFloat32 (pow2_neg 1) /\ Gui.WhisperGUI.bar_colour level = ff8888) /\
  (audio_level (recorder p) = NpFloat32 above_tenth ->
   Gui.WhisperGUI.bar_colour level = ff4444) /\
  (audio_level (recorder p) = NpFloat32 S754_nan ->
   level = PyFloat (F64.of_Z 1) /\ Gui.WhisperGUI.bar_colour level = ff4444) /\
  (audio_level (recorder p) = PyInt 0 ->
   Gui.WhisperGUI.bar_colour level = ff8888).
Proof.
  intros Hr E level. split; [|split; [|split; [|split; [|split]]]].
  - unfold Gui.WhisperGUI.update_visualizer, bind, get in E.
    rewrite Hr in E. cbn [negb] in E. cbv zeta in E. fold level in E.
    destruct (Gui.WhisperGUI.for_each_bar level (seq 0 (length (bars (gui p)))) p)
      as [[[]|e] p1] eqn:E1; [|discriminate].
    destruct (for_each_bar_draws _ _ _ E1) as (_ & D & _).
    unfold modify in E. injection E as <-. cbn [gui with_gui bars Gui.set_visualizer_timers].
    intros i Hi. destruct (D i) as [ht Hh]; [apply in_seq; lia|exact Hi|].
    exists ht. rewrite <- Hh. destruct p1 as [r ss lg ec cb w th]. destruct w. reflexivity.
  - unfold Gui.WhisperGUI.bar_colour.
    destruct (py_lt _ level); split; intros H; try reflexivity; discriminate.
  - intros H. subst level. rewrite H. vm_compute. split; reflexivity.
  - intros H. subst level. rewrite H. vm_compute. reflexivity.
  - intros H. subst level. rewrite H. vm_compute. split; reflexivity.
  - intros H. subst level. rewrite H. vm_compute. reflexivity.
Qed.

Lemma update_visualizer_colour_threshold_witness :
  let p := process_recording_tenth in
  exists p',
    Gui.WhisperGUI.update_visualizer p = (Ok tt, p') /\
    audio_level (recorder p) = NpFloat32 tenth /\
    bars (gui p') = map (fun ht => Some (ht, ff8888))
                      [2; 2; 2; 2; 2; 2; 3; 3; 4; 4; 5; 5; 6; 6; 7; 7; 8; 8; 9; 9;
                       10; 9; 9; 8; 8; 7; 7; 6; 6; 5; 5; 4; 4; 3; 3; 2; 2; 2; 2; 2]%Z /\
    Gui.WhisperGUI.bar_colour
      (py_min_1 (py_mul (audio_level (recorder p)) (PyInt 5))) = ff8888.
Proof.
  intros p.
  exists (snd (Gui.WhisperGUI.update_visualizer p)).
  assert (E : Gui.WhisperGUI.update_visualizer p
              = (Ok tt, snd (Gui.WhisperGUI.update_visualizer p)))
    by (vm_compute; reflexivity).
  assert (L : audio_level (recorder p) = NpFloat32 tenth) by (vm_compute; reflexivity).
  split; [exact E|]. split; [exact L|].
  split; [vm_compute; reflexivity|].
  destruct (@update_visualizer_colour_threshold p _ ltac:(vm_compute; reflexivity) E)
    as (_ & _ & H & _).
  apply (H L).
Defined.

(** X12.  The shape of the meter, whatever the level: the heights mirror
    each other around bar 20; no bar is lower than 2 pixels; and bar 0,
    whose share of the level is [1 - 20 / 20], has 2 pixels whenever its
    height can be computed at all. *)
Theorem bar_height_shape (level : pynum) :
  (forall k, k <= 20 ->
     Gui.WhisperGUI.bar_height level (20 - k) = Gui.WhisperGUI.bar_height level (20 + k)) /\
  (forall i h, Gui.WhisperGUI.bar_height level i = Ok h -> (2 <= h)%Z) /\
  (forall h, Gui.WhisperGUI.bar_height level 0 = Ok h -> h = 2%Z).
Proof.
  split; [|split].
  - intros k Hk. unfold Gui.WhisperGUI.bar_height.
    replace (Z.abs (Z.of_nat (20 - k) - 20)) with (Z.of_nat k) by lia.
    replace (Z.abs (Z.of_nat (20 + k) - 20)) with (Z.of_nat k) by lia.
    reflexivity.
  - intros i h. unfold Gui.WhisperGUI.bar_height.
    destruct (int_truediv _ 20) as [q|e]; [|discriminate].
    destruct (py_int _) as [h'|e]; [|discriminate].
    intros E. injection E as <-. apply Z.le_max_l.
  - intros h. unfold Gui.WhisperGUI.bar_height.
    change (int_truediv (Z.abs (Z.of_nat 0 - 20)) 20)
      with (Ok (F64.div (F64.of_Z 20) (F64.of_Z 20)) : result float64).
    replace (py_sub (PyInt 1) (PyFloat (F64.div (F64.of_Z 20) (F64.of_Z 20))))
      with (PyFloat (S754_zero false)) by (vm_compute; reflexivity).
    assert (Z0 : F32.round (S754_zero false) = S754_zero false) by reflexivity.
    destruct level as [n|x|x]; unfold py_mul, arith; cbn [is_numpy orb as_float32 as_float64];
      rewrite ?Z0.
    + destruct (F64.of_Z (20 * n)) as [s|s| |s m e]; cbn; try discriminate;
        intros E; injection E as <-; reflexivity.
    + destruct (F64.mul (F64.of_Z 20) x) as [s|s| |s m e]; cbn; try discriminate;
        intros E; injection E as <-; reflexivity.
    + destruct (F32.mul (F32.of_Z 20) x) as [s|s| |s m e]; cbn; try discriminate;
        intros E; injection E as <-; reflexivity.
Qed.

Lemma bar_height_shape_witness :
  let level := NpFloat32 (pow2_neg 1) in
  Gui.WhisperGUI.bar_height level 15 = Gui.WhisperGUI.bar_height level 25 /\
  (exists h, Gui.WhisperGUI.bar_height level 15 = Ok h /\ (2 <= h)%Z) /\
  (exists h, Gui.WhisperGUI.bar_height level 0 = Ok h /\ h = 2%Z).
Proof.
  intros level.
  destruct (bar_height_shape level) as (H1 & H2 & H3).
  split; [apply (H1 5); lia|]. split.
  - exists 7%Z.
    assert (E : Gui.WhisperGUI.bar_height level 15 = Ok 7%Z) by (vm_compute; reflexivity).
    split; [exact E|]. apply (H2 15 7%Z E).
  - exists 2%Z.
    assert (E : Gui.WhisperGUI.bar_height level 0 = Ok 2%Z) by (vm_compute; reflexivity).
    split; [exact E|]. apply (H3 2%Z E).
Defined.

(** ** What a computation leaves alone *)

Section Frame.

Variables (X : Type) (f : Process -> X).

Lemma preserves_ret {A} (a : A) : preserves f (ret a).
Proof. intros p. reflexivity. Qed.

Lemma preserves_raise {A} (e : exn) : preserves f (@raise A e).
Proof. intros p. reflexivity. Qed.

Lemma preserves_get : preserves f get.
Proof. intros p. reflexivity. Qed.

Lemma preserves_lift {A} (r : result A) : preserves f (lift r).
Proof. intros p. reflexivity. Qed.

Lemma preserves_bind {A B} (c : Py A) (k : A -> Py B) :
  preserves f c -> (forall a, preserves f (k a)) -> preserves f (bind c k).
Proof.
  intros Hc Hk p. unfold bind. specialize (Hc p).
  destruct (c p) as [[a|e] p']; cbn [snd] in *.
  - rewrite Hk. exact Hc.
  - exact Hc.
Qed.

Lemma preserves_try_except {A} (body : Py A) (handler : exn -> Py A) :
  preserves f body -> (forall e, preserves f (handler e)) ->
  preserves f (try_except body handler).
Proof.
  intros Hb Hh p. unfold try_except. specialize (Hb p).
  destruct (body p) as [[a|e] p']; cbn [snd] in *.
  - exact Hb.
  - rewrite Hh. exact Hb.
Qed.

Lemma preserves_modify (g : Process -> Process) :
  (forall p, f (g p) = f p) -> preserves f (modify g).
Proof. intros H p. apply H. Qed.

End Frame.

(** The loop over the bars touches the window only. *)
Lemma preserves_for_each_bar {X} (f : Process -> X) (level : pynum) (indices : list nat) :
  (forall g p, f (with_gui g p) = f p) ->
  preserves f (Gui.WhisperGUI.for_each_bar level indices).
Proof.
  intros H. induction indices as [|i rest IH]; cbn [Gui.WhisperGUI.for_each_bar].
  - apply preserves_ret.
  - apply preserves_bind; [|intros _; exact IH].
    unfold Gui.WhisperGUI.draw_bar. apply preserves_bind; [apply preserves_lift|].
    intros h. apply preserves_modify. intros p. apply H.
Qed.

(** Unfolds the methods and leaves the monad folded. *)
Ltac unfold_methods :=
  unfold CliWindow.WhisperGUI.toggle_recording, CliWindow.WhisperGUI.start_recording,
    CliWindow.WhisperGUI.stop_recording, CliWindow.WhisperGUI._record,
    CliWindow.WhisperGUI._stop_and_transcribe,
    Gui.WhisperGUI.toggle_recording, Gui.WhisperGUI.start_recording,
    Gui.WhisperGUI.stop_recording, Gui.WhisperGUI._record,
    Gui.WhisperGUI._stop_and_transcribe, Gui.WhisperGUI.update_visualizer,
    Session.stop_phase, Session.transcribe_phase, Session.transcription_error,
    Session.call_engine, Session.engine_answers,
    Gui.WhisperGUI.Thread_start, Gui.WhisperGUI.icons_getitem,
    Gui.WhisperGUI.record_button_configure, Gui.WhisperGUI.text_box_replace,
    Gui.WhisperGUI.after_showerror,
    Gui.WhisperRecorder.stop_recording, Cli.WhisperRecorder.stop_recording,
    Gui.WhisperRecorder.start_recording, Cli.WhisperRecorder.start_recording,
    Gui.WhisperRecorder.callback, Cli.WhisperRecorder.callback,
    Gui.WhisperRecorder.transcribe, Cli.WhisperRecorder.transcribe,
    Gui.WhisperRecorder.model_transcribe, Gui.copy_to_clipboard,
    on_stream, stream_stop, stream_close, stream_start, InputStream_new,
    logger, when, call.

(** Walks through a method as [keeps] does, for any part of the process. *)
Ltac frame_steps :=
  repeat first
    [ apply preserves_ret
    | apply preserves_raise
    | apply preserves_get
    | apply preserves_lift
    | apply preserves_bind; [|intro]
    | apply preserves_try_except; [|intro]
    | apply preserves_modify; intro; reflexivity
    | apply preserves_for_each_bar; intros; reflexivity
    | match goal with
      | |- preserves _ (if ?b then _ else _) => destruct b
      | |- preserves _ (match ?x with _ => _ end) => destruct x
      | |- preserves _ (let _ := _ in _) => cbv zeta
      end ].

Ltac frame := unfold_methods; frame_steps.

(** *** The visualizer *)

Lemma record_keeps_visualizer (env : StartEnv) :
  preserves visualizer_of (Gui.WhisperGUI._record env).
Proof. frame. Qed.

Lemma stop_phase_keeps_visualizer (env : StopEnv) :
  preserves visualizer_of (Session.stop_phase env).
Proof. frame. Qed.

Lemma transcribe_phase_keeps_visualizer (env : ClipEnv) (a : Waveform) :
  preserves visualizer_of (Session.transcribe_phase env a).
Proof. frame. Qed.

Lemma callback_keeps_visualizer (env : CallbackEnv) (indata : ndarray)
    (frames : nat) (time : float64) (status : CallbackFlags) :
  preserves visualizer_of (Gui.WhisperRecorder.callback env indata frames time status).
Proof. frame. Qed.

(** The toggle that starts calls [update_visualizer] while [is_recording] is
    still false, the toggle that stops does not call it. *)
Lemma toggle_keeps_visualizer : preserves visualizer_of Gui.WhisperGUI.toggle_recording.
Proof.
  intros p. py_gui.
  destruct (is_recording (recorder p)) eqn:E; cbn.
  - destruct (Gui.dict_get (icons (gui p)) "record") as [[ph|]|]; reflexivity.
  - destruct (Gui.dict_get (icons (gui p)) "mic") as [[ph|]|]; cbn;
      rewrite ?E; reflexivity.
Qed.

Lemma step_keeps_visualizer (ev : Session.Event) (p p' : Process) :
  is_toggle_during_record ev = false ->
  visualizer_timers (gui p) = 0 ->
  Session.step ev p = Some p' ->
  ev <> Session.Timer /\ visualizer_of p' = visualizer_of p.
Proof.
  intros Hev H0.
  destruct ev as [|i env|i env|i env|i env|id env indata status|]; unfold Session.step;
    cbn [is_toggle_during_record] in Hev; try discriminate Hev.
  - intros E. injection E as <-. split; [discriminate|apply toggle_keeps_visualizer].
  - destruct (nth_error (threads p) i) as [[| |a]|]; try discriminate.
    intros E. injection E as <-. split; [discriminate|].
    rewrite record_keeps_visualizer. reflexivity.
  - destruct (nth_error (threads p) i) as [[| |a]|]; try discriminate.
    pose proof (stop_phase_keeps_visualizer env p) as K.
    destruct (Session.stop_phase env p) as [[[a|]|e] p1]; cbn [snd] in K;
      intros E; injection E as <-; (split; [discriminate|exact K]).
  - destruct (nth_error (threads p) i) as [[| |a]|]; try discriminate.
    intros E. injection E as <-. split; [discriminate|].
    rewrite transcribe_phase_keeps_visualizer. reflexivity.
  - destruct (nth_error (streams p) id) as [s|]; [|discriminate].
    destruct (active s && has_callback s); [|discriminate].
    intros E. injection E as <-. split; [discriminate|].
    apply callback_keeps_visualizer.
  - rewrite H0. discriminate.
Qed.

(** X13.  The level meter runs only by an accident of timing.
    [start_recording] of the window calls [update_visualizer] before it
    starts the thread that will set [is_recording], and nothing else starts
    the polling.  So, as long as no thread [_record] of an earlier toggle
    runs in the middle of a toggle, whatever else the user, the threads
    and the audio host do from the start of the program on: no bar is ever
    drawn, no call of [update_visualizer] is ever pending, and no timer
    ever fires.  When such a thread does run in the middle of a toggle,
    after the toggle has read [is_recording] and before
    [update_visualizer] reads it, the meter is drawn and its polling
    starts. *)
Theorem visualizer_starts_only_during_record :
  (forall engine ic evs p,
     existsb is_toggle_during_record evs = false ->
     Session.run evs (Gui.WhisperGUI.__init__ engine ic) = Some p ->
     bars (gui p) = repeat None 40 /\
     visualizer_timers (gui p) = 0 /\
     ~ In Session.Timer evs) /\
  (exists p,
     Session.run [Session.Toggle;
                  Session.Toggle_during_record 0 (start_ok (F64.of_Z 10))]
       (Gui.WhisperGUI.__init__ engine_hello icons_loaded) = Some p /\
     is_recording (recorder p) = true /\
     visualizer_timers (gui p) = 1 /\
     bars (gui p) = repeat (Some (2%Z, ff8888)) 40).
Proof.
  split.
  - assert (G : forall evs q p,
              existsb is_toggle_during_record evs = false ->
              visualizer_of q = (repeat None 40, 0) ->
              Session.run evs q = Some p ->
              visualizer_of p = (repeat None 40, 0) /\ ~ In Session.Timer evs).
    { induction evs as [|ev evs IH]; intros q p Hevs Hq E.
      - injection E as <-. split; [exact Hq|intros []].
      - cbn [Session.run] in E. cbn [existsb] in Hevs.
        apply orb_false_iff in Hevs as [Hev Hevs].
        destruct (Session.step ev q) as [q1|] eqn:E1; [|discriminate].
        assert (H0 : visualizer_timers (gui q) = 0).
        { unfold visualizer_of in Hq. congruence. }
        destruct (step_keeps_visualizer _ _ Hev H0 E1) as [Hne Hv].
        destruct (IH q1 p Hevs) as [Hp Hn]; [congruence|exact E|].
        split; [exact Hp|]. intros [H|H]; [congruence|contradiction]. }
    intros engine ic evs p Hevs E.
    destruct (G evs (Gui.WhisperGUI.__init__ engine ic) p Hevs eq_refl E) as [Hv Hn].
    unfold visualizer_of in Hv. injection Hv as Hb Ht. auto.
  - eexists. split; [vm_compute; reflexivity|]. repeat split.
Qed.

Lemma visualizer_starts_only_during_record_witness :
  let p := process_recording_hello in
  bars (gui p) = repeat None 40 /\
  visualizer_timers (gui p) = 0 /\
  ~ In Session.Timer [Session.Toggle;
                      Session.Run_record 0 (start_ok (F64.of_Z 10));
                      Session.Audio_block 1 callback_ok (mono [F32.of_Z 1]) []].
Proof.
  intros p.
  apply (proj1 visualizer_starts_only_during_record engine_hello icons_loaded _ p).
  - reflexivity.
  - evaluate. reflexivity.
Defined.

(** *** The stream of the recorder *)

Section Maintains.

Variable I : Process -> Prop.

Lemma maintains_bind {A B} (c : Py A) (k : A -> Py B) :
  maintains I c -> (forall a, maintains I (k a)) -> maintains I (bind c k).
Proof.
  intros Hc Hk p Hp. unfold bind. specialize (Hc p Hp).
  destruct (c p) as [[a|e] p']; cbn [snd] in *.
  - apply Hk. exact Hc.
  - exact Hc.
Qed.

Lemma maintains_try_except {A} (body : Py A) (handler : exn -> Py A) :
  maintains I body -> (forall e, maintains I (handler e)) ->
  maintains I (try_except body handler).
Proof.
  intros Hb Hh p Hp. unfold try_except. specialize (Hb p Hp).
  destruct (body p) as [[a|e] p']; cbn [snd] in *.
  - exact Hb.
  - apply Hh. exact Hb.
Qed.

Lemma preserves_maintains {X A} (f : Process -> X) (c : Py A) :
  (forall p q, f p = f q -> I p -> I q) ->
  preserves f c -> maintains I c.
Proof.
  intros Hf Hc p Hp. apply (Hf p); [|exact Hp]. symmetry. apply Hc.
Qed.

End Maintains.

Lemma stream_is_set_depends (p q : Process) :
  stream_state p = stream_state q -> stream_is_set p -> stream_is_set q.
Proof.
  unfold stream_state, stream_is_set. intros E H Hq.
  injection E as E1 E2 E3. rewrite <- E1 in Hq.
  destruct (H Hq) as (id & Hs & Hl). exists id. split; congruence.
Qed.

Lemma start_recording_sets_stream (env : StartEnv) :
  maintains stream_is_set (Gui.WhisperRecorder.start_recording env).
Proof.
  intros p H. unfold stream_is_set in *. py_recorder.
  destruct (test_open_fault env) as [e1|]; cbn; [exact H|].
  destruct (test_close_fault env) as [e2|]; cbn.
  { intros Hr. destruct (H Hr) as (id & Hs & Hl). exists id.
    rewrite length_app. cbn. split; [exact Hs|lia]. }
  destruct (open_fault env) as [e3|]; cbn.
  { intros Hr. destruct (H Hr) as (id & Hs & Hl). exists id.
    rewrite length_update_nth, length_app. cbn. split; [exact Hs|lia]. }
  destruct (start_fault env) as [e4|]; cbn; intros _;
    eexists; (split; [reflexivity|]);
    rewrite ?length_update_nth, !length_app, ?length_update_nth, ?length_app; cbn; lia.
Qed.

Lemma stop_recording_keeps_stream (env : StopEnv) :
  maintains stream_is_set (Gui.WhisperRecorder.stop_recording env).
Proof.
  intros p H. unfold stream_is_set in *. py_recorder.
  destruct (is_recording (recorder p)) eqn:Hr; cbn; [|rewrite Hr; discriminate].
  destruct (H eq_refl) as (id & Hs & Hl). rewrite Hs.
  destruct (stop_fault env) as [e1|]; cbn.
  { rewrite Hr. intros _. exists id. auto. }
  rewrite Hs. destruct (close_fault env) as [e2|]; cbn.
  { rewrite Hr. intros _. exists id. rewrite length_update_nth. auto. }
  destruct (BUFFER (recorder p)) as [|b bs]; cbn; [discriminate|].
  destruct (forallb (fun b0 => Nat.eqb (ncols b0) (ncols b)) bs); cbn;
    [destruct (concatenate_fault env); cbn|]; discriminate.
Qed.

Lemma record_keeps_stream (env : StartEnv) :
  maintains stream_is_set (Gui.WhisperGUI._record env).
Proof.
  unfold Gui.WhisperGUI._record.
  apply maintains_try_except; [apply start_recording_sets_stream|].
  intros e. apply preserves_maintains with (f := stream_state);
    [apply stream_is_set_depends|]. frame.
Qed.

Lemma stop_phase_keeps_stream (env : StopEnv) :
  maintains stream_is_set (Session.stop_phase env).
Proof.
  unfold Session.stop_phase.
  apply maintains_try_except.
  - apply maintains_bind; [apply stop_recording_keeps_stream|].
    intros a. apply preserves_maintains with (f := stream_state);
      [apply stream_is_set_depends|]. frame.
  - intros e. apply preserves_maintains with (f := stream_state);
      [apply stream_is_set_depends|]. frame.
Qed.

Lemma toggle_keeps_stream_state : preserves stream_state Gui.WhisperGUI.toggle_recording.
Proof. frame. Qed.

Lemma transcribe_phase_keeps_stream_state (env : ClipEnv) (a : Waveform) :
  preserves stream_state (Session.transcribe_phase env a).
Proof. frame. Qed.

Lemma callback_keeps_stream_state (env : CallbackEnv) (indata : ndarray)
    (frames : nat) (time : float64) (status : CallbackFlags) :
  preserves stream_state (Gui.WhisperRecorder.callback env indata frames time status).
Proof. frame. Qed.

Lemma update_visualizer_keeps_stream_state :
  preserves stream_state Gui.WhisperGUI.update_visualizer.
Proof. frame. Qed.

Lemma window_start_keeps_stream_state :
  preserves stream_state Gui.WhisperGUI.start_recording.
Proof. frame. Qed.

Lemma window_stop_keeps_stream_state :
  preserves stream_state Gui.WhisperGUI.stop_recording.
Proof. frame. Qed.

Lemma step_keeps_stream (ev : Session.Event) (p p' : Process) :
  stream_is_set p -> Session.step ev p = Some p' -> stream_is_set p'.
Proof.
  intros H.
  destruct ev as [|i env|i env|i env|i env|id env indata status|]; unfold Session.step.
  - intros E. injection E as <-.
    apply (stream_is_set_depends (p := p)); [|exact H].
    symmetry. apply toggle_keeps_stream_state.
  - destruct (nth_error (threads p) i) as [[| |a]|]; try discriminate.
    assert (K : stream_is_set
                  (snd (Gui.WhisperGUI._record env (with_threads (Session.remove_nth i) p)))).
    { apply record_keeps_stream.
      apply (stream_is_set_depends (p := p)); [reflexivity|exact H]. }
    destruct (negb (is_recording (recorder p))); intros E; injection E as <-;
      (eapply stream_is_set_depends; [|exact K]); symmetry;
      [apply window_start_keeps_stream_state|apply window_stop_keeps_stream_state].
  - destruct (nth_error (threads p) i) as [[| |a]|]; try discriminate.
    intros E. injection E as <-. apply record_keeps_stream.
    apply (stream_is_set_depends (p := p)); [reflexivity|exact H].
  - destruct (nth_error (threads p) i) as [[| |a]|]; try discriminate.
    pose proof (stop_phase_keeps_stream env) as K.
    unfold maintains in K. specialize (K p H).
    destruct (Session.stop_phase env p) as [[[a|]|e] p1]; cbn [snd] in K;
      intros E; injection E as <-;
      (apply (stream_is_set_depends (p := p1)); [reflexivity|exact K]).
  - destruct (nth_error (threads p) i) as [[| |a]|]; try discriminate.
    intros E. injection E as <-.
    apply (stream_is_set_depends (p := p)); [|exact H].
    rewrite transcribe_phase_keeps_stream_state. reflexivity.
  - destruct (nth_error (streams p) id) as [s|]; [|discriminate].
    destruct (active s && has_callback s); [|discriminate].
    intros E. injection E as <-.
    apply (stream_is_set_depends (p := p)); [|exact H].
    symmetry. apply callback_keeps_stream_state.
  - destruct (visualizer_timers (gui p)) as [|n]; [discriminate|].
    intros E. injection E as <-.
    apply (stream_is_set_depends (p := p)); [|exact H].
    rewrite update_visualizer_keeps_stream_state. reflexivity.
Qed.

(** X14.  Whatever the user, the threads and the audio host do from the
    start of the program on, also when the host fails: while [is_recording]
    is true, [self.stream] refers to a stream object.  So [stop_recording]
    never fails for want of a stream, and with a host that works it stops
    the recorder. *)
Theorem recording_has_a_stream (engine : Engine)
    (ic : list (string * option Photo)) (evs : list Session.Event) (p : Process) :
  Session.run evs (Gui.WhisperGUI.__init__ engine ic) = Some p ->
  is_recording (recorder p) = true ->
  (exists id, stream (recorder p) = Some id /\ id < length (streams p)) /\
  (forall now, exists r p',
     Gui.WhisperRecorder.stop_recording (stop_ok now) p = (Ok r, p') /\
     is_recording (recorder p') = false).
Proof.
  assert (G : forall evs q p, stream_is_set q -> Session.run evs q = Some p ->
                              stream_is_set p).
  { clear. induction evs as [|ev evs IH]; intros q p Hq E.
    - injection E as <-. exact Hq.
    - cbn [Session.run] in E.
      destruct (Session.step ev q) as [q1|] eqn:E1; [|discriminate].
      apply (IH q1); [|exact E]. exact (step_keeps_stream _ Hq E1). }
  intros E Hr.
  assert (H : stream_is_set p).
  { apply (G evs (Gui.WhisperGUI.__init__ engine ic)); [|exact E].
    intros H0. discriminate H0. }
  destruct (H Hr) as (id & Hs & Hl).
  split; [exists id; auto|].
  intros now. apply gui_stop_ok_stops with (id := id); assumption.
Qed.

Lemma recording_has_a_stream_witness :
  let p := process_recording_hello in
  (exists id, stream (recorder p) = Some id /\ id < length (streams p)) /\
  (forall now, exists r p',
     Gui.WhisperRecorder.stop_recording (stop_ok now) p = (Ok r, p') /\
     is_recording (recorder p') = false).
Proof.
  intros p.
  apply (@recording_has_a_stream engine_hello icons_loaded
           [Session.Toggle;
            Session.Run_record 0 (start_ok (F64.of_Z 10));
            Session.Audio_block 1 callback_ok (mono [F32.of_Z 1]) []] p).
  - evaluate. reflexivity.
  - evaluate. reflexivity.
Defined.

(** ** Failures in whisper_cli.py *)



(** ** The label after a start that failed *)

Lemma cli_start_recording_fails (env : StartEnv) (p : Process) :
  open_fault env <> None \/ start_fault env <> None ->
  exists e p',
    Cli.WhisperRecorder.start_recording env p = (Raise e, p') /\
    is_recording (recorder p') = is_recording (recorder p) /\
    gui p' = gui p /\ threads p' = threads p.
Proof.
  intros H. py_recorder.
  destruct (open_fault env) as [e3|] eqn:E3.
  { cbn. exists e3. eexists. split; [reflexivity|]. cbn. auto. }
  destruct (start_fault env) as [e4|] eqn:E4.
  { cbn. exists e4. eexists. split; [reflexivity|]. cbn. auto. }
  destruct H as [H|H]; congruence.
Qed.

(** X16.  A toggle on an idle recorder sets the label to "Recording..."
    before the thread has tried to start the recorder; when the start then
    fails, [_record] restores the image of the button and shows the error,
    and leaves the label alone.  In both files the window then says
    "Recording..." over a recorder that is not recording, and in
    [whisper_gui.py] the visualizer stays packed. *)
Theorem failed_start_leaves_recording_label (v : option Photo) (env : StartEnv)
    (p : Process) :
  is_recording (recorder p) = false ->
  Gui.dict_get (icons (gui p)) "mic" = Some v ->
  open_fault env <> None \/ start_fault env <> None ->
  (let p1 := snd (Gui.WhisperGUI.toggle_recording p) in
   let p2 := snd (Gui.WhisperGUI._record env p1) in
   status_label (gui p2) = "Recording..." /\
   visualizer_packed (gui p2) = true /\
   is_recording (recorder p2) = false) /\
  (let p1 := snd (CliWindow.WhisperGUI.toggle_recording p) in
   let p2 := snd (CliWindow.WhisperGUI._record env p1) in
   status_label (gui p2) = "Recording..." /\
   is_recording (recorder p2) = false).
Proof.
  intros H1 H2 H3. split.
  - assert (E : exists p1, Gui.WhisperGUI.toggle_recording p = (Ok tt, p1) /\
                           status_label (gui p1) = "Recording..." /\
                           visualizer_packed (gui p1) = true /\
                           is_recording (recorder p1) = false /\
                           icons (gui p1) = icons (gui p)).
    { py_gui. rewrite H1. cbn. rewrite H2.
      destruct v as [ph|]; cbn; rewrite H1; cbn; eexists; repeat split; exact H1. }
    destruct E as (p1 & E1 & L1 & V1 & R1 & I1). rewrite E1. cbn [snd].
    assert (F : start_fails env) by (unfold start_fails; tauto).
    destruct (@gui_start_recording_fails env p1 F)
      as (e & q & new & E & Rq & _ & _ & _ & _ & _ & _ & Gq & _).
    unfold Gui.WhisperGUI._record, try_except. rewrite E.
    py_gui. cbn. rewrite Gq.
    destruct (Gui.dict_get (icons (gui p1)) "record") as [[ph|]|]; cbn;
      rewrite ?Gq; cbn; rewrite ?Rq; auto.
  - assert (E : exists p1, CliWindow.WhisperGUI.toggle_recording p = (Ok tt, p1) /\
                           status_label (gui p1) = "Recording..." /\
                           is_recording (recorder p1) = false).
    { unfold CliWindow.WhisperGUI.toggle_recording, CliWindow.WhisperGUI.start_recording.
      py_gui. rewrite H1. cbn. rewrite H2.
      destruct v as [ph|]; cbn; eexists; repeat split; exact H1. }
    destruct E as (p1 & E1 & L1 & R1). rewrite E1. cbn [snd].
    destruct (@cli_start_recording_fails env p1 H3) as (e & q & E & Rq & Gq & _).
    unfold CliWindow.WhisperGUI._record, try_except. rewrite E.
    py_gui. cbn. rewrite Gq.
    destruct (Gui.dict_get (icons (gui p1)) "record") as [[ph|]|]; cbn;
      rewrite ?Gq; cbn; rewrite ?Rq; auto.
Qed.

Lemma failed_start_leaves_recording_label_witness :
  let p := Gui.WhisperGUI.__init__ engine_hello icons_loaded in
  let env := {| test_open_fault := None; test_close_fault := None;
                open_fault := Some "Error opening InputStream: Device unavailable";
                start_fault := None; start_now := F64.of_Z 10 |} in
  (let p1 := snd (Gui.WhisperGUI.toggle_recording p) in
   let p2 := snd (Gui.WhisperGUI._record env p1) in
   status_label (gui p2) = "Recording..." /\
   visualizer_packed (gui p2) = true /\
   is_recording (recorder p2) = false) /\
  (let p1 := snd (CliWindow.WhisperGUI.toggle_recording p) in
   let p2 := snd (CliWindow.WhisperGUI._record env p1) in
   status_label (gui p2) = "Recording..." /\
   is_recording (recorder p2) = false).
Proof.
  intros p env.
  apply (@failed_start_leaves_recording_label (Some (PhotoImage "icons/mic.ico")) env p).
  - reflexivity.
  - reflexivity.
  - left. discriminate.
Defined.

(** ** Between the toggle and the worker *)

(** X25.  A toggle on a recording recorder only asks for the stop: it
    starts the worker, sets the label to "Generating text..." and hides the
    visualizer, and leaves the recorder and its stream as they are.  Until
    the worker runs the stream goes on delivering, and a block that arrives
    then is appended to [BUFFER] like any other. *)
Theorem toggle_while_recording_requests_stop (v : option Photo) (id : nat)
    (s : InputStream) (indata : ndarray) (status : CallbackFlags) (p : Process) :
  is_recording (recorder p) = true ->
  Gui.dict_get (icons (gui p)) "record" = Some v ->
  nth_error (streams p) id = Some s ->
  active s = true -> has_callback s = true ->
  exists p1 p2,
    Session.step Session.Toggle p = Some p1 /\
    threads p1 = threads p ++ [Th_stop_and_transcribe] /\
    status_label (gui p1) = "Generating text..." /\
    visualizer_packed (gui p1) = false /\
    recorder p1 = recorder p /\ streams p1 = streams p /\
    Session.step (Session.Audio_block id callback_ok indata status) p1 = Some p2 /\
    BUFFER (recorder p2) = BUFFER (recorder p) ++ [indata] /\
    is_recording (recorder p2) = true.
Proof.
  intros H1 H2 H3 H4 H5.
  assert (E : exists p1,
             Session.step Session.Toggle p = Some p1 /\
             threads p1 = threads p ++ [Th_stop_and_transcribe] /\
             status_label (gui p1) = "Generating text..." /\
             visualizer_packed (gui p1) = false /\
             recorder p1 = recorder p /\ streams p1 = streams p).
  { unfold Session.step. py_gui. rewrite H1. cbn. rewrite H2.
    destruct v as [ph|]; cbn; eexists; repeat split. }
  destruct E as (p1 & E1 & T1 & L1 & V1 & R1 & S1).
  destruct (gui_callback_ok indata (length (rows indata)) (S754_zero false) status p1)
    as (p2 & E2 & B2 & I2 & _).
  exists p1, p2. repeat split; try assumption.
  - unfold Session.step. rewrite S1, H3, H4, H5. cbn. rewrite E2. reflexivity.
  - rewrite B2, R1. reflexivity.
  - rewrite I2, R1. exact H1.
Qed.

Lemma toggle_while_recording_requests_stop_witness :
  let p := process_recording_hello in
  let s := {| blocksize := 1024; has_callback := true; active := true; closed := false |} in
  exists p1 p2,
    Session.step Session.Toggle p = Some p1 /\
    threads p1 = threads p ++ [Th_stop_and_transcribe] /\
    status_label (gui p1) = "Generating text..." /\
    visualizer_packed (gui p1) = false /\
    recorder p1 = recorder p /\ streams p1 = streams p /\
    Session.step (Session.Audio_block 1 callback_ok (mono [F32.of_Z 2]) []) p1 = Some p2 /\
    BUFFER (recorder p2) = BUFFER (recorder p) ++ [mono [F32.of_Z 2]] /\
    is_recording (recorder p2) = true.
Proof.
  intros p s.
  apply (@toggle_while_recording_requests_stop
           (Some (PhotoImage "icons/record.ico")) 1 s (mono [F32.of_Z 2]) [] p).
  - evaluate. reflexivity.
  - evaluate. reflexivity.
  - evaluate. reflexivity.
  - reflexivity.
  - reflexivity.
Defined.

(** ** Calls of the engine *)

Lemma remove_nth_split {A} (l1 l2 : list A) (x : A) :
  Session.remove_nth (length l1) (l1 ++ x :: l2) = l1 ++ l2.
Proof.
  unfold Session.remove_nth.
  rewrite firstn_app, Nat.sub_diag, firstn_all, firstn_0, app_nil_r.
  rewrite skipn_app, skipn_all2 by lia.
  replace (S (length l1) - length l1) with 1 by lia. reflexivity.
Qed.

Lemma update_nth_split {A} (f : A -> A) (l1 l2 : list A) (x : A) :
  update_nth (length l1) f (l1 ++ x :: l2) = l1 ++ f x :: l2.
Proof.
  unfold update_nth. rewrite nth_error_app2, Nat.sub_diag by lia. cbn [nth_error].
  rewrite firstn_app, Nat.sub_diag, firstn_all, firstn_0, app_nil_r.
  rewrite skipn_app, skipn_all2 by lia.
  replace (S (length l1) - length l1) with 1 by lia. reflexivity.
Qed.

Lemma waiting_app (l1 l2 : list Thread) :
  waiting (l1 ++ l2) = waiting l1 + waiting l2.
Proof. unfold waiting. rewrite filter_app, length_app. reflexivity. Qed.

Lemma waiting_cons (t : Thread) (l : list Thread) :
  waiting (t :: l) = (if Session.is_transcribing t then 1 else 0) + waiting l.
Proof. unfold waiting. cbn [filter]. destruct (Session.is_transcribing t); reflexivity. Qed.

Lemma waiting_remove_nth (i : nat) (t : Thread) (l : list Thread) :
  nth_error l i = Some t ->
  waiting l = waiting (Session.remove_nth i l)
              + (if Session.is_transcribing t then 1 else 0).
Proof.
  intros H. apply nth_error_split in H as (l1 & l2 & -> & <-).
  rewrite remove_nth_split, !waiting_app, waiting_cons. lia.
Qed.

Lemma waiting_update_nth (i : nat) (t t' : Thread) (l : list Thread) :
  nth_error l i = Some t ->
  waiting (update_nth i (fun _ => t') l) + (if Session.is_transcribing t then 1 else 0)
  = waiting l + (if Session.is_transcribing t' then 1 else 0).
Proof.
  intros H. apply nth_error_split in H as (l1 & l2 & -> & <-).
  rewrite update_nth_split, !waiting_app, !waiting_cons. lia.
Qed.

(** A thread that is started is not waiting for the engine. *)
Lemma thread_start_keeps_waiting (t : Thread) :
  Session.is_transcribing t = false ->
  preserves workers_waiting (Gui.WhisperGUI.Thread_start t).
Proof.
  intros H p. unfold workers_waiting, Gui.WhisperGUI.Thread_start, modify.
  cbn -[waiting]. rewrite waiting_app, waiting_cons, H. cbn. lia.
Qed.

Lemma update_visualizer_keeps_waiting :
  preserves workers_waiting Gui.WhisperGUI.update_visualizer.
Proof. frame. Qed.

Lemma window_start_keeps_waiting :
  preserves workers_waiting Gui.WhisperGUI.start_recording.
Proof.
  unfold Gui.WhisperGUI.start_recording, Gui.WhisperGUI.icons_getitem,
    Gui.WhisperGUI.record_button_configure.
  repeat first
    [ apply update_visualizer_keeps_waiting
    | apply thread_start_keeps_waiting; reflexivity
    | progress frame_steps ].
Qed.

Lemma window_stop_keeps_waiting :
  preserves workers_waiting Gui.WhisperGUI.stop_recording.
Proof.
  unfold Gui.WhisperGUI.stop_recording, Gui.WhisperGUI.icons_getitem,
    Gui.WhisperGUI.record_button_configure.
  repeat first
    [ apply thread_start_keeps_waiting; reflexivity
    | progress frame_steps ].
Qed.

Lemma toggle_keeps_waiting : preserves workers_waiting Gui.WhisperGUI.toggle_recording.
Proof.
  unfold Gui.WhisperGUI.toggle_recording.
  apply preserves_bind; [apply preserves_get|]. intros p.
  destruct (negb (is_recording (recorder p)));
    [apply window_start_keeps_waiting|apply window_stop_keeps_waiting].
Qed.

Lemma toggle_keeps_engine : preserves engine_state Gui.WhisperGUI.toggle_recording.
Proof. frame. Qed.

Lemma window_start_keeps_engine : preserves engine_state Gui.WhisperGUI.start_recording.
Proof. frame. Qed.

Lemma window_stop_keeps_engine : preserves engine_state Gui.WhisperGUI.stop_recording.
Proof. frame. Qed.

Lemma record_keeps_engine (env : StartEnv) :
  preserves engine_state (Gui.WhisperGUI._record env).
Proof. frame. Qed.

Lemma record_keeps_threads (env : StartEnv) :
  preserves threads (Gui.WhisperGUI._record env).
Proof. frame. Qed.

Lemma callback_keeps_engine (env : CallbackEnv) (indata : ndarray)
    (frames : nat) (time : float64) (status : CallbackFlags) :
  preserves engine_state (Gui.WhisperRecorder.callback env indata frames time status).
Proof. frame. Qed.

Lemma callback_keeps_threads (env : CallbackEnv) (indata : ndarray)
    (frames : nat) (time : float64) (status : CallbackFlags) :
  preserves threads (Gui.WhisperRecorder.callback env indata frames time status).
Proof. frame. Qed.

Lemma update_visualizer_keeps_engine :
  preserves engine_state Gui.WhisperGUI.update_visualizer.
Proof. frame. Qed.

Lemma update_visualizer_keeps_threads :
  preserves threads Gui.WhisperGUI.update_visualizer.
Proof. frame. Qed.

Lemma transcribe_phase_keeps_engine (env : ClipEnv) (a : Waveform) :
  preserves engine_state (Session.transcribe_phase env a).
Proof. frame. Qed.

Lemma transcribe_phase_keeps_threads (env : ClipEnv) (a : Waveform) :
  preserves threads (Session.transcribe_phase env a).
Proof. frame. Qed.

Lemma stop_phase_keeps_threads (env : StopEnv) :
  preserves threads (Session.stop_phase env).
Proof. frame. Qed.

Lemma recorder_stop_keeps_engine (env : StopEnv) :
  preserves engine_state (Gui.WhisperRecorder.stop_recording env).
Proof. frame. Qed.

(** The first part of the worker calls the engine when it has a waveform,
    and only then. *)
Lemma stop_phase_calls_engine (env : StopEnv) (engine : Engine) (p : Process) :
  model (recorder p) = Some engine ->
  engine_state (snd (Session.stop_phase env p))
  = (engine_calls p ++ match fst (Session.stop_phase env p) with
                       | Ok (Some a) => [a]
                       | _ => []
                       end,
     Some engine).
Proof.
  intros Hm. pose proof (recorder_stop_keeps_engine env p) as K.
  unfold Session.stop_phase, try_except, bind.
  destruct (Gui.WhisperRecorder.stop_recording env p) as [[[a|]|e] p1]; cbn [snd] in K;
    unfold engine_state in *; injection K as K1 K2.
  - unfold Session.call_engine, bind, logger, modify, get, ret. cbn.
    rewrite K2, Hm. cbn. rewrite K1, K2, Hm. reflexivity.
  - unfold Gui.WhisperGUI.text_box_replace, bind, logger, modify, ret. cbn.
    rewrite K1, K2, Hm, app_nil_r. reflexivity.
  - unfold Session.transcription_error, Gui.WhisperGUI.after_showerror,
      Gui.WhisperGUI.text_box_replace, bind, logger, modify, ret. cbn.
    rewrite K1, K2, Hm, app_nil_r. reflexivity.
Qed.

Lemma step_counts_engine_calls (ev : Session.Event) (engine : Engine) (p p' : Process) :
  model (recorder p) = Some engine ->
  Session.step ev p = Some p' ->
  model (recorder p') = Some engine /\
  length (engine_calls p') + workers_waiting p
  = length (engine_calls p) + workers_waiting p'
    + (if is_engine_done ev then 1 else 0).
Proof.
  intros Hm.
  assert (K : forall q p0 : Process,
            engine_state q = engine_state p0 ->
            engine_state p0 = engine_state p ->
            model (recorder q) = Some engine /\
            length (engine_calls q) = length (engine_calls p)).
  { intros q p0 Hq H0. rewrite H0 in Hq. unfold engine_state in Hq.
    injection Hq as -> ->. auto. }
  destruct ev as [|i env|i env|i env|i env|id env indata status|];
    unfold Session.step; cbn [is_engine_done].
  - intros E. injection E as <-.
    destruct (K _ p (toggle_keeps_engine p) eq_refl) as [K1 K2].
    rewrite K2, toggle_keeps_waiting. auto with arith.
  - destruct (nth_error (threads p) i) as [[| |a]|] eqn:Et; try discriminate.
    pose proof (waiting_remove_nth _ _ Et) as W. cbn -[waiting] in W.
    set (p0 := with_threads (Session.remove_nth i) p) in *.
    pose proof (record_keeps_engine env p0) as R1.
    pose proof (record_keeps_threads env p0) as R2.
    destruct (negb (is_recording (recorder p))); intros E; injection E as <-.
    + destruct (K _ _ (window_start_keeps_engine _) R1) as [K1 K2].
      rewrite K2, window_start_keeps_waiting. unfold workers_waiting. rewrite R2.
      subst p0. cbn -[waiting]. split; [exact K1|lia].
    + destruct (K _ _ (window_stop_keeps_engine _) R1) as [K1 K2].
      rewrite K2, window_stop_keeps_waiting. unfold workers_waiting. rewrite R2.
      subst p0. cbn -[waiting]. split; [exact K1|lia].
  - destruct (nth_error (threads p) i) as [[| |a]|] eqn:Et; try discriminate.
    pose proof (waiting_remove_nth _ _ Et) as W. cbn -[waiting] in W.
    set (p0 := with_threads (Session.remove_nth i) p) in *.
    intros E. injection E as <-.
    destruct (K _ p0 (record_keeps_engine env p0) eq_refl) as [K1 K2].
    rewrite K2. unfold workers_waiting. rewrite record_keeps_threads.
    subst p0. cbn -[waiting]. split; [exact K1|lia].
  - destruct (nth_error (threads p) i) as [[| |a]|] eqn:Et; try discriminate.
    pose proof (@stop_phase_calls_engine env engine p Hm) as S.
    pose proof (stop_phase_keeps_threads env p) as T.
    pose proof (waiting_remove_nth _ _ Et) as W. cbn -[waiting] in W.
    pose proof (waiting_update_nth) as U.
    destruct (Session.stop_phase env p) as [[[a|]|e] p1]; cbn [fst snd] in S, T;
      unfold engine_state in S; injection S as S1 S2;
      intros E; injection E as <-; unfold workers_waiting;
      cbn [recorder engine_calls threads with_threads];
      (split; [exact S2|]); rewrite S1, T, ?length_app, ?app_nil_r; cbn [length].
    + specialize (U i _ (Th_transcribing a) _ Et). cbn -[waiting] in U. lia.
    + lia.
    + lia.
  - destruct (nth_error (threads p) i) as [[| |a]|] eqn:Et; try discriminate.
    pose proof (waiting_remove_nth _ _ Et) as W. cbn -[waiting] in W.
    set (p0 := with_threads (Session.remove_nth i) p) in *.
    intros E. injection E as <-.
    destruct (K _ p0 (transcribe_phase_keeps_engine env a p0) eq_refl) as [K1 K2].
    rewrite K2. unfold workers_waiting. rewrite transcribe_phase_keeps_threads.
    subst p0. cbn -[waiting]. split; [exact K1|lia].
  - destruct (nth_error (streams p) id) as [s|]; [|discriminate].
    destruct (active s && has_callback s); [|discriminate].
    intros E. injection E as <-.
    destruct (K _ p (callback_keeps_engine env indata (length (rows indata))
                       (S754_zero false) status p) eq_refl) as [K1 K2].
    rewrite K2. unfold workers_waiting. rewrite callback_keeps_threads.
    split; [exact K1|lia].
  - destruct (visualizer_timers (gui p)) as [|n]; [discriminate|].
    intros E. injection E as <-.
    set (p0 := with_gui (Gui.set_visualizer_timers n) p).
    destruct (K _ p0 (update_visualizer_keeps_engine p0) eq_refl) as [K1 K2].
    rewrite K2. unfold workers_waiting. rewrite update_visualizer_keeps_threads.
    split; [exact K1|subst p0; cbn -[waiting]; lia].
Qed.

(** X26.  The engine is called by the workers and by nothing else, once
    by each worker that has a waveform, at the moment it starts to
    transcribe.  Whatever happens from the start of the program on, the
    number of calls of the engine is the number of workers that have got
    their answer plus the number of workers that wait for it, and the
    model is the one that was loaded. *)
Theorem engine_called_once_per_transcription (engine : Engine)
    (ic : list (string * option Photo)) (evs : list Session.Event) (p : Process) :
  Session.run evs (Gui.WhisperGUI.__init__ engine ic) = Some p ->
  length (engine_calls p)
  = length (filter is_engine_done evs) + workers_waiting p /\
  model (recorder p) = Some engine.
Proof.
  assert (G : forall evs q p,
            model (recorder q) = Some engine ->
            Session.run evs q = Some p ->
            length (engine_calls p) + workers_waiting q
            = length (engine_calls q) + length (filter is_engine_done evs)
              + workers_waiting p /\
            model (recorder p) = Some engine).
  { clear. induction evs as [|ev evs IH]; intros q p Hq E.
    - injection E as <-. cbn. split; [lia|exact Hq].
    - cbn [Session.run] in E.
      destruct (Session.step ev q) as [q1|] eqn:E1; [|discriminate].
      destruct (@step_counts_engine_calls ev engine q q1 Hq E1) as [Hm Hl].
      destruct (IH q1 p Hm E) as [H1 H2]. split; [|exact H2].
      cbn [filter]. destruct (is_engine_done ev); cbn [length]; lia. }
  intros E. destruct (G evs (Gui.WhisperGUI.__init__ engine ic) p eq_refl E) as [H1 H2].
  split; [|exact H2]. cbn in H1. lia.
Qed.

Lemma engine_called_once_per_transcription_witness :
  let p := process_while_transcribing in
  let p' := process_after_transcription in
  (length (engine_calls p) = 0 + 1 /\ workers_waiting p = 1) /\
  (length (engine_calls p') = 1 + 0 /\ workers_waiting p' = 0).
Proof.
  intros p p'. split.
  - destruct (@engine_called_once_per_transcription engine_hello icons_loaded
                until_transcribing p) as [H _].
    + evaluate. reflexivity.
    + split; [exact H|reflexivity].
  - destruct (@engine_called_once_per_transcription engine_hello icons_loaded
                (until_transcribing ++ [Session.Engine_done 0 clip_ok]) p') as [H _].
    + evaluate. reflexivity.
    + split; [exact H|reflexivity].
Defined.

(** ** Icons on the disk *)

(** Unfolds the functions of the host and the monad under them. *)
Ltac io :=
  unfold Host.load_icons, CliWindow.load_icons, Host.get_icon_path,
    Host.create_mic_icon, Host.load_model, Host.cli_load_model,
    Host.load_photo, Host.makedirs, Host.save, Host.resize,
    Host.set_WHISPER_ASSETS, Host.io_log, Host.io_call, Host.io_lift,
    Host.io_try, Host.io_bind, Host.io_ret, Host.io_raise, Host.io_get.

Lemma path_exists_cons (h h' : Host.Host) (d q : string) :
  Host.paths h' = d :: Host.paths h ->
  Host.path_exists h q = true ->
  Host.path_exists h' q = true.
Proof.
  unfold Host.path_exists. intros -> H. cbn. rewrite H. apply orb_true_r.
Qed.

Lemma path_exists_head (h' : Host.Host) (d : string) (ps : list string) :
  Host.paths h' = d :: ps ->
  Host.path_exists h' d = true.
Proof.
  unfold Host.path_exists. intros ->. cbn. rewrite String.eqb_refl. reflexivity.
Qed.

Lemma path_exists_same_paths (h h' : Host.Host) (q : string) :
  Host.paths h' = Host.paths h -> Host.path_exists h' q = Host.path_exists h q.
Proof. unfold Host.path_exists. intros ->. reflexivity. Qed.

Section Icon_paths.

Variable join : string -> string -> string.

(** X17.  [get_icon_path], when the directory of the icons is there or can
    be made: it does not raise; afterwards the directory exists and no path
    has gone; the path it returns exists and is the [.ico] or the [.png] of
    the icon, the [.png] only when there is no [.ico]; and it returns [None]
    only when neither exists. *)
Theorem get_icon_path_prefers_ico (env : Host.HostEnv) (icon_name : string)
    (h : Host.Host) :
  let icon_dir := Host.get_resource_path join env "icons" in
  let ico := join icon_dir (icon_name ++ ".ico")%string in
  let png := join icon_dir (icon_name ++ ".png")%string in
  Host.makedirs_fault env = None \/ Host.path_exists h icon_dir = true ->
  exists r h',
    Host.get_icon_path join env icon_name h = (Ok r, h') /\
    Host.path_exists h' icon_dir = true /\
    (forall q, Host.path_exists h q = true -> Host.path_exists h' q = true) /\
    match r with
    | Some q =>
        Host.path_exists h' q = true /\
        (q = ico \/ q = png /\ Host.path_exists h' ico = false)
    | None =>
        Host.path_exists h' ico = false /\ Host.path_exists h' png = false
    end.
Proof.
  intros icon_dir ico png H. io. fold icon_dir. fold ico. fold png.
  destruct (Host.path_exists h icon_dir) eqn:Ed; cbn.
  - destruct (Host.path_exists h ico) eqn:Ei; cbn.
    + eexists. eexists. split; [reflexivity|]. repeat split; auto.
    + destruct (Host.path_exists h png) eqn:Ep; cbn;
        eexists; eexists; (split; [reflexivity|]); repeat split; auto.
  - destruct H as [H|H]; [|discriminate]. rewrite H. cbn -[Host.path_exists].
    match goal with
    | |- context [Host.path_exists ?h1 ico] =>
        assert (Hd : Host.path_exists h1 icon_dir = true)
          by apply (@path_exists_head h1 icon_dir (Host.paths h) eq_refl);
        assert (Hq : forall q, Host.path_exists h q = true ->
                               Host.path_exists h1 q = true)
          by (intros q Hq; apply (@path_exists_cons h h1 icon_dir q eq_refl Hq));
        destruct (Host.path_exists h1 ico) eqn:Ei; cbn -[Host.path_exists];
        [|destruct (Host.path_exists h1 png) eqn:Ep; cbn -[Host.path_exists]]
    end;
      eexists; eexists; (split; [reflexivity|]); repeat split; auto.
Qed.

End Icon_paths.

Lemma get_icon_path_prefers_ico_witness :
  let h := disk ["/app/icons"; "/app/icons/mic.ico"; "/app/icons/mic.png"] in
  exists h',
    Host.get_icon_path join_slash host_env_ok "mic" h = (Ok (Some "/app/icons/mic.ico"), h') /\
    Host.path_exists h' "/app/icons/mic.ico" = true.
Proof.
  intros h.
  destruct (@get_icon_path_prefers_ico join_slash host_env_ok "mic" h)
    as (r & h' & E & _ & _ & Hr).
  - left. reflexivity.
  - exists h'. assert (Er : r = Some "/app/icons/mic.ico").
    { vm_compute in E. injection E as <- _. reflexivity. }
    subst r. split; [exact E|]. apply Hr.
Defined.

(** *** Reasoning on the host *)

Lemma io_post_bind {A B} (c : Host.IO A) (k : A -> Host.IO B) (h : Host.Host)
    (Q : B -> Host.Host -> Prop) (E : exn -> Host.Host -> Prop) :
  io_post c h (fun a h' => io_post (k a) h' Q E) E ->
  io_post (Host.io_bind c k) h Q E.
Proof.
  unfold io_post, Host.io_bind. destruct (c h) as [[a|e] h']; auto.
Qed.

Lemma io_post_try {A} (body : Host.IO A) (handler : exn -> Host.IO A) (h : Host.Host)
    (Q : A -> Host.Host -> Prop) (E : exn -> Host.Host -> Prop) :
  io_post body h Q (fun e h' => io_post (handler e) h' Q E) ->
  io_post (Host.io_try body handler) h Q E.
Proof.
  unfold io_post, Host.io_try. destruct (body h) as [[a|e] h']; auto.
Qed.

Lemma io_post_weaken {A} (c : Host.IO A) (h : Host.Host)
    (Q Q' : A -> Host.Host -> Prop) (E E' : exn -> Host.Host -> Prop) :
  io_post c h Q E ->
  (forall a h', Q a h' -> Q' a h') ->
  (forall e h', E e h' -> E' e h') ->
  io_post c h Q' E'.
Proof.
  unfold io_post. destruct (c h) as [[a|e] h']; auto.
Qed.

Lemma io_post_returns {A} (c : Host.IO A) (h : Host.Host)
    (Q : A -> Host.Host -> Prop) :
  io_post c h Q (fun _ _ => False) ->
  exists a h', c h = (Ok a, h') /\ Q a h'.
Proof.
  unfold io_post. destruct (c h) as [[a|e] h']; [eauto|contradiction].
Qed.

Lemma keeps_paths_refl (h : Host.Host) : keeps_paths h h.
Proof. intros q H. exact H. Qed.

Lemma keeps_paths_trans (h1 h2 h3 : Host.Host) :
  keeps_paths h1 h2 -> keeps_paths h2 h3 -> keeps_paths h1 h3.
Proof. intros H12 H23 q H. apply H23, H12, H. Qed.

Section Load_icons.

Variable join : string -> string -> string.

(** [get_icon_path] raises what [os.makedirs] raises and leaves the host
    alone, or it returns a path that exists, or [None]; no path goes. *)
Lemma get_icon_path_post (env : Host.HostEnv) (icon_name : string) (h : Host.Host) :
  io_post (Host.get_icon_path join env icon_name) h
    (fun r h' =>
       keeps_paths h h' /\
       (forall q, r = Some q ->
          Host.path_exists h' q = true /\
          (q = join (Host.get_resource_path join env "icons") (icon_name ++ ".ico")%string \/
           q = join (Host.get_resource_path join env "icons") (icon_name ++ ".png")%string)) /\
       (r = None ->
        Host.path_exists h' (join (Host.get_resource_path join env "icons")
                                  (icon_name ++ ".ico")%string) = false /\
        Host.path_exists h' (join (Host.get_resource_path join env "icons")
                                  (icon_name ++ ".png")%string) = false /\
        In (Host.Warn_icon_not_found icon_name) (Host.host_log h')) /\
       (Host.path_exists h (Host.get_resource_path join env "icons") = true ->
        Host.paths h' = Host.paths h))
    (fun e h' =>
       h' = h /\
       Host.path_exists h (Host.get_resource_path join env "icons") = false).
Proof.
  unfold io_post. io.
  set (icon_dir := Host.get_resource_path join env "icons").
  set (ico := join icon_dir (icon_name ++ ".ico")%string).
  set (png := join icon_dir (icon_name ++ ".png")%string).
  destruct (Host.path_exists h icon_dir) eqn:Ed; cbn -[Host.path_exists].
  - destruct (Host.path_exists h ico) eqn:Ei; cbn -[Host.path_exists];
      [|destruct (Host.path_exists h png) eqn:Ep; cbn -[Host.path_exists]];
      (split; [intros q Hq; exact Hq|]);
      (split; [intros q Hq; try discriminate; injection Hq as <-; auto|]);
      (split; [intros Hq; try discriminate; repeat split; try assumption;
               apply in_or_app; right; now left|]);
      reflexivity.
  - destruct (Host.makedirs_fault env) as [e|]; cbn -[Host.path_exists];
      [split; reflexivity|].
    match goal with
    | |- context [Host.path_exists ?h1 ico] =>
        assert (Hm : keeps_paths h h1)
          by (intros q Hq; apply (@path_exists_cons h h1 icon_dir q eq_refl Hq));
        destruct (Host.path_exists h1 ico) eqn:Ei; cbn -[Host.path_exists];
        [|destruct (Host.path_exists h1 png) eqn:Ep; cbn -[Host.path_exists]]
    end;
      (split; [exact Hm|]);
      (split; [intros q Hq; try discriminate; injection Hq as <-; auto|]);
      (split; [intros Hq; try discriminate; repeat split; try assumption;
               apply in_or_app; right; now left|]);
      discriminate.
Qed.

(** [get_icon_path] raises what [os.makedirs] raises and leaves the host
    alone, or it returns the file of the icon on the disk. *)
Lemma get_icon_path_finds (env : Host.HostEnv) (icon_name : string) (h : Host.Host) :
  io_post (Host.get_icon_path join env icon_name) h
    (fun r h' =>
       r = icon_on_disk join env h' icon_name /\
       Host.path_exists h' (Host.get_resource_path join env "icons") = true /\
       (Host.paths h' = Host.paths h \/
        Host.paths h' = Host.get_resource_path join env "icons" :: Host.paths h) /\
       (Host.path_exists h (Host.get_resource_path join env "icons") = true ->
        Host.paths h' = Host.paths h))
    (fun e h' =>
       h' = h /\
       Host.path_exists h (Host.get_resource_path join env "icons") = false /\
       Host.makedirs_fault env = Some e).
Proof.
  unfold io_post, icon_on_disk. io.
  set (icon_dir := Host.get_resource_path join env "icons").
  set (ico := join icon_dir (icon_name ++ ".ico")%string).
  set (png := join icon_dir (icon_name ++ ".png")%string).
  destruct (Host.path_exists h icon_dir) eqn:Ed; cbn -[Host.path_exists].
  - destruct (Host.path_exists h ico) eqn:Ei; cbn -[Host.path_exists];
      [|destruct (Host.path_exists h png) eqn:Ep; cbn -[Host.path_exists]];
      repeat split; auto;
      unfold Host.path_exists in *; cbn; rewrite ?Ei, ?Ep; reflexivity.
  - destruct (Host.makedirs_fault env) as [e|]; cbn -[Host.path_exists];
      [repeat split|].
    match goal with
    | |- context [Host.path_exists ?h1 ico] =>
        assert (Hd : Host.path_exists h1 icon_dir = true)
          by apply (@path_exists_head h1 icon_dir (Host.paths h) eq_refl);
        destruct (Host.path_exists h1 ico) eqn:Ei; cbn -[Host.path_exists];
        [|destruct (Host.path_exists h1 png) eqn:Ep; cbn -[Host.path_exists]]
    end;
      repeat split; auto; try discriminate;
      unfold Host.path_exists in *; cbn in *; rewrite ?Ei, ?Ep; reflexivity.
Qed.

Lemma icon_on_disk_same_paths (env : Host.HostEnv) (h h' : Host.Host) (icon_name : string) :
  Host.paths h' = Host.paths h ->
  icon_on_disk join env h' icon_name = icon_on_disk join env h icon_name.
Proof.
  intros P. unfold icon_on_disk. rewrite !(path_exists_same_paths h h' _ P). reflexivity.
Qed.

Lemma icon_used_same_paths (env : Host.HostEnv) (h h' : Host.Host) (icon_name : string) :
  Host.paths h' = Host.paths h ->
  icon_used join env h' icon_name = icon_used join env h icon_name.
Proof.
  intros P. unfold icon_used. rewrite (icon_on_disk_same_paths env h h' _ P). reflexivity.
Qed.

Lemma icon_used_exists (env : Host.HostEnv) (h : Host.Host) (icon_name q : string) :
  icon_used join env h icon_name = Some q -> Host.path_exists h q = true.
Proof.
  unfold icon_used, icon_on_disk.
  destruct (Host.path_exists h (join _ (icon_name ++ ".ico")%string)) eqn:Ei.
  - destruct (Host.truthy _); [|discriminate]. intros E. injection E as <-. exact Ei.
  - destruct (Host.path_exists h (join _ (icon_name ++ ".png")%string)) eqn:Ep.
    + destruct (Host.truthy _); [|discriminate]. intros E. injection E as <-. exact Ep.
    + cbn. discriminate.
Qed.

(** One icon of [load_icons]: an entry for the file that is used, and no
    entry without one; only reading the image can raise. *)
Lemma load_icon_post (env : Host.HostEnv) (icons : list (string * option Photo))
    (k : string) (loaded not_found : Host.HostLog) (r : option string) (h : Host.Host) :
  io_post
    (if Host.truthy r
     then match r with
          | Some path =>
              Host.io_bind (Host.load_photo env path) (fun ph =>
                Host.io_bind (Host.io_log loaded)
                  (fun _ => Host.io_ret (Host.dict_set icons k (Some ph))))
          | None => Host.io_ret icons
          end
     else Host.io_bind (Host.io_log not_found) (fun _ => Host.io_ret icons)) h
    (fun d h' =>
       Host.paths h' = Host.paths h /\
       match (if Host.truthy r then r else None) with
       | Some q => d = Host.dict_set icons k (Some (PhotoImage q)) /\
                   Host.image_fault env q = None
       | None => d = icons
       end)
    (fun e h' =>
       Host.paths h' = Host.paths h /\
       exists q, (if Host.truthy r then r else None) = Some q /\
                 Host.image_fault env q = Some e).
Proof.
  unfold io_post. io. destruct r as [path|]; cbn.
  - destruct (negb (path =? EmptyString)%string); cbn.
    + destruct (Host.image_fault env path) as [e|] eqn:Ef; cbn.
      * split; [reflexivity|]. exists path. auto.
      * auto.
    + auto.
  - auto.
Qed.

(** X18.  [load_icons] never raises and loses no path; the only path it
    can add is the directory of the icons.  When nothing raises, its
    dictionary has an entry for exactly the icons whose file is on the disk
    ([.ico] before [.png]), each an image read from that file: an icon
    that is not found has no entry at all.  Otherwise the dictionary is
    the fallback, both keys with [None], the failure is the last line of
    the log, and it is what [os.makedirs] raised for the missing directory
    or what reading the file of an icon on the disk raised. *)
Theorem load_icons_never_raises (env : Host.HostEnv) (h : Host.Host) :
  let icon_dir := Host.get_resource_path join env "icons" in
  exists d h',
    Host.load_icons join env h = (Ok d, h') /\
    keeps_paths h h' /\
    (Host.paths h' = Host.paths h \/ Host.paths h' = icon_dir :: Host.paths h) /\
    ((d = icon_entry "record" (icon_used join env h' "record")
          ++ icon_entry "mic" (icon_used join env h' "mic") /\
      Host.path_exists h' icon_dir = true /\
      (forall k q, k = "record" \/ k = "mic" ->
         icon_used join env h' k = Some q ->
         Host.path_exists h' q = true /\ Host.image_fault env q = None))
     \/
     (d = icons_fallback /\
      exists e l,
        Host.host_log h' = l ++ [Host.Err_failed_to_load_icons e] /\
        ((Host.path_exists h icon_dir = false /\ Host.makedirs_fault env = Some e /\
          Host.paths h' = Host.paths h) \/
         (exists q, icon_used join env h' "record" = Some q /\
                    Host.image_fault env q = Some e) \/
         (exists q, icon_used join env h' "mic" = Some q /\
                    Host.image_fault env q = Some e /\
                    forall q', icon_used join env h' "record" = Some q' ->
                               Host.image_fault env q' = None)))).
Proof.
  intros icon_dir.
  set (grows := fun h' : Host.Host =>
    Host.paths h' = Host.paths h \/ Host.paths h' = icon_dir :: Host.paths h).
  set (good := fun (d : list (string * option Photo)) (h' : Host.Host) =>
    d = icon_entry "record" (icon_used join env h' "record")
        ++ icon_entry "mic" (icon_used join env h' "mic") /\
    Host.path_exists h' icon_dir = true /\
    (forall k q, k = "record" \/ k = "mic" ->
       icon_used join env h' k = Some q ->
       Host.path_exists h' q = true /\ Host.image_fault env q = None)).
  set (cause := fun (e : exn) (h' : Host.Host) =>
    (Host.path_exists h icon_dir = false /\ Host.makedirs_fault env = Some e /\
     Host.paths h' = Host.paths h) \/
    (exists q, icon_used join env h' "record" = Some q /\
               Host.image_fault env q = Some e) \/
    (exists q, icon_used join env h' "mic" = Some q /\
               Host.image_fault env q = Some e /\
               forall q', icon_used join env h' "record" = Some q' ->
                          Host.image_fault env q' = None)).
  assert (G : forall h', grows h' -> keeps_paths h h').
  { intros h' [P|P] q Hq.
    - rewrite (path_exists_same_paths h h' q P). exact Hq.
    - exact (@path_exists_cons h h' icon_dir q P Hq). }
  assert (C : forall e h1 h2, Host.paths h2 = Host.paths h1 -> cause e h1 -> cause e h2).
  { intros e h1 h2 P [(A & B & D)|[(q & A & B)|(q & A & B & D)]].
    - left. repeat split; try assumption. congruence.
    - right. left. exists q. rewrite (icon_used_same_paths env h1 h2 _ P). auto.
    - right. right. exists q. rewrite !(icon_used_same_paths env h1 h2 _ P). auto. }
  enough (P : io_post (Host.load_icons join env) h
            (fun d h' =>
               grows h' /\
               (good d h' \/
                d = icons_fallback /\
                exists e l, Host.host_log h' = l ++ [Host.Err_failed_to_load_icons e] /\
                            cause e h'))
            (fun _ _ => False)).
  { apply io_post_returns in P. destruct P as (d & h' & E & Hg & Hd).
    exists d, h'. split; [exact E|]. split; [exact (G h' Hg)|]. split; assumption. }
  unfold Host.load_icons.
  apply io_post_try.
  apply io_post_weaken with
    (Q := fun d h' => grows h' /\ good d h')
    (E := fun e h' => grows h' /\ cause e h');
    [|intros d h' [A B]; auto
     |intros e h' [A B]; unfold io_post; io; cbn; split;
      [exact A|right; split; [reflexivity|]; exists e; eexists; split;
       [reflexivity|exact (C e h' _ eq_refl B)]]].
  apply io_post_bind.
  eapply io_post_weaken; [apply (get_icon_path_finds env "record" h)| |].
  2:{ intros e h' (-> & A & B). split; [left; reflexivity|]. left. auto. }
  intros r h1 (-> & D1 & G1 & _).
  apply io_post_bind with (c := if Host.truthy _ then _ else _).
  eapply io_post_weaken;
    [apply (load_icon_post env [] "record" Host.Info_record_button_loaded
              Host.Err_record_button_not_found (icon_on_disk join env h1 "record") h1)| |].
  2:{ intros e h2 (P2 & q & A & B). split.
      - unfold grows. rewrite P2. exact G1.
      - right. left. exists q. rewrite (icon_used_same_paths env h1 h2 _ P2). auto. }
  intros d1 h2 (P2 & R2).
  fold (icon_used join env h1 "record") in R2.
  assert (D2 : Host.path_exists h2 icon_dir = true)
    by (rewrite (path_exists_same_paths h1 h2 icon_dir P2); exact D1).
  apply io_post_bind.
  eapply io_post_weaken; [apply (get_icon_path_finds env "mic" h2)| |].
  2:{ intros e h' (_ & A & _). fold icon_dir in A. congruence. }
  intros m h3 (-> & D3 & _ & P3). specialize (P3 D2).
  assert (P13 : Host.paths h3 = Host.paths h1) by congruence.
  eapply io_post_weaken;
    [apply (load_icon_post env d1 "mic" Host.Info_microphone_icon_loaded
              Host.Err_microphone_icon_not_found (icon_on_disk join env h3 "mic") h3)| |].
  - intros d h4 (P4 & R4).
    fold (icon_used join env h3 "mic") in R4.
    assert (P14 : Host.paths h4 = Host.paths h1) by congruence.
    split; [unfold grows; rewrite P14; exact G1|].
    unfold good.
    rewrite (icon_used_same_paths env h1 h4 "record" P14),
            (icon_used_same_paths env h3 h4 "mic" P4).
    split; [|split].
    + destruct (icon_used join env h1 "record") as [q1|];
        destruct (icon_used join env h3 "mic") as [q3|].
      * destruct R2 as [-> _], R4 as [-> _]. reflexivity.
      * destruct R2 as [-> _]. subst d. reflexivity.
      * subst d1. destruct R4 as [-> _]. reflexivity.
      * subst d1 d. reflexivity.
    + rewrite (path_exists_same_paths h3 h4 icon_dir P4). exact D3.
    + intros k q [->| ->] Hq.
      * split; [exact (@icon_used_exists env h4 "record" q Hq)|].
        rewrite (icon_used_same_paths env h1 h4 "record" P14) in Hq.
        rewrite Hq in R2. apply R2.
      * split; [exact (@icon_used_exists env h4 "mic" q Hq)|].
        rewrite (icon_used_same_paths env h3 h4 "mic" P4) in Hq.
        rewrite Hq in R4. apply R4.
  - intros e h4 (P4 & q & A & B).
    fold (icon_used join env h3 "mic") in A.
    assert (P14 : Host.paths h4 = Host.paths h1) by congruence.
    split; [unfold grows; rewrite P14; exact G1|].
    right. right. exists q.
    rewrite (icon_used_same_paths env h1 h4 "record" P14),
            (icon_used_same_paths env h3 h4 "mic" P4).
    split; [exact A|]. split; [exact B|].
    intros q' Hq. rewrite Hq in R2. apply R2.
Qed.

(** X19.  The icon of the microphone is missing on the disk and nothing
    raises in [load_icons]: its dictionary has no key ["mic"] (the fallback
    with both keys is only for an exception), the miss is logged, and the
    window built from it can not start a recording: every toggle raises
    [KeyError] and changes nothing. *)
Theorem missing_mic_icon_blocks_recording (env : Host.HostEnv) (h : Host.Host) :
  let icon_dir := Host.get_resource_path join env "icons" in
  Host.path_exists h icon_dir = true ->
  (forall q, Host.image_fault env q = None) ->
  Host.path_exists h (join icon_dir "mic.ico") = false ->
  Host.path_exists h (join icon_dir "mic.png") = false ->
  exists d h',
    Host.load_icons join env h = (Ok d, h') /\
    Gui.dict_get d "mic" = None /\
    In Host.Err_microphone_icon_not_found (Host.host_log h') /\
    forall engine,
      Gui.WhisperGUI.toggle_recording (Gui.WhisperGUI.__init__ engine d)
      = (Raise "'mic'", Gui.WhisperGUI.__init__ engine d).
Proof.
  intros icon_dir Hd Hi Hico Hpng.
  assert (P : io_post (Host.load_icons join env) h
                (fun d h' => Gui.dict_get d "mic" = None /\
                             In Host.Err_microphone_icon_not_found (Host.host_log h'))
                (fun _ _ => False)).
  { unfold Host.load_icons.
    apply io_post_try.
    eapply io_post_weaken with
      (Q := fun d h' => Gui.dict_get d "mic" = None /\
                        In Host.Err_microphone_icon_not_found (Host.host_log h'))
      (E := fun _ _ => False); [|auto|intros e h' []].
    apply io_post_bind.
    eapply io_post_weaken; [apply (get_icon_path_post env "record" h)| |].
    2:{ intros e h' [_ G]. fold icon_dir in G. congruence. }
    intros r h1 (_ & _ & _ & P1). specialize (P1 Hd).
    apply io_post_bind with (c := if Host.truthy r then _ else _).
    assert (S1 : io_post
              (if Host.truthy r
               then match r with
                    | Some path =>
                        Host.io_bind (Host.load_photo env path) (fun ph =>
                          Host.io_bind (Host.io_log Host.Info_record_button_loaded)
                            (fun _ => Host.io_ret (Host.dict_set [] "record" (Some ph))))
                    | None => Host.io_ret []
                    end
               else Host.io_bind (Host.io_log Host.Err_record_button_not_found)
                      (fun _ => Host.io_ret [])) h1
              (fun d1 h2 =>
                 Host.paths h2 = Host.paths h /\
                 exists r', d1 = icon_entry "record" r')
              (fun _ _ => False)).
    { unfold io_post. io. destruct r as [path|]; cbn.
      - destruct (negb (path =? EmptyString)%string); cbn.
        + rewrite Hi. cbn. split; [exact P1|]. exists (Some path). reflexivity.
        + split; [exact P1|]. exists None. reflexivity.
      - split; [exact P1|]. exists None. reflexivity. }
    eapply io_post_weaken; [exact S1| |auto].
    intros d1 h2 (P2 & r' & ->).
    assert (Hd2 : Host.path_exists h2 icon_dir = true)
      by (rewrite (path_exists_same_paths h h2 icon_dir P2); exact Hd).
    apply io_post_bind.
    eapply io_post_weaken; [apply (get_icon_path_post env "mic" h2)| |].
    2:{ intros e h' [_ G]. fold icon_dir in G. congruence. }
    intros m h3 (_ & F3 & N3 & P3). specialize (P3 Hd2).
    destruct m as [path|].
    { exfalso. destruct (F3 path eq_refl) as [Hp [->| ->]];
        rewrite (path_exists_same_paths h h3 _ (eq_trans P3 P2)) in Hp;
        fold icon_dir in Hp; cbn in Hp; congruence. }
    destruct (N3 eq_refl) as (_ & _ & L3).
    unfold io_post. io. cbn. split.
    - destruct r'; reflexivity.
    - apply in_or_app. right. now left. }
  apply io_post_returns in P. destruct P as (d & h' & E & Hm & Hl).
  exists d, h'. repeat split; try assumption.
  intros engine. py_gui. cbn. rewrite Hm. reflexivity.
Qed.

End Load_icons.

Lemma missing_mic_icon_blocks_recording_witness :
  let h := disk ["/app/icons"; "/app/icons/record.png"] in
  exists d h',
    Host.load_icons join_slash host_env_ok h = (Ok d, h') /\
    Gui.dict_get d "mic" = None /\
    In Host.Err_microphone_icon_not_found (Host.host_log h') /\
    forall engine,
      Gui.WhisperGUI.toggle_recording (Gui.WhisperGUI.__init__ engine d)
      = (Raise "'mic'", Gui.WhisperGUI.__init__ engine d).
Proof.
  intros h.
  apply (@missing_mic_icon_blocks_recording join_slash host_env_ok h).
  - reflexivity.
  - intros q. reflexivity.
  - reflexivity.
  - reflexivity.
Defined.

Section Cli_icons.

Variable abspath : string -> string.

(** X20.  The same in [whisper_cli.py], where the icons are PNG files under
    the working directory: when [icons/mic.png] is missing and nothing
    raises, the dictionary has no key ["mic"], and every toggle of the
    window built from it raises [KeyError] and changes nothing. *)
Theorem cli_missing_mic_icon_blocks_recording (env : Host.HostEnv) (h : Host.Host) :
  Host.path_exists h "icons" = true ->
  (forall q, Host.image_fault env q = None) ->
  Host.path_exists h (abspath "icons/mic.png") = false ->
  exists d h',
    CliWindow.load_icons abspath env h = (Ok d, h') /\
    Gui.dict_get d "mic" = None /\
    In Host.Err_microphone_icon_not_found (Host.host_log h') /\
    forall engine,
      CliWindow.WhisperGUI.toggle_recording (CliWindow.WhisperGUI.__init__ engine d)
      = (Raise "'mic'", CliWindow.WhisperGUI.__init__ engine d).
Proof.
  intros Hd Hi Hm.
  assert (E : exists d h',
             CliWindow.load_icons abspath env h = (Ok d, h') /\
             Gui.dict_get d "mic" = None /\
             In Host.Err_microphone_icon_not_found (Host.host_log h')).
  { io. rewrite Hd. cbn -[Host.path_exists].
    change (Host.path_exists _ (abspath "icons/record.png"))
      with (Host.path_exists h (abspath "icons/record.png")).
    destruct (Host.path_exists h (abspath "icons/record.png")); cbn -[Host.path_exists].
    - rewrite Hi. cbn -[Host.path_exists].
      change (Host.path_exists _ (abspath "icons/mic.png"))
        with (Host.path_exists h (abspath "icons/mic.png")).
      rewrite Hm. cbn. eexists. eexists. split; [reflexivity|]. cbn.
      split; [reflexivity|]. rewrite !in_app_iff. cbn. tauto.
    - change (Host.path_exists _ (abspath "icons/mic.png"))
        with (Host.path_exists h (abspath "icons/mic.png")).
      rewrite Hm. cbn. eexists. eexists. split; [reflexivity|]. cbn.
      split; [reflexivity|]. rewrite !in_app_iff. cbn. tauto. }
  destruct E as (d & h' & E & Hk & Hl).
  exists d, h'. repeat split; try assumption.
  intros engine.
  unfold CliWindow.WhisperGUI.toggle_recording, CliWindow.WhisperGUI.start_recording.
  py_gui. cbn. rewrite Hk. reflexivity.
Qed.

End Cli_icons.

Lemma cli_missing_mic_icon_blocks_recording_witness :
  let abspath := fun q => ("/home/user/" ++ q)%string in
  let h := disk ["icons"; "/home/user/icons/record.png"] in
  exists d h',
    CliWindow.load_icons abspath host_env_ok h = (Ok d, h') /\
    Gui.dict_get d "mic" = None /\
    In Host.Err_microphone_icon_not_found (Host.host_log h') /\
    forall engine,
      CliWindow.WhisperGUI.toggle_recording (CliWindow.WhisperGUI.__init__ engine d)
      = (Raise "'mic'", CliWindow.WhisperGUI.__init__ engine d).
Proof.
  intros abspath h.
  apply (@cli_missing_mic_icon_blocks_recording abspath host_env_ok h).
  - reflexivity.
  - intros q. reflexivity.
  - reflexivity.
Defined.

(** ** The icon file of [create_icons.py] *)

Section Create_icon.

Variable join : string -> string -> string.

Lemma io_post_get {A} (k : Host.Host -> Host.IO A) (h : Host.Host)
    (Q : A -> Host.Host -> Prop) (E : exn -> Host.Host -> Prop) :
  io_post (k h) h Q E -> io_post (Host.io_bind Host.io_get k) h Q E.
Proof. intros H. exact H. Qed.

(** The loop of the sizes: every size gives an image of that size, in the
    order of the sizes, unless a call of [resize] raises; the host is not
    touched. *)
Lemma resize_all_post (env : Host.HostEnv) (img : Host.Image) (ss : list (nat * nat))
    (acc : list Host.Image) (h : Host.Host) :
  io_post (Host.resize_all env img ss acc) h
    (fun l h' =>
       h' = h /\
       l = acc ++ map (fun s => {| Host.width := fst s; Host.height := snd s |}) ss /\
       first_raised (Host.resize_fault env) ss = None)
    (fun e h' => h' = h /\ first_raised (Host.resize_fault env) ss = Some e).
Proof.
  revert acc. induction ss as [|s ss IH]; intros acc.
  - unfold io_post. cbn. rewrite app_nil_r. auto.
  - cbn [Host.resize_all first_raised]. apply io_post_bind. unfold Host.resize.
    apply io_post_bind. unfold io_post at 1. io.
    destruct (Host.resize_fault env s) as [e|]; [split; reflexivity|].
    unfold io_post at 1. cbn.
    eapply io_post_weaken; [apply IH| |auto].
    intros l h' (-> & -> & F). split; [reflexivity|]. split; [|exact F].
    rewrite <- app_assoc. reflexivity.
Qed.

(** X21.  [create_mic_icon] never raises and loses no path.  It returns
    [True] exactly when every step went through: the directory was there
    or could be made, [mic.png] is there and could be opened, the six
    calls of [resize] and the call of [save] did not raise.  Then
    [Image.save] was called once, for [mic.ico], on the image of 16 by 16,
    with the five larger images as [append_images] and the six sizes from
    16 to 256 as [sizes], whatever the size of the PNG, and the last line
    of the log reports the file.  (Which of these images the encoder
    stores in the file is the library's matter.)  When it returns [False],
    [save] has written nothing and the last line of the log gives the
    cause as it is on the disk: [mic.png] is missing, or else the
    exception, which is what [os.makedirs] raised for the missing
    directory, or what opening the PNG raised, or the first that a
    [resize] raised, or what [save] raised. *)
Theorem create_mic_icon_asks_for_six_sizes (env : Host.HostEnv) (h : Host.Host) :
  let png := join "icons" "mic.png" in
  let ico := join "icons" "mic.ico" in
  exists b h',
    Host.create_mic_icon join env h = (Ok b, h') /\
    keeps_paths h h' /\
    (b = true ->
     Host.path_exists h' png = true /\
     Host.path_exists h' ico = true /\
     (Host.path_exists h "icons" = false -> Host.makedirs_fault env = None) /\
     (exists img, Host.png_image env = Ok img) /\
     first_raised (Host.resize_fault env) Host.sizes = None /\
     Host.save_fault env = None /\
     (exists l, Host.host_log h' = l ++ [Host.Info_created_mic_ico ico]) /\
     exists f,
       Host.saved h' = Host.saved h ++ [f] /\
       Host.ico_path f = ico /\
       Host.ico_first f = {| Host.width := 16; Host.height := 16 |} /\
       Host.ico_append_images f
       = [ {| Host.width := 32; Host.height := 32 |};
           {| Host.width := 48; Host.height := 48 |};
           {| Host.width := 64; Host.height := 64 |};
           {| Host.width := 128; Host.height := 128 |};
           {| Host.width := 256; Host.height := 256 |} ] /\
       Host.ico_sizes f = Host.sizes) /\
    (b = false ->
     Host.saved h' = Host.saved h /\
     ((Host.path_exists h' png = false /\
       (Host.path_exists h "icons" = false -> Host.makedirs_fault env = None) /\
       exists l, Host.host_log h' = l ++ [Host.Err_mic_png_not_found png])
      \/
      exists e l,
        Host.host_log h' = l ++ [Host.Err_failed_to_create_mic_ico e] /\
        ((Host.path_exists h "icons" = false /\ Host.makedirs_fault env = Some e) \/
         (Host.path_exists h' png = true /\
          (Host.png_image env = Raise e \/
           (exists img, Host.png_image env = Ok img) /\
           (first_raised (Host.resize_fault env) Host.sizes = Some e \/
            first_raised (Host.resize_fault env) Host.sizes = None /\
            Host.save_fault env = Some e)))))).
Proof.
  intros png ico.
  set (cause := fun (e : exn) (h' : Host.Host) =>
    (Host.path_exists h "icons" = false /\ Host.makedirs_fault env = Some e) \/
    (Host.path_exists h' png = true /\
     (Host.png_image env = Raise e \/
      (exists img, Host.png_image env = Ok img) /\
      (first_raised (Host.resize_fault env) Host.sizes = Some e \/
       first_raised (Host.resize_fault env) Host.sizes = None /\
       Host.save_fault env = Some e)))).
  set (Q := fun (b : bool) (h' : Host.Host) =>
    keeps_paths h h' /\
    (b = true ->
     Host.path_exists h' png = true /\
     Host.path_exists h' ico = true /\
     (Host.path_exists h "icons" = false -> Host.makedirs_fault env = None) /\
     (exists img, Host.png_image env = Ok img) /\
     first_raised (Host.resize_fault env) Host.sizes = None /\
     Host.save_fault env = None /\
     (exists l, Host.host_log h' = l ++ [Host.Info_created_mic_ico ico]) /\
     exists f,
       Host.saved h' = Host.saved h ++ [f] /\
       Host.ico_path f = ico /\
       Host.ico_first f = {| Host.width := 16; Host.height := 16 |} /\
       Host.ico_append_images f
       = [ {| Host.width := 32; Host.height := 32 |};
           {| Host.width := 48; Host.height := 48 |};
           {| Host.width := 64; Host.height := 64 |};
           {| Host.width := 128; Host.height := 128 |};
           {| Host.width := 256; Host.height := 256 |} ] /\
       Host.ico_sizes f = Host.sizes) /\
    (b = false ->
     Host.saved h' = Host.saved h /\
     ((Host.path_exists h' png = false /\
       (Host.path_exists h "icons" = false -> Host.makedirs_fault env = None) /\
       exists l, Host.host_log h' = l ++ [Host.Err_mic_png_not_found png])
      \/
      exists e l,
        Host.host_log h' = l ++ [Host.Err_failed_to_create_mic_ico e] /\
        cause e h'))).
  set (E := fun (e : exn) (h' : Host.Host) =>
    keeps_paths h h' /\ Host.saved h' = Host.saved h /\ cause e h').
  apply io_post_returns with (Q := Q).
  unfold Host.create_mic_icon.
  apply io_post_try.
  apply io_post_weaken with (Q := Q) (E := E); [|auto|].
  2:{ intros e h' (M & S & C). unfold io_post. io. cbn -[Host.path_exists].
      split; [exact M|]. split; [discriminate|]. intros _. split; [exact S|].
      right. exists e. eexists. split; [reflexivity|exact C]. }
  apply io_post_get. apply io_post_bind.
  apply io_post_weaken with
    (Q := fun (_ : unit) h1 =>
            keeps_paths h h1 /\ Host.saved h1 = Host.saved h /\
            (Host.path_exists h "icons" = false -> Host.makedirs_fault env = None))
    (E := E).
  { unfold io_post, E, cause. io.
    destruct (Host.path_exists h "icons") eqn:Ed; cbn -[Host.path_exists];
      [|destruct (Host.makedirs_fault env) eqn:Em; cbn -[Host.path_exists]].
    - split; [apply keeps_paths_refl|]. split; [reflexivity|discriminate].
    - split; [apply keeps_paths_refl|]. split; [reflexivity|]. left. auto.
    - split; [|split; [reflexivity|reflexivity]].
      intros q Hq. eapply path_exists_cons; [reflexivity|exact Hq]. }
  2:{ auto. }
  intros _ h1 (M1 & S1 & D1). apply io_post_get. fold png.
  destruct (Host.path_exists h1 png) eqn:Ep; cbn [negb].
  2:{ unfold io_post, Q. io. cbn -[Host.path_exists].
      split; [exact M1|]. split; [discriminate|]. intros _. split; [exact S1|].
      left. split; [exact Ep|]. split; [exact D1|]. eexists. reflexivity. }
  assert (Raised : forall e,
            Host.png_image env = Raise e \/
            (exists img, Host.png_image env = Ok img) /\
            (first_raised (Host.resize_fault env) Host.sizes = Some e \/
             first_raised (Host.resize_fault env) Host.sizes = None /\
             Host.save_fault env = Some e) ->
            E e h1).
  { intros e H. split; [exact M1|]. split; [exact S1|]. right. auto. }
  apply io_post_bind.
  apply io_post_weaken with
    (Q := fun (img : Host.Image) h2 => h2 = h1 /\ Host.png_image env = Ok img)
    (E := fun e h2 => h2 = h1 /\ Host.png_image env = Raise e).
  { unfold io_post. io. destruct (Host.png_image env); auto. }
  2:{ intros e h2 [-> H]. apply Raised. auto. }
  intros img h2 [-> Hi]. apply io_post_bind.
  eapply io_post_weaken; [apply (resize_all_post env img Host.sizes [] h1)| |].
  2:{ intros e h2 [-> H]. apply Raised. right. split; [eauto|auto]. }
  intros l h2 (-> & -> & Hr). cbn [Host.sizes map app fst snd]. fold ico.
  unfold io_post. io.
  destruct (Host.save_fault env) as [e1|] eqn:Es; cbn -[Host.path_exists].
  { apply Raised. right. split; [eauto|]. right. auto. }
  unfold Q.
  split; [intros q Hq; eapply path_exists_cons; [reflexivity|exact (M1 q Hq)]|].
  split; [|discriminate]. intros _.
  split; [eapply path_exists_cons; [reflexivity|exact Ep]|].
  split; [eapply path_exists_head; reflexivity|].
  split; [exact D1|]. split; [eauto|]. split; [exact Hr|]. split; [reflexivity|].
  split; [eexists; reflexivity|].
  eexists. rewrite S1. repeat split.
Qed.

End Create_icon.

(** ** Loading the model *)

Section Load_model.

Variable join : string -> string -> string.

(** The loop of [load_model]: the first path that exists, in the order of
    the list, becomes [WHISPER_ASSETS]. *)
Lemma find_assets_first (ps : list string) (h : Host.Host) :
  Host.find_assets ps h =
  match find (Host.path_exists h) ps with
  | Some q =>
      (Ok true,
       {| Host.paths := Host.paths h; Host.WHISPER_ASSETS := Some q;
          Host.saved := Host.saved h; Host.model_loads := Host.model_loads h;
          Host.host_log := Host.host_log h ++ [Host.Info_found_assets q] |})
  | None => (Ok false, h)
  end.
Proof.
  induction ps as [|q ps IH]; [reflexivity|].
  cbn [Host.find_assets find]. io.
  destruct (Host.path_exists h q); [reflexivity|]. exact IH.
Qed.

(** X22.  Where [load_model] of [whisper_gui.py] takes the assets from,
    and how often it calls [whisper.load_model].  When the first call
    succeeds it is the only one, and [WHISPER_ASSETS] is left alone.  When
    it fails and a candidate exists, [WHISPER_ASSETS] is set to the first
    candidate that exists, in the order bundle of the frozen program,
    directory of the program, site-packages, and [whisper.load_model] is
    called a second time, with that value in place; its outcome is the
    outcome of [load_model].  So the bundle, when it is there, wins over
    whatever is installed.  When no candidate exists, [load_model] raises
    "Whisper assets not found", [WHISPER_ASSETS] is left alone and the
    failed call stays the only one. *)
Theorem load_model_assets_priority (env : Host.HostEnv) (r : Recorder) (h : Host.Host) :
  let res := fst (Host.load_model join env r h) in
  let h' := snd (Host.load_model join env r h) in
  let first_call := (model_name r, Host.WHISPER_ASSETS h) in
  (forall engine, Host.direct_load env = Ok engine ->
     Host.WHISPER_ASSETS h' = Host.WHISPER_ASSETS h /\
     Host.model_loads h' = Host.model_loads h ++ [first_call] /\
     res = Ok (Host.set_model engine r)) /\
  (forall e, Host.direct_load env = Raise e ->
     match find (Host.path_exists h) (Host.possible_paths join env) with
     | Some q =>
         Host.WHISPER_ASSETS h' = Some q /\
         Host.model_loads h'
         = Host.model_loads h ++ [first_call; (model_name r, Some q)] /\
         res = match Host.retry_load env with
               | Ok engine => Ok (Host.set_model engine r)
               | Raise e' => Raise e'
               end
     | None =>
         Host.WHISPER_ASSETS h' = Host.WHISPER_ASSETS h /\
         Host.model_loads h' = Host.model_loads h ++ [first_call] /\
         res = Raise "Whisper assets not found"
     end) /\
  (forall e base, Host.direct_load env = Raise e ->
     Host._MEIPASS env = Some base ->
     Host.path_exists h (join (join base "whisper") "assets") = true ->
     Host.WHISPER_ASSETS h' = Some (join (join base "whisper") "assets") /\
     Host.model_loads h'
     = Host.model_loads h
       ++ [first_call; (model_name r, Some (join (join base "whisper") "assets"))]).
Proof.
  intros res h' first_call.
  assert (A : forall e, Host.direct_load env = Raise e ->
            match find (Host.path_exists h) (Host.possible_paths join env) with
            | Some q =>
                Host.WHISPER_ASSETS h' = Some q /\
                Host.model_loads h'
                = Host.model_loads h ++ [first_call; (model_name r, Some q)] /\
                res = match Host.retry_load env with
                      | Ok engine => Ok (Host.set_model engine r)
                      | Raise e' => Raise e'
                      end
            | None =>
                Host.WHISPER_ASSETS h' = Host.WHISPER_ASSETS h /\
                Host.model_loads h' = Host.model_loads h ++ [first_call] /\
                res = Raise "Whisper assets not found"
            end).
  { intros e He. subst res h' first_call.
    remember (Host.load_model join env r h) as x eqn:Ex.
    unfold Host.load_model, Host.io_try, Host.io_bind in Ex.
    unfold Host.whisper_load_model at 1, Host.io_log at 1 2 3 in Ex. rewrite He in Ex.
    cbn -[Host.find_assets find Host.whisper_load_model] in Ex.
    rewrite find_assets_first in Ex.
    change (Host.path_exists _) with (Host.path_exists h) in Ex.
    destruct (find (Host.path_exists h) (Host.possible_paths join env)) as [q|];
      cbn in Ex; [|subst x; repeat split].
    destruct (Host.retry_load env); cbn in Ex; subst x; cbn;
      rewrite <- app_assoc; repeat split. }
  split; [|split].
  - intros engine He. subst res h' first_call.
    remember (Host.load_model join env r h) as x eqn:Ex.
    unfold Host.load_model, Host.whisper_load_model, Host.io_try, Host.io_bind,
      Host.io_log, Host.io_ret in Ex.
    rewrite He in Ex. cbn in Ex. subst x. repeat split.
  - exact A.
  - intros e base He Hb Hp. specialize (A e He).
    unfold Host.possible_paths in A. rewrite Hb in A. cbn [app find] in A.
    rewrite Hp in A. destruct A as (A1 & A2 & _). split; assumption.
Qed.

(** X23.  [load_model] loads all or nothing, in both files.  When it
    returns, the recorder it hands back is the one it was given but for the
    model, which is an engine that [whisper.load_model] returned; when it
    raises, the failure is the last line of the log.  It touches neither
    the files nor the icons written. *)
Theorem load_model_all_or_nothing (env : Host.HostEnv) (r : Recorder) (h : Host.Host) :
  (let (res, h') := Host.load_model join env r h in
   Host.paths h' = Host.paths h /\ Host.saved h' = Host.saved h /\
   match res with
   | Ok r' =>
       exists engine,
         r' = Host.set_model engine r /\
         (Host.direct_load env = Ok engine \/ Host.retry_load env = Ok engine)
   | Raise e =>
       exists l, Host.host_log h' = l ++ [Host.Err_failed_to_load_model e]
   end) /\
  (let (res, h') := Host.cli_load_model env r h in
   Host.paths h' = Host.paths h /\ Host.saved h' = Host.saved h /\
   match res with
   | Ok r' => exists engine, r' = Host.set_model engine r /\ Host.direct_load env = Ok engine
   | Raise e =>
       Host.direct_load env = Raise e /\
       exists l, Host.host_log h' = l ++ [Host.Err_failed_to_load_model e]
   end).
Proof.
  split.
  - unfold Host.load_model, Host.io_try, Host.io_bind.
    unfold Host.whisper_load_model at 1, Host.io_log at 1 2 3.
    destruct (Host.direct_load env) as [engine|e] eqn:Ed;
      cbn -[Host.find_assets find Host.whisper_load_model].
    + repeat split. exists engine. auto.
    + rewrite find_assets_first.
      change (Host.path_exists _) with (Host.path_exists h).
      destruct (find (Host.path_exists h) (Host.possible_paths join env)) as [q|]; cbn.
      * destruct (Host.retry_load env) as [engine|e1] eqn:Er; cbn; repeat split.
        -- exists engine. auto.
        -- eexists. reflexivity.
      * repeat split. eexists. reflexivity.
  - io. unfold Host.whisper_load_model.
    destruct (Host.direct_load env) as [engine|e] eqn:Ed; cbn; repeat split.
    + exists engine. auto.
    + eexists. reflexivity.
Qed.

End Load_model.

Lemma load_model_assets_priority_witness :
  let env := {| Host._MEIPASS := Some "/tmp/_MEI42";
                Host.script_dir := "/app";
                Host.makedirs_fault := None;
                Host.image_fault := fun _ => None;
                Host.png_image := Raise "no image";
                Host.resize_fault := fun _ => None;
                Host.save_fault := None;
                Host.direct_load := Raise "mel_filters.npz not found";
                Host.retry_load := Ok engine_hello;
                Host.site_packages := ["/usr/lib/python3/site-packages"] |} in
  let h := disk ["/usr/lib/python3/site-packages/whisper/assets";
                 "/tmp/_MEI42/whisper/assets"] in
  let h' := snd (Host.load_model join_slash env
                   (Gui.WhisperRecorder.__init__ "small" 16000 1) h) in
  Host.WHISPER_ASSETS h' = Some "/tmp/_MEI42/whisper/assets" /\
  Host.model_loads h'
  = [("small", None); ("small", Some "/tmp/_MEI42/whisper/assets")].
Proof.
  intros env h.
  apply (proj2 (proj2 (@load_model_assets_priority join_slash env
                         (Gui.WhisperRecorder.__init__ "small" 16000 1) h))
           "mel_filters.npz not found" "/tmp/_MEI42").
  - reflexivity.
  - reflexivity.
  - reflexivity.
Defined.

(** ** The place of the window *)

(** X24.  The window of [WhisperGUI.__init__] is 1200 by 150 and is centred
    across the screen to the pixel: the margins left and right differ by one
    pixel at most.  On a screen of 1200 pixels or more it lies within the
    screen; on a narrower one its left edge is off the screen.  Its top is
    within the first fifth of the height ([whisper_gui.py]) or the first
    third ([whisper_cli.py]). *)
Theorem window_is_centred (screen_width screen_height : Z) :
  let '(w, ht, x, y) := Host.window_geometry screen_width screen_height in
  let '(w', ht', x', y') := Host.cli_window_geometry screen_width screen_height in
  (w = 1200 /\ ht = 150 /\ w' = 1200 /\ ht' = 150 /\ x' = x)%Z /\
  (0 <= (screen_width - (x + w)) - x <= 1)%Z /\
  (1200 <= screen_width -> 0 <= x /\ x + w <= screen_width)%Z /\
  (screen_width < 1200 -> x < 0)%Z /\
  (0 <= screen_height -> 0 <= y /\ 5 * y <= screen_height /\
                         0 <= y' /\ 3 * y' <= screen_height)%Z.
Proof.
  unfold Host.window_geometry, Host.cli_window_geometry. cbv zeta.
  pose proof (Z.div_mod (screen_width - 1200) 2 ltac:(lia)) as H2.
  pose proof (Z.mod_pos_bound (screen_width - 1200) 2 ltac:(lia)) as B2.
  pose proof (Z.div_mod screen_height 5 ltac:(lia)) as H5.
  pose proof (Z.mod_pos_bound screen_height 5 ltac:(lia)) as B5.
  pose proof (Z.div_mod screen_height 3 ltac:(lia)) as H3.
  pose proof (Z.mod_pos_bound screen_height 3 ltac:(lia)) as B3.
  repeat split; try reflexivity; try lia.
Qed.

Lemma window_is_centred_witness :
  Host.window_geometry 1921 1080 = (1200, 150, 360, 216)%Z /\
  (0 <= 360 /\ 360 + 1200 <= 1921)%Z.
Proof.
  split; [reflexivity|].
  pose proof (window_is_centred 1921 1080) as H.
  cbv beta iota zeta delta [Host.window_geometry Host.cli_window_geometry] in H.
  destruct H as (_ & _ & H & _).
  change ((1921 - 1200) / 2)%Z with 360%Z in H. apply H. lia.
Defined.
